(** * Rush Royale Bot: perception, device registry and orchestrator

    A shallow embedding of the parts of the repository that the
    specification talks about, and the properties proved of them.

    The repository carries two parallel service stacks:
    - [src/backend/app/services]: [vision_service.py], [bot_service.py],
      [device_service.py];
    - [src/api/services]: [bot_service.py], [device_service.py].
    Both are embedded, each in modules of its own.

    Conventions of the embedding.
    - Python [int] is [Z]; Python [float] is modelled by exact rationals [Q]
      (no rounding), so [/] is exact division and [int(x)] on a
      non-negative value is [Qfloor].  Module [Binary64] evaluates the
      float expressions of the perception code with machine floats, to
      compare the two.  The average of the processing times, where
      rounding shows, is embedded over its float operations instead.
    - A Python call that may raise returns a [result]; a [try ... except
      Exception] block is a [match] on that result.
    - Calls that leave the repository (OpenCV, the trained classifier, the
      adb bridge, the clock) are inputs of the functions that use them. *)

From Stdlib Require Import ZArith QArith Qminmax Qround String Ascii List Bool Lia.
From Stdlib Require Import Floats Uint63.
From stdpp Require Import base gmap strings list sorting pretty.

Open Scope Z_scope.

(** ** Python values shared by the services *)

Module Py.

(** Exceptions the modelled code raises or receives. *)
Inductive exn : Type :=
| ImportError (msg : string)
| ValueError (msg : string)
| RuntimeError (msg : string)
| IndexError
| ZeroDivisionError
| Cv2Error (msg : string).

Inductive result (A : Type) : Type :=
| Return (a : A)
| Raise (e : exn).
Arguments Return {A} a.
Arguments Raise {A} e.

Definition bind {A B} (k : A -> result B) (r : result A) : result B :=
  match r with
  | Return a => k a
  | Raise e => Raise e
  end.

Definition returns {A} (r : result A) : Prop := exists a, r = Return a.

(** [l[i]] for a non-negative index: [IndexError] out of range. *)
Definition getitem {A} (l : list A) (i : nat) : result A :=
  match nth_error l i with
  | Some a => Return a
  | None => Raise IndexError
  end.

(** Normalisation of one bound of a slice [l[a:b]] against [len(l)]:
    a negative bound counts from the end, and both are clamped. *)
Definition clamp (len i : Z) : Z :=
  if i <? 0 then Z.max 0 (len + i) else Z.min i len.

(** [l[start:stop]] (step 1): never raises. *)
Definition slice {A} (l : list A) (start stop : Z) : list A :=
  let n := Z.of_nat (length l) in
  let a := clamp n start in
  let b := clamp n stop in
  firstn (Z.to_nat (b - a)) (skipn (Z.to_nat a) l).

(** [l[start:]]. *)
Definition slice_from {A} (l : list A) (start : Z) : list A :=
  skipn (Z.to_nat (clamp (Z.of_nat (length l)) start)) l.

(** Payloads carried by events: a flat dictionary of atoms.  [AOpaque]
    stands for an object the model does not look into (a coroutine, a
    nested analysis). *)
Inductive atom : Type :=
| ANone
| ABool (b : bool)
| AInt (n : Z)
| AStr (s : string)
| AOpaque (what : string).

Definition payload : Type := list (string * atom).

End Py.

Import Py.

#[global] Instance result_ret : MRet result := @Return.
#[global] Instance result_bind : MBind result := @bind.


(** ** Strings: the [str] methods the services use *)

Module Str.

(** [needle in haystack]. *)
Fixpoint contains_from (fuel : nat) (needle hay : string) : bool :=
  if String.prefix needle hay then true
  else match fuel, hay with
       | S fuel', String _ rest => contains_from fuel' needle rest
       | _, _ => false
       end.

Definition contains (needle hay : string) : bool :=
  contains_from (String.length hay) needle hay.

(** [s.count(c)] for a one-character [c]. *)
Fixpoint count_char (c : ascii) (s : string) : nat :=
  match s with
  | EmptyString => 0%nat
  | String d rest => ((if Ascii.eqb c d then 1 else 0) + count_char c rest)%nat
  end.

(** Characters [str.split()] treats as separators (code points below
    256 for which [str.isspace()] holds). *)
Definition is_space (c : ascii) : bool :=
  let n := nat_of_ascii c in
  ((9 <=? n) && (n <=? 13) || (28 <=? n) && (n <=? 32)
   || (n =? 133) || (n =? 160))%nat.

(** [s.split()]: maximal runs of non-space characters, in order. *)
Fixpoint split_ws_aux (cur : string) (s : string) : list string :=
  match s with
  | EmptyString => if String.eqb cur "" then [] else [String.rev cur]
  | String c rest =>
      if is_space c
      then (if String.eqb cur "" then split_ws_aux "" rest
            else String.rev cur :: split_ws_aux "" rest)
      else split_ws_aux (String c cur) rest
  end.

Definition split (s : string) : list string := split_ws_aux "" s.

(** [s.split(sep)] for a one-character separator: every occurrence
    cuts, empty pieces are kept. *)
Fixpoint split_on_aux (sep : ascii) (cur : string) (s : string) : list string :=
  match s with
  | EmptyString => [String.rev cur]
  | String c rest =>
      if Ascii.eqb c sep then String.rev cur :: split_on_aux sep "" rest
      else split_on_aux sep (String c cur) rest
  end.

Definition split_on (sep : ascii) (s : string) : list string :=
  split_on_aux sep "" s.

(** [s.strip()]. *)
Fixpoint lstrip (s : string) : string :=
  match s with
  | String c rest => if is_space c then lstrip rest else s
  | EmptyString => EmptyString
  end.

Definition strip (s : string) : string :=
  String.rev (lstrip (String.rev (lstrip s))).

(** [s.replace(old, new)] for a non-empty [old]: leftmost
    non-overlapping occurrences. *)
Fixpoint drop (n : nat) (s : string) : string :=
  match n, s with
  | S n', String _ rest => drop n' rest
  | _, _ => s
  end.

Fixpoint replace_from (fuel : nat) (old new : string) (s : string) : string :=
  match fuel with
  | O => s
  | S fuel' =>
      match s with
      | EmptyString => EmptyString
      | String c rest =>
          if String.prefix old s
          then new ++ replace_from fuel' old new (drop (String.length old) s)
          else String c (replace_from fuel' old new rest)
      end
  end.

Definition replace (old new s : string) : string :=
  replace_from (String.length s) old new s.

End Str.

(** ** Perception: [src/backend/app/services/vision_service.py] *)

Module Vision.

(** A pixel as OpenCV stores it, [(b, g, r)], and a colour as the
    service handles it after [COLOR_BGR2RGB], [(r, g, b)]. *)
Definition pixel : Type := Z * Z * Z.
Definition color : Type := Z * Z * Z.

(** A decoded image: rows of pixels.  Every image of the service comes
    from [cv2.imdecode] or [cv2.imread] with [IMREAD_COLOR], so it has
    three channels and [len(image.shape) == 3] always holds. *)
Definition image : Type := list (list pixel).

Definition img_height (img : image) : Z := Z.of_nat (length img).

Definition img_width (img : image) : Z :=
  match img with
  | [] => 0
  | row :: _ => Z.of_nat (length row)
  end.

(** [image.size]. *)
Definition img_size (img : image) : Z := img_height img * img_width img * 3.

(** [image[y0:y1, x0:x1]]. *)
Definition crop_rect (img : image) (y0 y1 x0 x1 : Z) : image :=
  map (fun row => slice row x0 x1) (slice img y0 y1).

(** The calls into OpenCV, base64 and the decoder.
    - [gray_of], [hsv_of]: what [cv2.cvtColor] makes of one pixel with
      [COLOR_BGR2GRAY] and [COLOR_BGR2HSV];
    - [match_template cell template]: [cv2.resize] of the template to
      the cell, [cv2.matchTemplate] with [TM_CCOEFF_NORMED] and the
      maximum found by [cv2.minMaxLoc]. *)
Record Cv2 : Type := {
  CV2_AVAILABLE : bool;
  b64decode : string -> result string;
  imdecode : string -> option image;
  gray_of : pixel -> Z;
  hsv_of : pixel -> Z * Z * Z;
  match_template : image -> image -> result Q
}.

Record GridConfig : Type := {
  rows : Z;
  cols : Z;
  cell_width : Z;
  cell_height : Z;
  grid_start_x : Z;
  grid_start_y : Z;
  cell_spacing : Z
}.

Record ManaConfig : Type := {
  mana_bar_x : Z;
  mana_bar_y : Z;
  mana_bar_width : Z;
  mana_bar_height : Z;
  mana_color_range : (Z * Z * Z) * (Z * Z * Z)
}.

Record Template : Type := {
  name : string;
  template_image : image;
  threshold : Q;
  category : string
}.

(** The service object.  [rank_model], when loaded, answers an image
    with the row of class probabilities of [predict_proba] (edge
    detection included), or raises.  [templates] is the dictionary in
    insertion order.  The run statistics, which no result depends on,
    are left out. *)
Record VisionService : Type := {
  templates : list (string * Template);
  rank_model : option (image -> result (list Q));
  ref_units : list string;
  ref_colors : list color;
  grid_config : GridConfig;
  mana_config : ManaConfig
}.

Record GridCell : Type := {
  x : Z;
  y : Z;
  width : Z;
  height : Z;
  occupied : bool;
  card_type : option string;
  confidence : Q
}.

Record GridAnalysis : Type := {
  cells : list GridCell;
  grid_width : Z;
  grid_height : Z;
  total_cells : Z;
  occupied_cells : Z;
  empty_cells : Z;
  detected_cards : gmap string Z;
  ga_confidence : Q
}.

Record ManaAnalysis : Type := {
  current_mana : Z;
  max_mana : Z;
  mana_percentage : Q;
  ma_confidence : Q
}.

(** The configuration [__init__] installs. *)
Definition default_grid_config : GridConfig :=
  {| rows := 4; cols := 4; cell_width := 80; cell_height := 80;
     grid_start_x := 100; grid_start_y := 200; cell_spacing := 10 |}.

Definition default_mana_config : ManaConfig :=
  {| mana_bar_x := 50; mana_bar_y := 50;
     mana_bar_width := 200; mana_bar_height := 30;
     mana_color_range := ((100, 150, 200), (120, 255, 255)) |}.

(** *** Comparisons and arithmetic on the float model *)

Definition Qltb (a b : Q) : bool :=
  match Qcompare a b with Lt => true | _ => false end.

Definition Qleb (a b : Q) : bool :=
  match Qcompare a b with Gt => false | _ => true end.

(** [int(x)]: truncation towards zero. *)
Definition int_of (q : Q) : Z :=
  if Qltb q 0 then - Qfloor (- q)%Q else Qfloor q.

(** [round(x, 3)], halves to even. *)
Definition round3 (q : Q) : Q :=
  let s := (q * 1000)%Q in
  let f := Qfloor s in
  let r := (s - inject_Z f)%Q in
  let n := if Qltb r (1#2) then f
           else if Qltb (1#2) r then f + 1
           else if Z.even f then f else f + 1 in
  (inject_Z n / 1000)%Q.

(** A Python string used as a condition: [None] and [""] are false. *)
Definition truthy (s : option string) : bool :=
  match s with
  | Some s' => negb (String.eqb s' "")
  | None => false
  end.

(** *** [_get_color] *)

Definition rgb_of_bgr (p : pixel) : color :=
  let '(b, g, r) := p in (r, g, b).

(** [cv2.cvtColor(img, COLOR_BGR2RGB)]; OpenCV rejects an empty input. *)
Definition cvtColor_BGR2RGB (img : image) : result (list (list color)) :=
  if img_size img =? 0 then Raise (Cv2Error "cvtColor: !_src.empty()")
  else Return (map (map rgb_of_bgr) img).

(** [flat_img // 20 * 20], per channel. *)
Definition quantize (c : color) : color :=
  let '(r, g, b) := c in (r / 20 * 20, g / 20 * 20, b / 20 * 20).

(** Row order of [np.unique(..., axis=0)]: lexicographic. *)
Definition color_ltb (a b : color) : bool :=
  let '(a1, a2, a3) := a in
  let '(b1, b2, b3) := b in
  (a1 <? b1) || ((a1 =? b1) && ((a2 <? b2) || ((a2 =? b2) && (a3 <? b3)))).

Definition color_eqb (a b : color) : bool :=
  let '(a1, a2, a3) := a in
  let '(b1, b2, b3) := b in
  (a1 =? b1) && (a2 =? b2) && (a3 =? b3).

Fixpoint count_insert (c : color) (l : list (color * Z)) : list (color * Z) :=
  match l with
  | [] => [(c, 1)]
  | (d, n) :: l' =>
      if color_eqb c d then (d, n + 1) :: l'
      else if color_ltb c d then (c, 1) :: (d, n) :: l'
      else (d, n) :: count_insert c l'
  end.

(** [np.unique(flat, axis=0, return_counts=True)]: the distinct rows in
    increasing order, each with its number of occurrences. *)
Definition np_unique (flat : list color) : list (color * Z) :=
  foldr count_insert [] flat.

Fixpoint insert_sorted (n : Z) (l : list Z) : list Z :=
  match l with
  | [] => [n]
  | m :: l' => if n <=? m then n :: l else m :: insert_sorted n l'
  end.

(** [np.sort]. *)
Definition np_sort (l : list Z) : list Z := foldr insert_sorted [] l.

(** [np.where(counts == v)[0][0]]. *)
Definition where_first (counts : list Z) (v : Z) : result nat :=
  match list_find (fun c => c = v) counts with
  | Some (i, _) => Return i
  | None => Raise IndexError
  end.

Definition zeros_5x3 : list color := replicate 5 (0, 0, 0).

(** The loop [for i in range(min(5, len(sorted_count)))]. *)
Fixpoint fill_colors (unique : list color) (counts sorted_count : list Z)
         (idxs : list nat) (colors : list color) : result (list color) :=
  match idxs with
  | [] => Return colors
  | i :: idxs' =>
      v ← getitem sorted_count i;
      index ← where_first counts v;
      c ← getitem unique index;
      fill_colors unique counts sorted_count idxs' (<[i := c]> colors)
  end.

Definition crop_unit (img : image) : image :=
  let h := img_height img in
  let w := img_width img in
  let crop_size := Z.min 90 (Z.min (h - 30) (w - 34)) in
  let start_y := Z.max 0 15 in
  let start_x := Z.max 0 17 in
  crop_rect img start_y (start_y + crop_size) start_x (start_x + crop_size).

(** [_get_color], with OpenCV present: its leading
    [_check_cv2_availability()] has been passed by every caller of the
    source ([analyze_grid], [recognize_unit] and [load_unit_references]
    check before they reach it), and is embedded with them. *)
Definition _get_color (img : image) (crop : bool) : result (list color) :=
  let unit_img := if crop then crop_unit img else img in
  rgb ← cvtColor_BGR2RGB unit_img;
  let flat_img := concat rgb in
  let flat_img_round := map quantize flat_img in
  let uc := np_unique flat_img_round in
  let unique := map fst uc in
  let counts := map snd uc in
  let colors := zeros_5x3 in
  if (length unique <? 10)%nat then Return colors
  else
    let sorted_count := rev (np_sort counts) in
    fill_colors unique counts sorted_count
                (seq 0 (Nat.min 5 (length sorted_count))) colors.

(** *** [_match_unit] *)

(** One row of [np.sum((ref_colors - color)**2, axis=1)]. *)
Definition sq_dist (c ref : color) : Z :=
  let '(c1, c2, c3) := c in
  let '(r1, r2, r3) := ref in
  (r1 - c1) ^ 2 + (r2 - c2) ^ 2 + (r3 - c3) ^ 2.

(** [mse.min()]: NumPy refuses an empty array. *)
Definition np_min (l : list Z) : result Z :=
  match l with
  | [] => Raise (ValueError "zero-size array to reduction operation minimum")
  | v :: l' => Return (foldl Z.min v l')
  end.

(** [mse.argmin()]: the first position of the minimum. *)
Definition np_argmin (l : list Z) : result nat :=
  m ← np_min l; where_first l m.

(** The loop [for color in unit_colors] with its early [return]:
    [Some] is the value returned from inside the loop, [None] means the
    loop ran to its end. *)
Fixpoint match_colors (ref_units : list string) (ref_colors : list color)
         (unit_colors : list color) : result (option (string * Q)) :=
  match unit_colors with
  | [] => Return None
  | c :: rest =>
      let mse := map (sq_dist c) ref_colors in
      min_mse ← np_min mse;
      if min_mse <=? 2000 then
        best_match_idx ← np_argmin mse;
        u ← getitem ref_units best_match_idx;
        Return (Some (u, inject_Z min_mse))
      else match_colors ref_units ref_colors rest
  end.

Definition no_match : string * Q := ("empty.png"%string, inject_Z 2001).

Definition is_empty {A} (l : list A) : bool :=
  match l with [] => true | _ => false end.

Definition _match_unit (svc : VisionService) (img : image) : result (string * Q) :=
  if is_empty (ref_colors svc) || is_empty (ref_units svc) then Return no_match
  else
    unit_colors ← _get_color img true;
    hit ← match_colors (ref_units svc) (ref_colors svc) unit_colors;
    Return (default no_match hit).

(** *** [_match_rank] *)

(** [prob.max()] and [prob.argmax()] of a probability row. *)
Definition Qmax_list (l : list Q) : result Q :=
  match l with
  | [] => Raise (ValueError "zero-size array to reduction operation maximum")
  | v :: l' => Return (foldl (fun a b => if Qltb a b then b else a) v l')
  end.

Fixpoint first_at_least (m : Q) (l : list Q) (i : Z) : Z :=
  match l with
  | [] => i
  | v :: l' => if Qleb m v then i else first_at_least m l' (i + 1)
  end.

Definition _match_rank (svc : VisionService) (img : image) : Z * Q :=
  match rank_model svc with
  | None => (0, 0%Q)
  | Some predict_proba =>
      match (prob ← predict_proba img;
             m ← Qmax_list prob;
             Return (first_at_least m prob 0, round3 m)) with
      | Return r => r
      | Raise _ => (0, 0%Q)
      end
  end.

(** *** [_analyze_cell] *)

Section WithCv2.

Variable cv : Cv2.

(** [np.mean] of the grey levels of a non-empty image. *)
Definition mean_brightness (img : image) : Q :=
  let gray := map (gray_of cv) (concat img) in
  let total := foldr Z.add 0 gray in
  let count := Z.of_nat (length gray) in
  (inject_Z total / inject_Z count)%Q.

Definition unit_name_of (unit_type : string) (rank : Z) (rank_confidence : Q) : string :=
  if (0 <? rank) && Qltb (1#2) rank_confidence
  then (Str.replace ".png" "" unit_type ++ "_rank_" ++ pretty rank)%string
  else Str.replace ".png" "" unit_type.

(** The colour branch: [Some] is the triple returned from inside it,
    [None] means control falls through to the template loop. *)
Definition color_branch (svc : VisionService) (cell_image : image)
  : result (option (bool * option string * Q)) :=
  if negb (is_empty (ref_colors svc)) && negb (is_empty (ref_units svc)) then
    '(unit_type, color_confidence) ← _match_unit svc cell_image;
    if negb (String.eqb unit_type "empty.png") && Qleb color_confidence 2000 then
      let '(rank, rank_confidence) := _match_rank svc cell_image in
      let unit_name := unit_name_of unit_type rank rank_confidence in
      let final_confidence := Qmax (1#10) (1 - color_confidence / 2000) in
      Return (Some (true, Some unit_name, final_confidence))
    else Return None
  else Return None.

(** The loop over [self.templates.items()], carrying
    [(best_match, best_confidence)]. *)
Fixpoint template_loop (cell_image : image) (ts : list (string * Template))
         (best : option string * Q) : result (option string * Q) :=
  match ts with
  | [] => Return best
  | (template_name, template) :: ts' =>
      if String.eqb (category template) "card" then
        max_val ← match_template cv cell_image (template_image template);
        if Qltb (snd best) max_val && Qltb (threshold template) max_val
        then template_loop cell_image ts' (Some template_name, max_val)
        else template_loop cell_image ts' best
      else template_loop cell_image ts' best
  end.

Definition template_branch (svc : VisionService) (cell_image : image)
  : result (bool * option string * Q) :=
  '(best_match, best_confidence) ← template_loop cell_image (templates svc) (None, 0%Q);
  if truthy best_match then Return (true, best_match, best_confidence)
  else Return (true, Some "unknown"%string, (1#2)%Q).

Definition _analyze_cell (svc : VisionService) (cell_image : image)
  : result (bool * option string * Q) :=
  if img_size cell_image =? 0 then Return (false, None, 0%Q)
  else
    let mean := mean_brightness cell_image in
    if Qltb mean 30 || Qltb 220 mean then Return (false, None, (1#10)%Q)
    else
      hit ← color_branch svc cell_image;
      match hit with
      | Some r => Return r
      | None => template_branch svc cell_image
      end.

(** *** [_base64_to_image] *)

Definition _check_cv2_availability : result unit :=
  if CV2_AVAILABLE cv then Return tt
  else Raise (ImportError "OpenCV не установлен. Установите: pip install opencv-python").

Definition _base64_to_image (base64_str : string) : result image :=
  _ ← _check_cv2_availability;
  payload ← (if Str.contains "," base64_str
             then getitem (Str.split_on "," base64_str) 1
             else Return base64_str);
  img_data ← b64decode cv payload;
  match imdecode cv img_data with
  | None => Raise (ValueError "Не удалось декодировать изображение")
  | Some img => Return img
  end.

(** *** [analyze_grid] *)

Definition cell_at (g : GridConfig) (row col : Z) : Z * Z :=
  (grid_start_x g + col * (cell_width g + cell_spacing g),
   grid_start_y g + row * (cell_height g + cell_spacing g)).

Definition analyze_position (svc : VisionService) (img : image) (pos : Z * Z)
  : result GridCell :=
  let g := grid_config svc in
  let '(row, col) := pos in
  let '(cx, cy) := cell_at g row col in
  let cell_image := crop_rect img cy (cy + cell_height g) cx (cx + cell_width g) in
  '(occ, ct, conf) ← _analyze_cell svc cell_image;
  Return {| x := cx; y := cy; width := cell_width g; height := cell_height g;
            occupied := occ; card_type := ct; confidence := conf |}.

(** [for row in range(rows): for col in range(cols)]. *)
Definition positions (g : GridConfig) : list (Z * Z) :=
  row ← seqZ 0 (rows g); col ← seqZ 0 (cols g); [(row, col)].

Definition count_card (acc : gmap string Z) (c : GridCell) : gmap string Z :=
  if occupied c && truthy (card_type c) then
    match card_type c with
    | Some k => <[k := default 0 (acc !! k) + 1]> acc
    | None => acc
    end
  else acc.

Definition Qsum (l : list Q) : Q := foldl Qplus 0%Q l.

Definition analyze_grid_body (svc : VisionService) (image_base64 : string)
  : result GridAnalysis :=
  _ ← _check_cv2_availability;
  img ← _base64_to_image image_base64;
  cs ← mapM (analyze_position svc img) (positions (grid_config svc));
  let occupied_count := Z.of_nat (length (filter (fun c => occupied c = true) cs)) in
  let total := Z.of_nat (length cs) in
  let overall_confidence :=
    if is_empty cs then 0%Q
    else (Qsum (map confidence cs) / inject_Z total)%Q in
  Return {| cells := cs;
            grid_width := cols (grid_config svc);
            grid_height := rows (grid_config svc);
            total_cells := total;
            occupied_cells := occupied_count;
            empty_cells := total - occupied_count;
            detected_cards := foldl count_card ∅ cs;
            ga_confidence := overall_confidence |}.

Definition empty_grid_analysis : GridAnalysis :=
  {| cells := []; grid_width := 0; grid_height := 0; total_cells := 0;
     occupied_cells := 0; empty_cells := 0; detected_cards := ∅;
     ga_confidence := 0%Q |}.

(** [try: ... except Exception: return GridAnalysis(cells=[], ...)]. *)
Definition analyze_grid (svc : VisionService) (image_base64 : string) : GridAnalysis :=
  match analyze_grid_body svc image_base64 with
  | Return analysis => analysis
  | Raise _ => empty_grid_analysis
  end.

(** *** [analyze_mana] *)

(** [cv2.cvtColor(region, COLOR_BGR2HSV)]; an empty region is
    rejected like any empty input. *)
Definition cvtColor_BGR2HSV (img : image) : result (list (list (Z * Z * Z))) :=
  if img_size img =? 0 then Raise (Cv2Error "cvtColor: !_src.empty()")
  else Return (map (map (hsv_of cv)) img).

(** One element of [cv2.inRange(hsv, lower, upper)] being non-zero. *)
Definition in_range (range : (Z * Z * Z) * (Z * Z * Z)) (p : Z * Z * Z) : bool :=
  let '((l1, l2, l3), (u1, u2, u3)) := range in
  let '(h, s, v) := p in
  (l1 <=? h) && (h <=? u1) && (l2 <=? s) && (s <=? u2) && (l3 <=? v) && (v <=? u3).

(** [cv2.countNonZero(cv2.inRange(hsv, lower, upper))]. *)
Definition count_in_range (range : (Z * Z * Z) * (Z * Z * Z))
           (hsv : list (list (Z * Z * Z))) : Z :=
  Z.of_nat (length (filter (fun p => in_range range p = true) (concat hsv))).

Definition mana_region (m : ManaConfig) (img : image) : image :=
  crop_rect img (mana_bar_y m) (mana_bar_y m + mana_bar_height m)
            (mana_bar_x m) (mana_bar_x m + mana_bar_width m).

Definition analyze_mana_body (svc : VisionService) (image_base64 : string)
  : result ManaAnalysis :=
  _ ← _check_cv2_availability;
  img ← _base64_to_image image_base64;
  let m := mana_config svc in
  hsv ← cvtColor_BGR2HSV (mana_region m img);
  let mana_pixels := count_in_range (mana_color_range m) hsv in
  let total_pixels := mana_bar_width m * mana_bar_height m in
  if total_pixels =? 0 then Raise ZeroDivisionError
  else
    let mana_percentage := (inject_Z mana_pixels / inject_Z total_pixels * 100)%Q in
    let max_mana := 10 in
    let current_mana := int_of (mana_percentage / 100 * inject_Z max_mana)%Q in
    let confidence := Qmin (mana_percentage / 50) 1 in
    Return {| current_mana := current_mana;
              max_mana := max_mana;
              mana_percentage := mana_percentage;
              ma_confidence := confidence |}.

Definition zero_mana_analysis : ManaAnalysis :=
  {| current_mana := 0; max_mana := 10; mana_percentage := 0%Q;
     ma_confidence := 0%Q |}.

(** [try: ... except Exception: return ManaAnalysis(0, 10, 0.0, 0.0)]. *)
Definition analyze_mana (svc : VisionService) (image_base64 : string) : ManaAnalysis :=
  match analyze_mana_body svc image_base64 with
  | Return analysis => analysis
  | Raise _ => zero_mana_analysis
  end.

(** *** [recognize_unit] *)

Record UnitRecognition : Type := {
  unit_type : string;
  ur_confidence : Q;
  rank : Z;
  rank_confidence : Q;
  position : Z * Z
}.

Definition recognize_unit_body (svc : VisionService) (image_base64 : string)
  : result UnitRecognition :=
  _ ← _check_cv2_availability;
  img ← _base64_to_image image_base64;
  '(matched, color_confidence) ← _match_unit svc img;
  let '(r, r_confidence) := _match_rank svc img in
  let overall_confidence :=
    if 0 <? r then Qmin (1 - color_confidence / 2000) r_confidence
    else (1 - color_confidence / 2000)%Q in
  let h := img_height img in
  let w := img_width img in
  Return {| unit_type := if negb (String.eqb matched "empty.png")
                         then Str.replace ".png" "" matched else "empty";
            ur_confidence := Qmax 0 overall_confidence;
            rank := r;
            rank_confidence := r_confidence;
            position := (w / 2, h / 2) |}.

Definition unknown_unit : UnitRecognition :=
  {| unit_type := "unknown"; ur_confidence := 0%Q; rank := 0;
     rank_confidence := 0%Q; position := (0, 0) |}.

(** [try: ... except Exception: return UnitRecognition("unknown", 0.0, ...)]. *)
Definition recognize_unit (svc : VisionService) (image_base64 : string) : UnitRecognition :=
  match recognize_unit_body svc image_base64 with
  | Return r => r
  | Raise _ => unknown_unit
  end.

(** *** [load_unit_references] *)

(** The loop over [units_path.glob('*.png')]: every file comes with
    what [cv2.imread] makes of it.  The result is the two lists when
    the loop ends, and whether it ended without an exception. *)
Fixpoint load_references_loop (files : list (string * option image))
         (units : list string) (colors : list color)
  : list string * list color * bool :=
  match files with
  | [] => (units, colors, true)
  | (file_name, None) :: rest => load_references_loop rest units colors
  | (file_name, Some unit_image) :: rest =>
      match _get_color unit_image false with
      | Raise _ => (units, colors, false)
      | Return [] => load_references_loop rest units colors
      | Return (c0 :: _) => load_references_loop rest (units ++ [file_name]) (colors ++ [c0])
      end
  end.

Definition set_references (units : list string) (colors : list color)
           (svc : VisionService) : VisionService :=
  {| templates := templates svc; rank_model := rank_model svc;
     ref_units := units; ref_colors := colors;
     grid_config := grid_config svc; mana_config := mana_config svc |}.

(** [load_unit_references]: [dir_exists] is [units_path.exists()],
    [files] the listing of the directory. *)
Definition load_unit_references (dir_exists : bool)
           (files : list (string * option image)) (svc : VisionService)
  : VisionService * bool :=
  match _check_cv2_availability with
  | Raise _ => (svc, false)
  | Return _ =>
      if negb dir_exists then (svc, false)
      else
        let '(units, colors, finished) := load_references_loop files [] [] in
        (set_references units colors svc, finished && negb (is_empty units))
  end.

(** *** [_update_processing_time] *)

(** Processing times are Python floats, and [sum(times) / len(times)]
    is computed by the interpreter on binary64 values.  The timing is
    embedded over any carrier [F] of measurements with its summation
    [fsum] and its division by a count [fdiv]; [Binary64] below has the
    binary64 instance. *)
Section WithFloats.

Variable F : Type.
Variable fsum : list F -> F.
Variable fdiv : F -> nat -> F.

(** The two attributes the timing touches: [processing_times] and
    [stats.average_processing_time]. *)
Record Timing : Type := {
  processing_times : list F;
  average_processing_time : F
}.

(** [sum(times) / len(times)]: division by zero on an empty list. *)
Definition mean (times : list F) : result F :=
  if (length times =? 0)%nat then Raise ZeroDivisionError
  else Return (fdiv (fsum times) (length times)).

Definition _update_processing_time (processing_time : F) (t : Timing)
  : result Timing :=
  let times := processing_times t ++ [processing_time] in
  let times := if (100 <? length times)%nat then slice_from times (-100) else times in
  average ← mean times;
  Return {| processing_times := times;
            average_processing_time := average |}.

End WithFloats.

(** *** [_extract_cell_image] and [analyze_grid_status] *)

Definition _extract_cell_image (svc : VisionService) (img : image) (row col : Z)
  : option image :=
  let g := grid_config svc in
  let '(cx, cy) := cell_at g row col in
  let cell_image := crop_rect img cy (cy + cell_height g) cx (cx + cell_width g) in
  if 0 <? img_size cell_image then Some cell_image else None.

Section WithEncoder.

(** [cv2.imencode('.png', image)] followed by [base64.b64encode]: the
    text, or the exception of the encoder. *)
Variable imencode : image -> result string.

Definition _image_to_base64 (img : image) : result string :=
  _ ← _check_cv2_availability;
  img_base64 ← imencode img;
  Return ("data:image/png;base64," ++ img_base64)%string.

(** One entry of [unit_details]. *)
Record UnitDetail : Type := {
  ud_row : Z;
  ud_col : Z;
  ud_unit_type : string;
  ud_rank : Z;
  ud_confidence : Q
}.

Record GridStatus : Type := {
  grid_analysis : GridAnalysis;
  unit_details : list UnitDetail;
  total_units : Z;
  recognized_units : Z
}.

(** The dictionary [analyze_grid_status] returns: the status, or
    [{'error': str(e)}]. *)
Inductive GridStatusReply : Type :=
| StatusError (e : exn)
| StatusOk (s : GridStatus).

(** The loop [for i, cell in enumerate(grid_analysis.cells)], from
    index [i] on. *)
Fixpoint unit_details_loop (svc : VisionService) (img : image) (i : Z)
         (cs : list GridCell) : result (list UnitDetail) :=
  match cs with
  | [] => Return []
  | cell :: cs' =>
      if occupied cell && negb (bool_decide (card_type cell = Some "unknown"%string)) then
        if cols (grid_config svc) =? 0 then Raise ZeroDivisionError
        else
          let row := i / cols (grid_config svc) in
          let col := i mod cols (grid_config svc) in
          match _extract_cell_image svc img row col with
          | Some cell_image =>
              cell_base64 ← _image_to_base64 cell_image;
              let unit_recognition := recognize_unit svc cell_base64 in
              rest ← unit_details_loop svc img (i + 1) cs';
              Return ({| ud_row := row; ud_col := col;
                         ud_unit_type := unit_type unit_recognition;
                         ud_rank := rank unit_recognition;
                         ud_confidence := ur_confidence unit_recognition |} :: rest)
          | None => unit_details_loop svc img (i + 1) cs'
          end
      else unit_details_loop svc img (i + 1) cs'
  end.

Definition analyze_grid_status_body (svc : VisionService) (image_base64 : string)
  : result GridStatus :=
  let analysis := analyze_grid svc image_base64 in
  img ← _base64_to_image image_base64;
  details ← (if negb (is_empty (cells analysis))
             then unit_details_loop svc img 0 (cells analysis)
             else Return []);
  Return {| grid_analysis := analysis;
            unit_details := details;
            total_units :=
              Z.of_nat (length (filter (fun c => occupied c = true) (cells analysis)));
            recognized_units := Z.of_nat (length details) |}.

Definition analyze_grid_status (svc : VisionService) (image_base64 : string)
  : GridStatusReply :=
  match analyze_grid_status_body svc image_base64 with
  | Return s => StatusOk s
  | Raise e => StatusError e
  end.

End WithEncoder.

End WithCv2.

End Vision.

(** ** The float expressions of the perception code in binary64

    The same expressions as in [Vision], evaluated with the machine
    floats Python uses, to compare the rational model with them. *)

Module Binary64.

(** [float(n)] for a small non-negative integer. *)
Definition float_of_Z (n : Z) : float := PrimFloat.of_uint63 (Uint63.of_Z n).

(** [int(x)] for a finite float: truncation towards zero. *)
Definition int_of_float (x : float) : option Z :=
  match Prim2SF x with
  | S754_zero _ => Some 0
  | S754_finite s m e =>
      let mag := if 0 <=? e then Z.shiftl (Zpos m) e else Z.shiftr (Zpos m) (- e) in
      Some (if s then - mag else mag)
  | S754_infinity _ | S754_nan => None
  end.

(** [mana_percentage = (mana_pixels / total_pixels) * 100]. *)
Definition mana_percentage (mana_pixels total_pixels : Z) : float :=
  (float_of_Z mana_pixels / float_of_Z total_pixels * float_of_Z 100)%float.

(** [int((mana_percentage / 100) * max_mana)] with [max_mana = 10]. *)
Definition current_mana (mana_pixels total_pixels : Z) : option Z :=
  int_of_float (mana_percentage mana_pixels total_pixels / float_of_Z 100
                * float_of_Z 10)%float.

(** [min(mana_percentage / 50, 1.0)]. *)
Definition mana_confidence (mana_pixels total_pixels : Z) : float :=
  let q := (mana_percentage mana_pixels total_pixels / float_of_Z 50)%float in
  if PrimFloat.ltb 1 q then 1%float else q.

(** The literal [0.1]: the nearest binary64. *)
Definition one_tenth : float := 0x1.999999999999ap-4%float.

(** [max(0.1, 1.0 - (color_confidence / 2000.0))]. *)
Definition final_confidence (min_mse : Z) : float :=
  let c := (1 - float_of_Z min_mse / float_of_Z 2000)%float in
  if PrimFloat.ltb one_tenth c then c else one_tenth.

(** [sum(times)] on floats, added left to right from 0 with a
    rounding at each step, and [total / len(times)]. *)
Definition fsum (times : list float) : float :=
  fold_left PrimFloat.add times 0%float.

Definition fdiv (total : float) (n : nat) : float :=
  (total / float_of_Z (Z.of_nat n))%float.

End Binary64.

(** ** Orchestrator: [src/backend/app/services/bot_service.py] *)

Module BackendBot.

Inductive BotStatus : Type :=
| STOPPED | STARTING | RUNNING | PAUSED | STOPPING | ERROR.

Definition BotStatus_eqb (a b : BotStatus) : bool :=
  match a, b with
  | STOPPED, STOPPED | STARTING, STARTING | RUNNING, RUNNING
  | PAUSED, PAUSED | STOPPING, STOPPING | ERROR, ERROR => true
  | _, _ => false
  end.

Record BotConfig : Type := {
  auto_start : bool;
  delay_between_actions : Q;
  auto_merge : bool;
  auto_upgrade : bool;
  max_errors : Z;
  restart_on_error : bool;
  screenshot_on_error : bool;
  device_id : option string
}.

Definition default_config : BotConfig :=
  {| auto_start := false; delay_between_actions := 1; auto_merge := true;
     auto_upgrade := true; max_errors := 5; restart_on_error := true;
     screenshot_on_error := true; device_id := None |}.

Record BotStats : Type := {
  total_runtime : Q;
  stats_start_time : option Q;
  total_actions : Z;
  total_errors : Z
}.

(** The [Bot] object: the adb handle of the orchestrator. *)
Record Bot : Type := {
  connected : bool;
  device_serial : option string
}.

(** The main-loop task as the service sees it: created but not yet
    run, inside the loop, or finished. *)
Inductive Task : Type := TaskCreated | TaskLooping | TaskDone.

Record Event : Type := {
  ev_type : string;
  ev_timestamp : Q;
  ev_data : payload
}.

(** The dictionaries [{"success": ..., "message": ...}] the commands
    return. *)
Record Reply : Type := {
  success : bool;
  message : string
}.

(** The service object.  [game_state] and [current_state], which the
    operations below only overwrite, and the event callbacks, which
    only receive the event, are left out. *)
Record BotService : Type := {
  status : BotStatus;
  config : BotConfig;
  stats : BotStats;
  _running : bool;
  _paused : bool;
  _main_task : option Task;
  _error_count : Z;
  logs : list Event;
  _start_time : option Q;
  bot : Bot
}.

(** [BotService.__init__]. *)
Definition init : BotService :=
  {| status := STOPPED; config := default_config;
     stats := {| total_runtime := 0; stats_start_time := None;
                 total_actions := 0; total_errors := 0 |};
     _running := false; _paused := false; _main_task := None;
     _error_count := 0; logs := []; _start_time := None;
     bot := {| connected := false; device_serial := None |} |}.

Definition set_status (v : BotStatus) (s : BotService) : BotService :=
  {| status := v; config := config s; stats := stats s; _running := _running s;
     _paused := _paused s; _main_task := _main_task s;
     _error_count := _error_count s; logs := logs s;
     _start_time := _start_time s; bot := bot s |}.

Definition set_stats (v : BotStats) (s : BotService) : BotService :=
  {| status := status s; config := config s; stats := v; _running := _running s;
     _paused := _paused s; _main_task := _main_task s;
     _error_count := _error_count s; logs := logs s;
     _start_time := _start_time s; bot := bot s |}.

Definition set_running (v : bool) (s : BotService) : BotService :=
  {| status := status s; config := config s; stats := stats s; _running := v;
     _paused := _paused s; _main_task := _main_task s;
     _error_count := _error_count s; logs := logs s;
     _start_time := _start_time s; bot := bot s |}.

Definition set_paused (v : bool) (s : BotService) : BotService :=
  {| status := status s; config := config s; stats := stats s; _running := _running s;
     _paused := v; _main_task := _main_task s;
     _error_count := _error_count s; logs := logs s;
     _start_time := _start_time s; bot := bot s |}.

Definition set_main_task (v : option Task) (s : BotService) : BotService :=
  {| status := status s; config := config s; stats := stats s; _running := _running s;
     _paused := _paused s; _main_task := v;
     _error_count := _error_count s; logs := logs s;
     _start_time := _start_time s; bot := bot s |}.

Definition set_error_count (v : Z) (s : BotService) : BotService :=
  {| status := status s; config := config s; stats := stats s; _running := _running s;
     _paused := _paused s; _main_task := _main_task s;
     _error_count := v; logs := logs s;
     _start_time := _start_time s; bot := bot s |}.

Definition set_logs (v : list Event) (s : BotService) : BotService :=
  {| status := status s; config := config s; stats := stats s; _running := _running s;
     _paused := _paused s; _main_task := _main_task s;
     _error_count := _error_count s; logs := v;
     _start_time := _start_time s; bot := bot s |}.

Definition set_start_time (v : option Q) (s : BotService) : BotService :=
  {| status := status s; config := config s; stats := stats s; _running := _running s;
     _paused := _paused s; _main_task := _main_task s;
     _error_count := _error_count s; logs := logs s;
     _start_time := v; bot := bot s |}.

Definition set_bot (v : Bot) (s : BotService) : BotService :=
  {| status := status s; config := config s; stats := stats s; _running := _running s;
     _paused := _paused s; _main_task := _main_task s;
     _error_count := _error_count s; logs := logs s;
     _start_time := _start_time s; bot := v |}.

(** *** [_emit_event] *)

(** The log part of [_emit_event]: append, then keep the last 1000. *)
Definition append_event (event : Event) (log : list Event) : list Event :=
  let log' := log ++ [event] in
  if (1000 <? length log')%nat then slice_from log' (-1000) else log'.

Definition _emit_event (now : Q) (event_type : string) (data : payload)
           (s : BotService) : BotService :=
  let event := {| ev_type := event_type; ev_timestamp := now; ev_data := data |} in
  set_logs (append_event event (logs s)) s.

(** *** The [Bot] handle *)

(** What the adb side answers: whether [ppadb] could be imported, the
    serials [adb_client.devices()] lists (or its failure), and whether
    the launch command went through. *)
Record Adb : Type := {
  ADB_AVAILABLE : bool;
  adb_devices : result (list string);
  launch_ok : bool
}.

(** [Bot.connect_device()] with no serial. *)
Definition Bot_connect_device (adb : Adb) (b : Bot) : Bot * bool :=
  if negb (ADB_AVAILABLE adb) then (b, false)
  else match adb_devices adb with
       | Raise _ => (b, false)
       | Return [] => (b, false)
       | Return (d :: _) => ({| connected := true; device_serial := Some d |}, true)
       end.

(** [Bot.start_app()]. *)
Definition Bot_start_app (adb : Adb) (b : Bot) : bool :=
  if negb (connected b) || negb (bool_decide (is_Some (device_serial b))) then false
  else launch_ok adb.

(** A [bytes] value used as a condition: [None] and [b""] are false. *)
Definition truthy_bytes (o : option string) : bool :=
  match o with
  | Some b => negb (String.eqb b "")
  | None => false
  end.

(** [Bot.disconnect()]. *)
Definition Bot_disconnect (b : Bot) : Bot :=
  {| connected := false; device_serial := None |}.

Definition atom_of_serial (o : option string) : atom :=
  match o with Some s => AStr s | None => ANone end.

(** *** [start], [stop], [toggle_pause] *)

Definition start (now : Q) (adb : Adb) (s : BotService) : BotService * Reply :=
  if BotStatus_eqb (status s) RUNNING || BotStatus_eqb (status s) STARTING
  then (s, {| success := false; message := "Бот уже запущен или запускается" |})
  else
    let s := set_status STARTING s in
    let '(b, ok) := if negb (connected (bot s)) then Bot_connect_device adb (bot s)
                    else (bot s, true) in
    let s := set_bot b s in
    if negb ok
    then (s, {| success := false; message := "Не удалось подключиться к устройству" |})
    else if negb (Bot_start_app adb (bot s))
    then (s, {| success := false; message := "Не удалось запустить приложение" |})
    else
      let s := set_start_time (Some now) s in
      let s := set_stats {| total_runtime := total_runtime (stats s);
                            stats_start_time := Some now;
                            total_actions := total_actions (stats s);
                            total_errors := total_errors (stats s) |} s in
      let s := set_error_count 0 s in
      let s := set_running true s in
      let s := set_paused false s in
      let s := set_status RUNNING s in
      let s := set_main_task (Some TaskCreated) s in
      let s := _emit_event now "bot_started"
                           [("device_id"%string, atom_of_serial (device_serial (bot s)))] s in
      (s, {| success := true; message := "Бот успешно запущен" |}).

(** What cancelling and awaiting [_main_task] does to the service: a
    task inside the loop runs its [finally] block; a task that never
    ran, or has finished, runs nothing. *)
Definition cancel_main_task (now : Q) (s : BotService) : BotService :=
  match _main_task s with
  | Some TaskLooping =>
      let s := set_status STOPPED s in
      let s := _emit_event now "status_changed" [("status"%string, AOpaque "coroutine")] s in
      set_main_task (Some TaskDone) s
  | Some TaskCreated => set_main_task (Some TaskDone) s
  | Some TaskDone | None => s
  end.

Definition stop (now : Q) (s : BotService) : BotService * Reply :=
  if BotStatus_eqb (status s) STOPPED
  then (s, {| success := false; message := "Бот уже остановлен" |})
  else
    let s := set_status STOPPING s in
    let s := set_running false s in
    let s := set_paused false s in
    let s := cancel_main_task now s in
    let s := set_bot (Bot_disconnect (bot s)) s in
    let s := match _start_time s with
             | Some t0 =>
                 set_stats {| total_runtime := total_runtime (stats s) + (now - t0);
                              stats_start_time := stats_start_time (stats s);
                              total_actions := total_actions (stats s);
                              total_errors := total_errors (stats s) |} s
             | None => s
             end in
    let s := set_status STOPPED s in
    let s := _emit_event now "bot_stopped" [] s in
    (s, {| success := true; message := "Бот успешно остановлен" |}).

Definition toggle_pause (now : Q) (s : BotService) : BotService * Reply :=
  if negb (BotStatus_eqb (status s) RUNNING) && negb (_paused s)
  then (s, {| success := false; message := "Бот не запущен" |})
  else
    let s := set_paused (negb (_paused s)) s in
    let new_status := if _paused s then PAUSED else RUNNING in
    let s := set_status new_status s in
    let s := _emit_event now (if _paused s then "bot_paused" else "bot_resumed") [] s in
    (s, {| success := true;
           message := if _paused s then "Бот приостановлен" else "Бот возобновлен" |}).

(** *** [_handle_error] *)

(** [_handle_error]: count the error, then restart once the count has
    reached 3 and [restart_on_error] is set.  The error screenshot only
    logs.  [now] is the clock at [stop()], [later] the clock at
    [start()], after the pause of five seconds. *)
Definition _handle_error (now later : Q) (adb : Adb) (s : BotService) : BotService :=
  let s := set_error_count (_error_count s + 1) s in
  let s := set_stats {| total_runtime := total_runtime (stats s);
                        stats_start_time := stats_start_time (stats s);
                        total_actions := total_actions (stats s);
                        total_errors := total_errors (stats s) + 1 |} s in
  if restart_on_error (config s) && (3 <=? _error_count s)
  then
    let '(s, _) := stop now s in
    let '(s, _) := start later adb s in
    s
  else s.

(** *** [_main_loop] *)

(** What one pass of the loop body meets outside the service:
    the adb side, should a reconnection be tried; the screenshot;
    the payload of the [game_state_changed] event ([None] when the
    analysis failed before emitting it); and the exception, if any,
    that escapes the body.  Every helper the body awaits catches its
    own exceptions, so only the closing [asyncio.sleep] on the
    configured delay can raise. *)
Record Cycle : Type := {
  cycle_adb : Adb;
  screenshot : option string;
  game_state_changed : option payload;
  sleep_raises : option string
}.

(** Entry of [_main_loop], up to the [while]. *)
Definition main_loop_enter (now : Q) (s : BotService) : BotService :=
  let s := set_main_task (Some TaskLooping) s in
  let s := set_status RUNNING s in
  _emit_event now "status_changed" [("status"%string, AOpaque "coroutine")] s.

(** Leaving the [while] normally: the [finally] block. *)
Definition main_loop_leave (now : Q) (s : BotService) : BotService :=
  let s := set_status STOPPED s in
  let s := _emit_event now "status_changed" [("status"%string, AOpaque "coroutine")] s in
  set_main_task (Some TaskDone) s.

(** The [try] block of one iteration: the service after it, and the
    exception that escaped, if any. *)
Definition loop_body (now : Q) (c : Cycle) (s : BotService) : BotService * option string :=
  let '(b, ok) := if negb (connected (bot s)) then Bot_connect_device (cycle_adb c) (bot s)
                  else (bot s, true) in
  let s := set_bot b s in
  if negb ok then (s, None)
  else if negb (truthy_bytes (screenshot c)) then (s, None)
  else
    let s := match game_state_changed c with
             | Some data => _emit_event now "game_state_changed" data s
             | None => s
             end in
    (s, sleep_raises c).

(** One test of the [while] condition and, if it holds, one pass. *)
Definition main_loop_iteration (now : Q) (c : Cycle) (s : BotService) : BotService :=
  if negb (_running s) then main_loop_leave now s
  else if _paused s then s
  else
    match loop_body now c s with
    | (s, None) => s
    | (s, Some e) => _emit_event now "error_occurred" [("error"%string, AStr e)] s
    end.

(** Consecutive iterations, each at its own time. *)
Fixpoint main_loop_run (cs : list (Q * Cycle)) (s : BotService) : BotService :=
  match cs with
  | [] => s
  | (now, c) :: cs' => main_loop_run cs' (main_loop_iteration now c s)
  end.

(** The number of events of one type in the log. *)
Definition count_events (t : string) (log : list Event) : nat :=
  length (filter (fun e => ev_type e = t) log).

(** *** [get_logs], [clear_logs], [disconnect_device] *)

(** [self.logs[-limit:] if limit > 0 else self.logs]. *)
Definition get_logs (limit : Z) (s : BotService) : list Event :=
  if 0 <? limit then slice_from (logs s) (- limit) else logs s.

Definition clear_logs (s : BotService) : BotService := set_logs [] s.

Definition disconnect_device (now : Q) (s : BotService) : BotService * Reply :=
  let s := set_bot (Bot_disconnect (bot s)) s in
  let s := _emit_event now "device_disconnected" [] s in
  (s, {| success := true; message := "Устройство отключено" |}).

End BackendBot.

(** ** Orchestrator: [src/api/services/bot_service.py] *)

Module ApiBot.

Inductive BotState : Type :=
| STOPPED | STARTING | RUNNING | PAUSED | STOPPING | ERROR.

Definition BotState_eqb (a b : BotState) : bool :=
  match a, b with
  | STOPPED, STOPPED | STARTING, STARTING | RUNNING, RUNNING
  | PAUSED, PAUSED | STOPPING, STOPPING | ERROR, ERROR => true
  | _, _ => false
  end.

Inductive Task : Type := TaskRunning | TaskDone.

(** The service object; [config] and the statistics other than the
    accumulated runtime play no part in the lifecycle operations and
    are left out. *)
Record BotService : Type := {
  state : BotState;
  start_time : option Q;
  battles_played : Z;
  battles_won : Z;
  current_wave : option Z;
  current_coop : option Z;
  last_action : option string;
  last_action_time : option Q;
  error_message : option string;
  connected_device : option string;
  _bot_task : option Task;
  _stop_event : bool;
  _pause_event : bool;
  total_runtime : Q
}.

(** The [BotStatus] snapshot [get_status] builds. *)
Record BotStatus : Type := {
  st_state : BotState;
  st_uptime : option Q;
  st_battles_played : Z;
  st_battles_won : Z;
  st_current_wave : option Z;
  st_current_coop : option Z;
  st_last_action : option string;
  st_last_action_time : option Q;
  st_error_message : option string;
  st_connected_device : option string
}.

(** [BotService.__init__]. *)
Definition init : BotService :=
  {| state := STOPPED; start_time := None; battles_played := 0;
     battles_won := 0; current_wave := None; current_coop := None;
     last_action := None; last_action_time := None; error_message := None;
     connected_device := None; _bot_task := None; _stop_event := false;
     _pause_event := false; total_runtime := 0 |}.

Definition get_status (now : Q) (s : BotService) : BotStatus :=
  let uptime :=
    match start_time s with
    | Some t0 =>
        if BotState_eqb (state s) RUNNING || BotState_eqb (state s) PAUSED
        then Some (now - t0)%Q else None
    | None => None
    end in
  {| st_state := state s; st_uptime := uptime;
     st_battles_played := battles_played s; st_battles_won := battles_won s;
     st_current_wave := current_wave s; st_current_coop := current_coop s;
     st_last_action := last_action s; st_last_action_time := last_action_time s;
     st_error_message := error_message s;
     st_connected_device := connected_device s |}.

Definition set_state (v : BotState) (s : BotService) : BotService :=
  {| state := v; start_time := start_time s; battles_played := battles_played s;
     battles_won := battles_won s; current_wave := current_wave s;
     current_coop := current_coop s; last_action := last_action s;
     last_action_time := last_action_time s; error_message := error_message s;
     connected_device := connected_device s; _bot_task := _bot_task s;
     _stop_event := _stop_event s; _pause_event := _pause_event s;
     total_runtime := total_runtime s |}.

Definition set_last_action (a : string) (now : Q) (s : BotService) : BotService :=
  {| state := state s; start_time := start_time s; battles_played := battles_played s;
     battles_won := battles_won s; current_wave := current_wave s;
     current_coop := current_coop s; last_action := Some a;
     last_action_time := Some now; error_message := error_message s;
     connected_device := connected_device s; _bot_task := _bot_task s;
     _stop_event := _stop_event s; _pause_event := _pause_event s;
     total_runtime := total_runtime s |}.

Definition set_error_message (m : option string) (s : BotService) : BotService :=
  {| state := state s; start_time := start_time s; battles_played := battles_played s;
     battles_won := battles_won s; current_wave := current_wave s;
     current_coop := current_coop s; last_action := last_action s;
     last_action_time := last_action_time s; error_message := m;
     connected_device := connected_device s; _bot_task := _bot_task s;
     _stop_event := _stop_event s; _pause_event := _pause_event s;
     total_runtime := total_runtime s |}.

Definition set_gates (task : option Task) (stop_ev pause_ev : bool)
           (s : BotService) : BotService :=
  {| state := state s; start_time := start_time s; battles_played := battles_played s;
     battles_won := battles_won s; current_wave := current_wave s;
     current_coop := current_coop s; last_action := last_action s;
     last_action_time := last_action_time s; error_message := error_message s;
     connected_device := connected_device s; _bot_task := task;
     _stop_event := stop_ev; _pause_event := pause_ev;
     total_runtime := total_runtime s |}.

Definition set_session (t0 : option Q) (runtime : Q) (s : BotService) : BotService :=
  {| state := state s; start_time := t0; battles_played := battles_played s;
     battles_won := battles_won s; current_wave := current_wave s;
     current_coop := current_coop s; last_action := last_action s;
     last_action_time := last_action_time s; error_message := error_message s;
     connected_device := connected_device s; _bot_task := _bot_task s;
     _stop_event := _stop_event s; _pause_event := _pause_event s;
     total_runtime := runtime |}.

Definition str_of_exn (e : exn) : string :=
  match e with
  | ImportError m | ValueError m | RuntimeError m | Cv2Error m => m
  | IndexError => "list index out of range"
  | ZeroDivisionError => "division by zero"
  end.

(** [stop_bot].  [join] is what awaiting the bot task ends in, the
    graceful wait and the forced cancellation together. *)
Definition stop_bot (now : Q) (join : result unit) (s : BotService)
  : BotService * result BotStatus :=
  if BotState_eqb (state s) STOPPED then (s, Return (get_status now s))
  else
    let s := set_state STOPPING s in
    let s := set_gates (_bot_task s) true (_pause_event s) s in
    let joined :=
      match _bot_task s with
      | Some TaskRunning => join
      | Some TaskDone | None => Return tt
      end in
    match joined with
    | Return _ =>
        let s := set_gates (match _bot_task s with
                            | Some _ => Some TaskDone
                            | None => None
                            end) (_stop_event s) (_pause_event s) s in
        let s := match start_time s with
                 | Some t0 => set_session (Some t0) (total_runtime s + (now - t0))%Q s
                 | None => s
                 end in
        let s := set_state STOPPED s in
        let s := set_session None (total_runtime s) s in
        let s := set_last_action "Bot stopped" now s in
        (s, Return (get_status now s))
    | Raise e =>
        let s := set_state ERROR s in
        let s := set_error_message (Some (str_of_exn e)) s in
        (s, Raise e)
    end.

Definition pause_bot (now : Q) (s : BotService) : BotService * result BotStatus :=
  if negb (BotState_eqb (state s) RUNNING)
  then (s, Raise (ValueError "Bot is not running"))
  else
    let s := set_state PAUSED s in
    let s := set_gates (_bot_task s) (_stop_event s) false s in
    let s := set_last_action "Bot paused" now s in
    (s, Return (get_status now s)).

Definition resume_bot (now : Q) (s : BotService) : BotService * result BotStatus :=
  if negb (BotState_eqb (state s) PAUSED)
  then (s, Raise (ValueError "Bot is not paused"))
  else
    let s := set_state RUNNING s in
    let s := set_gates (_bot_task s) (_stop_event s) true s in
    let s := set_last_action "Bot resumed" now s in
    (s, Return (get_status now s)).

End ApiBot.

(** ** Device registry: [src/api/services/device_service.py] *)

Module ApiDevice.

Inductive DeviceStatus : Type :=
| DISCONNECTED | CONNECTING | CONNECTED | UNAUTHORIZED | ERROR.

Inductive ConnectionType : Type := USB | WIFI | EMULATOR.

Definition DeviceStatus_eqb (a b : DeviceStatus) : bool :=
  match a, b with
  | DISCONNECTED, DISCONNECTED | CONNECTING, CONNECTING | CONNECTED, CONNECTED
  | UNAUTHORIZED, UNAUTHORIZED | ERROR, ERROR => true
  | _, _ => false
  end.

Record DeviceInfo : Type := {
  id : string;
  name : string;
  model : string;
  android_version : string;
  api_level : Z;
  architecture : string;
  status : DeviceStatus;
  connection_type : ConnectionType;
  battery_level : option Z;
  is_charging : option bool;
  screen_resolution : option string;
  screen_density : option Z;
  total_memory : option Z;
  available_memory : option Z;
  last_seen : option Q;
  rush_royale_installed : bool;
  rush_royale_version : option string
}.

(** What the bridge answers about one connected device: the property
    dictionary of [_get_device_properties]; the value of
    [int(props.get("ro.build.version.sdk", "0"))], which may raise; and
    the results of the battery, memory and screen queries, each of
    which catches its own failures.  The package queries are never
    made, see [_update_device_details]. *)
Record Probe : Type := {
  props : gmap string string;
  sdk : result Z;
  battery_info : option Z * option bool;
  memory_info : option Z * option Z;
  screen_info : option string * option Z
}.

(** [status_map.get(status_str, DeviceStatus.ERROR)]. *)
Definition status_map : gmap string DeviceStatus :=
  <["device"%string := CONNECTED]>
  (<["offline"%string := DISCONNECTED]>
  (<["unauthorized"%string := UNAUTHORIZED]>
  (<["no permissions"%string := ERROR]> ∅))).

Definition connection_type_of (device_id : string) : ConnectionType :=
  if Str.contains ":" device_id && (Str.count_char "." device_id =? 3)%nat then WIFI
  else if Str.contains "emulator" device_id then EMULATOR
  else USB.

(** [_update_device_details]: the assignments in order; an exception
    is caught and leaves the fields assigned so far in place.  Two
    steps raise.  The conversion of the SDK level may.  The argument
    [self.settings.rush_royale_package] of [_is_app_installed] always
    does: [Settings] of [src/api/utils/config.py] has no such field, so
    the attribute access raises [AttributeError] before the package is
    looked up, and [rush_royale_installed] and [rush_royale_version]
    are never assigned. *)
Definition _update_device_details (p : Probe) (d : DeviceInfo) : DeviceInfo :=
  let name' := default (id d) (props p !! "ro.product.model"%string) in
  let model' := default "Unknown"%string (props p !! "ro.product.model"%string) in
  let version' := default "Unknown"%string (props p !! "ro.build.version.release"%string) in
  match sdk p with
  | Raise _ =>
      {| id := id d; name := name'; model := model'; android_version := version';
         api_level := api_level d; architecture := architecture d;
         status := status d; connection_type := connection_type d;
         battery_level := battery_level d; is_charging := is_charging d;
         screen_resolution := screen_resolution d;
         screen_density := screen_density d;
         total_memory := total_memory d; available_memory := available_memory d;
         last_seen := last_seen d;
         rush_royale_installed := rush_royale_installed d;
         rush_royale_version := rush_royale_version d |}
  | Return level =>
      {| id := id d; name := name'; model := model'; android_version := version';
         api_level := level;
         architecture := default "Unknown"%string (props p !! "ro.product.cpu.abi"%string);
         status := status d; connection_type := connection_type d;
         battery_level := fst (battery_info p); is_charging := snd (battery_info p);
         screen_resolution := fst (screen_info p);
         screen_density := snd (screen_info p);
         total_memory := fst (memory_info p);
         available_memory := snd (memory_info p);
         last_seen := last_seen d;
         rush_royale_installed := rush_royale_installed d;
         rush_royale_version := rush_royale_version d |}
  end.

Definition _parse_device_line (now : Q) (probe : string -> Probe) (line : string)
  : option DeviceInfo :=
  match Str.split line with
  | device_id :: status_str :: _ =>
      let status := default ERROR (status_map !! status_str) in
      let connection_type := connection_type_of device_id in
      let device_info :=
        {| id := device_id; name := device_id; model := "Unknown";
           android_version := "Unknown"; api_level := 0;
           architecture := "Unknown"; status := status;
           connection_type := connection_type;
           battery_level := None; is_charging := None;
           screen_resolution := None; screen_density := None;
           total_memory := None; available_memory := None;
           last_seen := Some now;
           rush_royale_installed := false; rush_royale_version := None |} in
      if DeviceStatus_eqb status CONNECTED
      then Some (_update_device_details (probe device_id) device_info)
      else Some device_info
  | _ => None
  end.

Record DeviceService : Type := {
  adb_path : option string;
  devices : gmap string DeviceInfo
}.

(** The loop over the lines of the listing: the records parsed, in
    order, and the registry with each of them stored under its id. *)
Fixpoint parse_lines (now : Q) (probe : string -> Probe) (lines : list string)
         (reg : gmap string DeviceInfo) : list DeviceInfo * gmap string DeviceInfo :=
  match lines with
  | [] => ([], reg)
  | line :: rest =>
      if String.eqb (Str.strip line) "" then parse_lines now probe rest reg
      else match _parse_device_line now probe line with
           | Some device_info =>
               let '(ds, reg') :=
                 parse_lines now probe rest (<[id device_info := device_info]> reg) in
               (device_info :: ds, reg')
           | None => parse_lines now probe rest reg
           end
  end.

(** The loop [for device_id in list(self.devices.keys())] deleting the
    ids that are not current. *)
Definition prune (current_device_ids : gset string) (reg : gmap string DeviceInfo)
  : gmap string DeviceInfo :=
  foldr (fun device_id acc =>
           if decide (device_id ∈ current_device_ids) then acc
           else delete device_id acc)
        reg (elements (dom reg)).

(** [refresh_devices].  [listing] is what [adb devices -l] ends in:
    exit code and standard output, or the exception of the bridge. *)
Definition refresh_devices (now : Q) (probe : string -> Probe)
           (listing : result (Z * string)) (svc : DeviceService)
  : DeviceService * list DeviceInfo :=
  match adb_path svc with
  | None => (svc, [])
  | Some _ =>
      match listing with
      | Raise _ => (svc, [])
      | Return (returncode, stdout) =>
          if negb (returncode =? 0) then (svc, [])
          else
            let lines := slice_from (Str.split_on "010" (Str.strip stdout)) 1 in
            let '(found, reg) := parse_lines now probe lines (devices svc) in
            let current_device_ids : gset string := list_to_set (map id found) in
            ({| adb_path := adb_path svc; devices := prune current_device_ids reg |},
             found)
      end
  end.

(** *** [connect_device], [disconnect_device], [send_text_input] *)

Record DeviceActionResult : Type := {
  success : bool;
  message : string
}.

(** [_run_adb_command]: without an adb path it raises before anything
    is run; [outcome] is what running the command ends in, exit code
    and standard error, or the exception of the subprocess. *)
Definition _run_adb_command (svc : DeviceService) (outcome : result (Z * string))
  : result (Z * string) :=
  match adb_path svc with
  | None => Raise (RuntimeError "ADB not available")
  | Some _ => outcome
  end.

(** [connect_device]: [adb_connect] is the outcome of [adb connect],
    [listing] that of the listing the refresh asks for. *)
Definition connect_device (now : Q) (probe : string -> Probe)
           (adb_connect : result (Z * string)) (listing : result (Z * string))
           (device_id : string) (svc : DeviceService)
  : DeviceService * DeviceActionResult :=
  let refreshed := (refresh_devices now probe listing svc).1 in
  let connected :=
    (refreshed, {| success := true; message := "Connected to device " ++ device_id |}) in
  if Str.contains ":" device_id then
    match _run_adb_command svc adb_connect with
    | Raise e =>
        (svc, {| success := false;
                 message := "Connection failed: " ++ ApiBot.str_of_exn e |})
    | Return (returncode, stderr) =>
        if negb (returncode =? 0)
        then (svc, {| success := false; message := "Failed to connect: " ++ stderr |})
        else connected
    end
  else connected.

Definition disconnect_device (adb_disconnect : result (Z * string))
           (device_id : string) (svc : DeviceService)
  : DeviceService * DeviceActionResult :=
  let removed :=
    ({| adb_path := adb_path svc; devices := delete device_id (devices svc) |},
     {| success := true; message := "Disconnected from device " ++ device_id |}) in
  if Str.contains ":" device_id then
    match _run_adb_command svc adb_disconnect with
    | Raise e =>
        (svc, {| success := false;
                 message := "Disconnection failed: " ++ ApiBot.str_of_exn e |})
    | Return (returncode, stderr) =>
        if negb (returncode =? 0)
        then (svc, {| success := false; message := "Failed to disconnect: " ++ stderr |})
        else removed
    end
  else removed.

(** [text.replace(" ", "%s").replace("&", "\\&")]. *)
Definition escape_text (text : string) : string :=
  Str.replace "&" "\&" (Str.replace " " "%s" text).

(** [send_text_input]: [input_text] is the outcome of [adb shell input
    text] on the escaped text. *)
Definition send_text_input (input_text : string -> result (Z * string))
           (text : string) (svc : DeviceService) : DeviceActionResult :=
  match _run_adb_command svc (input_text (escape_text text)) with
  | Raise e =>
      {| success := false; message := "Text input error: " ++ ApiBot.str_of_exn e |}
  | Return (returncode, stderr) =>
      if negb (returncode =? 0)
      then {| success := false; message := "Text input failed: " ++ stderr |}
      else {| success := true; message := "Text sent successfully" |}
  end.

End ApiDevice.

(** ** Starting the api orchestrator: [start_bot] and
    [_ensure_device_connected] of [src/api/services/bot_service.py],
    which read the device registry *)

Module ApiBotStart.

Import ApiBot.

Definition set_connected_device (d : option string) (s : BotService) : BotService :=
  {| state := state s; start_time := start_time s; battles_played := battles_played s;
     battles_won := battles_won s; current_wave := current_wave s;
     current_coop := current_coop s; last_action := last_action s;
     last_action_time := last_action_time s; error_message := error_message s;
     connected_device := d; _bot_task := _bot_task s;
     _stop_event := _stop_event s; _pause_event := _pause_event s;
     total_runtime := total_runtime s |}.

(** The assignments that open a session: [start_time] and the four
    counters. *)
Definition reset_session (now : Q) (s : BotService) : BotService :=
  {| state := state s; start_time := Some now; battles_played := 0;
     battles_won := 0; current_wave := None;
     current_coop := None; last_action := last_action s;
     last_action_time := last_action_time s; error_message := error_message s;
     connected_device := connected_device s; _bot_task := _bot_task s;
     _stop_event := _stop_event s; _pause_event := _pause_event s;
     total_runtime := total_runtime s |}.

Definition is_connected (d : ApiDevice.DeviceInfo) : bool :=
  ApiDevice.DeviceStatus_eqb (ApiDevice.status d) ApiDevice.CONNECTED.

Definition is_disconnected (d : ApiDevice.DeviceInfo) : bool :=
  ApiDevice.DeviceStatus_eqb (ApiDevice.status d) ApiDevice.DISCONNECTED.

(** [_ensure_device_connected].  [has_device_service] tells whether
    [self.device_service] is set, [preferred_device] is the entry of
    the configuration, [devices] what [get_devices()] returns.  The
    third component is the device [device_service.connect_device] was
    called on, if any: that call returns a result object and raises
    nothing, and its result is not looked at. *)
Definition _ensure_device_connected (has_device_service : bool)
           (preferred_device : option string)
           (devices : list ApiDevice.DeviceInfo) (s : BotService)
  : BotService * bool * option string :=
  if negb has_device_service then (s, false, None)
  else
    let preferred_hit :=
      if Vision.truthy preferred_device then
        List.find (fun d => bool_decide (Some (ApiDevice.id d) = preferred_device)
                            && is_connected d) devices
      else None in
    match preferred_hit with
    | Some d => (set_connected_device (Some (ApiDevice.id d)) s, true, None)
    | None =>
        match List.find is_connected devices with
        | Some d => (set_connected_device (Some (ApiDevice.id d)) s, true, None)
        | None =>
            match List.find is_disconnected devices with
            | Some d =>
                (set_connected_device (Some (ApiDevice.id d)) s, true,
                 Some (ApiDevice.id d))
            | None => (s, false, None)
            end
        end
    end.

(** [start_bot] called without configuration updates. *)
Definition start_bot (now : Q) (has_device_service : bool)
           (preferred_device : option string)
           (devices : list ApiDevice.DeviceInfo) (s : BotService)
  : BotService * result BotStatus * option string :=
  if BotState_eqb (state s) RUNNING || BotState_eqb (state s) STARTING
  then (s, Raise (ValueError "Bot is already running or starting"), None)
  else
    let s := set_state STARTING s in
    let s := set_error_message None s in
    let '(s, ok, attempted) :=
      _ensure_device_connected has_device_service preferred_device devices s in
    if negb ok then
      let e := RuntimeError "No device available for bot operation" in
      let s := set_state ERROR s in
      let s := set_error_message (Some (str_of_exn e)) s in
      (s, Raise e, attempted)
    else
      let s := reset_session now s in
      let s := set_gates (Some TaskRunning) false true s in
      let s := set_state RUNNING s in
      let s := set_last_action "Bot started" now s in
      (s, Return (get_status now s), attempted).

End ApiBotStart.

(** ** Device registry: [src/backend/app/services/device_service.py] *)

Module BackendDevice.

Inductive DeviceStatus : Type :=
| DISCONNECTED | CONNECTED | UNAUTHORIZED | OFFLINE | UNKNOWN.

(** [ConnectionType.UNKNOWN] is [CONN_UNKNOWN] here. *)
Inductive ConnectionType : Type := USB | WIFI | CONN_UNKNOWN.

Record DeviceInfo : Type := {
  device_id : string;
  name : string;
  model : string;
  android_version : string;
  resolution : Z * Z;
  status : DeviceStatus;
  connection_type : ConnectionType;
  is_connected : bool;
  last_seen : Q
}.

(** A [ppadb] device handle: its serial and what its shell answers to
    the three queries of [_get_device_info].  [wm_size] is the outcome
    of reading the resolution: [Return None] when the output has no
    size to parse, [Raise] when parsing or the shell fails.
    [info_time] is what [time.time()] returns when [_get_device_info]
    has questioned the handle and builds its record. *)
Record AdbDevice : Type := {
  serial : string;
  getprop_model : result string;
  getprop_release : result string;
  wm_size : result (option (Z * Z));
  info_time : Q
}.

Record Device : Type := {
  info : DeviceInfo;
  adb_device : option AdbDevice
}.

Record DeviceService : Type := {
  devices : gmap string Device;
  adb_client : bool;
  _last_scan_time : Q;
  _scan_interval : Q
}.

Definition or_else (s fallback : string) : string :=
  if String.eqb s "" then fallback else s.

(** [_get_device_info]: [now] is its own reading of the clock, taken
    after the shell calls. *)
Definition _get_device_info (now : Q) (d : AdbDevice) : DeviceInfo :=
  let device_id := serial d in
  let attempt : result DeviceInfo :=
    m ← getprop_model d;
    let model := Str.strip m in
    v ← getprop_release d;
    let android_version := Str.strip v in
    size ← wm_size d;
    let resolution := default (1080, 1920) size in
    let connection_type :=
      if Str.contains ":" device_id && (Str.count_char "." device_id =? 3)%nat
      then WIFI else USB in
    Return {| device_id := device_id;
              name := or_else model ("Device " ++ String.substring 0 8 device_id);
              model := or_else model "Unknown";
              android_version := or_else android_version "Unknown";
              resolution := resolution;
              status := CONNECTED;
              connection_type := connection_type;
              is_connected := true;
              last_seen := now |} in
  match attempt with
  | Return i => i
  | Raise _ =>
      {| device_id := device_id;
         name := "Device " ++ String.substring 0 8 device_id;
         model := "Unknown"; android_version := "Unknown";
         resolution := (1080, 1920); status := UNKNOWN;
         connection_type := CONN_UNKNOWN; is_connected := false;
         last_seen := now |}
  end.

(** The loop over the enumerated handles: insert or update, with the
    record [_get_device_info] builds at its own reading of the clock. *)
Definition record_device (reg : gmap string Device) (d : AdbDevice)
  : gmap string Device :=
  <[serial d := {| info := _get_device_info (info_time d) d;
                   adb_device := Some d |}]> reg.

(** What the loop over [disconnected_devices] does to one entry. *)
Definition mark_disconnected (dev : Device) : Device :=
  {| info := {| device_id := device_id (info dev); name := name (info dev);
                model := model (info dev);
                android_version := android_version (info dev);
                resolution := resolution (info dev);
                status := DISCONNECTED;
                connection_type := connection_type (info dev);
                is_connected := false;
                last_seen := last_seen (info dev) |};
     adb_device := None |}.

Definition mark_absent (current_device_ids : gset string) (reg : gmap string Device)
  : gmap string Device :=
  map_imap (fun device_id dev =>
              if decide (device_id ∈ current_device_ids) then Some dev
              else Some (mark_disconnected dev)) reg.

(** [scan_devices].  [client_found] tells whether
    [check_adb_connection] obtains a client when none is held;
    [enumeration] is what [adb_client.devices()] ends in.  The port
    scan of the automatic discovery does not touch the registry. *)
Definition scan_devices (current_time : Q) (client_found : bool)
           (enumeration : result (list AdbDevice)) (svc : DeviceService)
  : DeviceService :=
  if Vision.Qltb (current_time - _last_scan_time svc) (_scan_interval svc) then svc
  else
    let client := adb_client svc || client_found in
    if negb client
    then {| devices := devices svc; adb_client := false;
            _last_scan_time := current_time; _scan_interval := _scan_interval svc |}
    else
      let reg :=
        match enumeration with
        | Raise _ => devices svc
        | Return adb_devices =>
            let current_device_ids : gset string := list_to_set (map serial adb_devices) in
            let reg := foldl record_device (devices svc) adb_devices in
            mark_absent current_device_ids reg
        end in
      {| devices := reg; adb_client := true;
         _last_scan_time := current_time; _scan_interval := _scan_interval svc |}.

(** *** The [Device] object: [is_connected] and [take_screenshot] *)

(** The property [Device.is_connected]. *)
Definition Device_is_connected (d : Device) : bool :=
  is_connected (info d) && bool_decide (is_Some (adb_device d)).

(** The two attributes of a [Device] that only [take_screenshot]
    touches. *)
Record ScreenshotCache : Type := {
  _last_screenshot_time : Q;
  _screenshot_cache : option string
}.

(** [Device.__init__]. *)
Definition empty_cache : ScreenshotCache :=
  {| _last_screenshot_time := 0; _screenshot_cache := None |}.

(** [Device.take_screenshot]: [screencap] is what
    [adb_device.screencap()] ends in. *)
Definition take_screenshot (current_time : Q) (screencap : result (option string))
           (d : Device) (c : ScreenshotCache) : ScreenshotCache * option string :=
  if negb (Device_is_connected d) || negb (bool_decide (is_Some (adb_device d)))
  then (c, None)
  else if Vision.Qltb (current_time - _last_screenshot_time c) 1
          && BackendBot.truthy_bytes (_screenshot_cache c)
  then (c, _screenshot_cache c)
  else
    match screencap with
    | Return screenshot_data =>
        if BackendBot.truthy_bytes screenshot_data
        then ({| _last_screenshot_time := current_time;
                 _screenshot_cache := screenshot_data |}, screenshot_data)
        else (c, None)
    | Raise _ => (c, None)
    end.

(** *** [disconnect_device] *)

(** [disconnect_device]: [adb_disconnect] is what running
    [adb disconnect] ends in. *)
Definition disconnect_device (adb_disconnect : result unit) (device_id : string)
           (svc : DeviceService) : DeviceService * bool :=
  match adb_disconnect with
  | Raise _ => (svc, false)
  | Return _ =>
      ({| devices := alter mark_disconnected device_id (devices svc);
          adb_client := adb_client svc;
          _last_scan_time := _last_scan_time svc;
          _scan_interval := _scan_interval svc |}, true)
  end.

(** *** [scan_ports] *)

(** [sorted] on a list of integers. *)
Definition sorted (l : list Z) : list Z := merge_sort Z.le l.

(** [scan_ports].  [connects port] tells whether [scan_single_port]
    returns the port; [completed] lists the ports in the order in
    which [as_completed] hands over their futures. *)
Definition scan_ports (adb_path : option string) (connects : Z -> bool)
           (max_workers : Z) (completed : list Z) : result (list Z) :=
  match adb_path with
  | None => Return []
  | Some _ =>
      if max_workers <=? 0
      then Raise (ValueError "max_workers must be greater than 0")
      else Return (sorted (filter (fun port => connects port = true) completed))
  end.

End BackendDevice.

(** ** Logging: [src/backend/app/services/logger_service.py] *)

Module Logger.

Inductive LogLevel : Type := DEBUG | INFO | WARNING | ERROR | CRITICAL.

(** [LogEntry]; no call in the repository passes [details]. *)
Record LogEntry : Type := {
  timestamp : Q;
  level : LogLevel;
  message : string;
  category : string;
  source : string
}.

Record LogStats : Type := {
  total_logs : Z;
  debug_count : Z;
  info_count : Z;
  warning_count : Z;
  error_count : Z;
  critical_count : Z;
  categories : gmap string Z
}.

Record LogConfig : Type := {
  max_logs : Z;
  enabled_categories : list string
}.

Record LoggerService : Type := {
  logs : list LogEntry;
  stats : LogStats;
  config : LogConfig
}.

Definition empty_stats : LogStats :=
  {| total_logs := 0; debug_count := 0; info_count := 0; warning_count := 0;
     error_count := 0; critical_count := 0; categories := ∅ |}.

(** [LoggerService.__init__]. *)
Definition init : LoggerService :=
  {| logs := []; stats := empty_stats;
     config := {| max_logs := 1000;
                  enabled_categories :=
                    ["general"; "bot"; "vision"; "device"; "error"]%string |} |}.

Definition _update_stats (entry : LogEntry) (st : LogStats) : LogStats :=
  let bump (l : LogLevel) (n : Z) : Z :=
    match level entry, l with
    | DEBUG, DEBUG | INFO, INFO | WARNING, WARNING
    | ERROR, ERROR | CRITICAL, CRITICAL => n + 1
    | _, _ => n
    end in
  {| total_logs := total_logs st + 1;
     debug_count := bump DEBUG (debug_count st);
     info_count := bump INFO (info_count st);
     warning_count := bump WARNING (warning_count st);
     error_count := bump ERROR (error_count st);
     critical_count := bump CRITICAL (critical_count st);
     categories :=
       match categories st !! category entry with
       | Some n => <[category entry := n + 1]> (categories st)
       | None => <[category entry := 1]> (categories st)
       end |}.

(** [log], up to the hand-over to the [logging] module. *)
Definition log (now : Q) (lvl : LogLevel) (msg cat src : string)
           (s : LoggerService) : LoggerService :=
  if negb (bool_decide (cat ∈ enabled_categories (config s))) then s
  else
    let entry := {| timestamp := now; level := lvl; message := msg;
                    category := cat; source := src |} in
    let logs' := logs s ++ [entry] in
    let logs' := if max_logs (config s) <? Z.of_nat (length logs')
                 then slice_from logs' (- max_logs (config s)) else logs' in
    {| logs := logs'; stats := _update_stats entry (stats s); config := config s |}.

Definition clear_logs (s : LoggerService) : LoggerService :=
  {| logs := []; stats := empty_stats; config := config s |}.

(** [level_priority]. *)
Definition level_priority (l : LogLevel) : Z :=
  match l with
  | DEBUG => 0 | INFO => 1 | WARNING => 2 | ERROR => 3 | CRITICAL => 4
  end.

(** [get_logs]: the three filters in order.  An absent or zero [limit]
    keeps everything. *)
Definition get_logs (lvl : option LogLevel) (cat : option string)
           (limit : option Z) (s : LoggerService) : list LogEntry :=
  let filtered_logs := logs s in
  let filtered_logs :=
    match lvl with
    | Some l => filter (fun e => level_priority l <= level_priority (level e)) filtered_logs
    | None => filtered_logs
    end in
  let filtered_logs :=
    if Vision.truthy cat
    then filter (fun e => Some (category e) = cat) filtered_logs
    else filtered_logs in
  match limit with
  | Some n => if n =? 0 then filtered_logs else slice_from filtered_logs (- n)
  | None => filtered_logs
  end.

End Logger.

(** * Vocabulary of the properties and sample inputs *)

(** ** Orchestrator and device registry *)

Section OrchestratorVocabulary.

Import BackendBot.

(** The last [n] entries of a list. *)
Definition last_entries {A} (n : nat) (l : list A) : list A :=
  drop (length l - n) l.

(** Emitting a whole sequence of events, one call each. *)
Fixpoint emit_all (evs : list (Q * string * payload)) (s : BotService) : BotService :=
  match evs with
  | [] => s
  | (now, t, d) :: evs' => emit_all evs' (_emit_event now t d s)
  end.

Definition event_of (e : Q * string * payload) : Event :=
  let '(now, t, d) := e in
  {| ev_type := t; ev_timestamp := now; ev_data := d |}.

Definition adb_with_emulator : Adb :=
  {| ADB_AVAILABLE := true;
     adb_devices := Return ["emulator-5554"%string];
     launch_ok := true |}.

(** A service configured with [restart_on_error = True] and
    [max_errors = 3]. *)
Definition restarting_service : BotService :=
  {| status := STOPPED;
     config := {| auto_start := false; delay_between_actions := 1;
                  auto_merge := true; auto_upgrade := true; max_errors := 3;
                  restart_on_error := true; screenshot_on_error := true;
                  device_id := None |};
     stats := stats init; _running := false; _paused := false;
     _main_task := None; _error_count := 0; logs := [];
     _start_time := None; bot := bot init |}.

(** The bot after a successful [start()], its loop task running. *)
Definition running_service : BotService :=
  main_loop_enter 0 (fst (start 0 adb_with_emulator restarting_service)).

(** A pass of the loop body in which an exception escapes. *)
Definition failing_cycle : Cycle :=
  {| cycle_adb := adb_with_emulator;
     screenshot := Some "PNG"%string;
     game_state_changed := Some [("menu_detected"%string, ABool true)];
     sleep_raises := Some "'<=' not supported between instances of 'str' and 'int'"%string |}.

End OrchestratorVocabulary.

Section RegistryInputs.

Import BackendDevice.

Definition pixel_phone : AdbDevice :=
  {| serial := "emulator-5554";
     getprop_model := Return "Pixel 7"%string;
     getprop_release := Return "14"%string;
     wm_size := Return (Some (1080, 2400));
     info_time := 10 |}.

(** A registry that holds one device, seen by the scan at time 10. *)
Definition service_with_one_device : DeviceService :=
  {| devices := {[ "emulator-5554"%string :=
                     {| info := _get_device_info 10 pixel_phone;
                        adb_device := Some pixel_phone |} ]};
     adb_client := true;
     _last_scan_time := 10;
     _scan_interval := 2 |}.

End RegistryInputs.

(** ** Perception *)

Section VisionVocabulary.

Import Vision.

Definition color_lt (a b : color) : Prop := color_ltb a b = true.

(** The rows of [np.unique] are strictly increasing. *)
Definition keys_sorted (l : list (color * Z)) : Prop :=
  StronglySorted color_lt (map fst l).

(** Reference [i] is the nearest to colour [c], at squared distance
    [d]; among equally near references it is the first. *)
Definition nearest (refs : list color) (c : color) (i : nat) (d : Z) : Prop :=
  (exists r, refs !! i = Some r /\ sq_dist c r = d)
  /\ (forall r, r ∈ refs -> d <= sq_dist c r)
  /\ (forall j r, refs !! j = Some r -> (j < i)%nat -> sq_dist c r <> d).

(** Colours none of whose references is within 2000 are skipped. *)
Definition out_of_reach (refs : list color) (c : color) : Prop :=
  forall r, r ∈ refs -> 2000 < sq_dist c r.

(** The image [_get_color] looks at, and its quantized pixels. *)
Definition looked_at (img : image) (crop : bool) : image :=
  if crop then crop_unit img else img.

Definition quantized_pixels (unit_img : image) : list color :=
  map quantize (concat (map (map rgb_of_bgr) unit_img)).

Definition distinct_colors (unit_img : image) : nat :=
  size (list_to_set (quantized_pixels unit_img) : gset color).

(** The claim as worded: [d] is the least squared distance between
    any of the dominant colours and any reference, attained by
    reference [i]; then the cell is reported under that reference with
    confidence [max(0.1, 1 - d/2000)]. *)
Definition decided_by_global_minimum (cv : Cv2) (svc : VisionService)
           (cell : image) : Prop :=
  forall colors c i d u,
    _get_color cell true = Return colors ->
    c ∈ colors ->
    nearest (ref_colors svc) c i d ->
    (forall c' r, c' ∈ colors -> r ∈ ref_colors svc -> d <= sq_dist c' r) ->
    d <= 2000 ->
    ref_units svc !! i = Some u ->
    _analyze_cell cv svc cell
    = Return (true,
              Some (unit_name_of u (_match_rank svc cell).1 (_match_rank svc cell).2),
              Qmax (1#10) (1 - inject_Z d / 2000)).

(** An image all of whose rows have [w] pixels. *)
Definition rectangular (w : nat) (img : image) : Prop :=
  Forall (fun row => length row = w) img.

(** The pixels of the region the colour range accepts, and the pixels
    the region has. *)
Definition matched_pixels (cv : Cv2) (m : ManaConfig) (img : image) : Z :=
  count_in_range (mana_color_range m) (map (map (hsv_of cv)) (mana_region m img)).

Definition region_pixels (m : ManaConfig) (img : image) : Z :=
  Z.of_nat (length (concat (mana_region m img))).

(** The claim as worded: the fraction of the pixels of the mana region
    that match. *)
Definition matched_fraction (cv : Cv2) (m : ManaConfig) (img : image) : Q :=
  (inject_Z (matched_pixels cv m img) / inject_Z (region_pixels m img))%Q.

(** The ratio the code computes: the matched pixels over
    [total_pixels = mana_w * mana_h], the area of the configured bar,
    whatever part of it the frame holds. *)
Definition bar_fraction (cv : Cv2) (m : ManaConfig) (img : image) : Q :=
  (inject_Z (matched_pixels cv m img)
   / inject_Z (mana_bar_width m * mana_bar_height m))%Q.

(** Template scores as [TM_CCOEFF_NORMED] defines them: at most 1. *)
Definition scores_bounded (cv : Cv2) : Prop :=
  forall cell t q, match_template cv cell t = Return q -> (q <= 1)%Q.

Definition in_unit_interval (q : Q) : Prop := (0 <= q <= 1)%Q.

End VisionVocabulary.

(** ** Sample inputs *)

Module Samples.

Import Vision.

(** An image given by its pixel at each row and column. *)
Definition image_of (h w : nat) (f : nat -> nat -> pixel) : image :=
  map (fun row => map (fun col => f row col) (seq 0 w)) (seq 0 h).

Definition solid (h w : nat) (p : pixel) : image := image_of h w (fun _ _ => p).

(** A stand-in for OpenCV and the decoder, simple enough to evaluate:
    the grey level is the integer luma, the HSV triple is the pixel
    itself, a template scores 1 against an identical cell and 0
    otherwise, and the decoder knows the images of [frames] by name. *)
Definition luma (p : pixel) : Z :=
  let '(b, g, r) := p in (299 * r + 587 * g + 114 * b) / 1000.

Definition same_image (a b : image) : bool := bool_decide (a = b).

Fixpoint lookup_frame (s : string) (frames : list (string * image)) : option image :=
  match frames with
  | [] => None
  | (n, img) :: rest => if String.eqb n s then Some img else lookup_frame s rest
  end.

Definition stub_cv (frames : list (string * image)) : Cv2 :=
  {| CV2_AVAILABLE := true;
     b64decode := fun s => Return s;
     imdecode := fun s => lookup_frame s frames;
     gray_of := luma;
     hsv_of := fun p => p;
     match_template := fun cell t => Return (if same_image cell t then 1%Q else 0%Q) |}.

(** A 34 x 38 cell whose cropped centre, rows 15..18 and columns
    17..20, holds sixteen pixels: four of colour (100,100,100), three
    of colour (200,40,40) and nine others, all different. *)
Definition centre_pixels : list pixel :=
  [ (100, 100, 100); (100, 100, 100); (100, 100, 100); (100, 100, 100);
    (40, 40, 200); (40, 40, 200); (40, 40, 200); (0, 0, 20);
    (0, 0, 40); (0, 0, 60); (0, 0, 80); (0, 0, 100);
    (0, 0, 120); (0, 0, 140); (0, 0, 160); (0, 0, 180) ].

Definition two_tone_cell : image :=
  image_of 34 38 (fun row col =>
    if ((15 <=? row) && (row <? 19) && (17 <=? col) && (col <? 21))%nat
    then nth ((row - 15) * 4 + (col - 17)) centre_pixels (100, 100, 100)
    else (100, 100, 100)).

(** A uniform cell of the same size. *)
Definition uniform_cell : image := solid 34 38 (100, 100, 100).

Definition service_with (units : list string) (colors : list color) : VisionService :=
  {| templates := []; rank_model := None;
     ref_units := units; ref_colors := colors;
     grid_config := default_grid_config;
     mana_config := default_mana_config |}.

(** Two references: one at squared distance 1400 from (100,100,100),
    one equal to (200,40,40). *)
Definition two_refs : VisionService :=
  service_with ["alpha.png"; "beta.png"]%string [(130, 120, 110); (200, 40, 40)].

(** A reference close to black, and one far from it. *)
Definition dark_ref : VisionService :=
  service_with ["shadow.png"]%string [(10, 10, 10)].

Definition bright_ref : VisionService :=
  service_with ["snow.png"]%string [(250, 250, 250)].

(** An 80 x 250 frame in which the columns 50..129 carry a colour
    inside the default mana range: 80 of the 200 columns of the bar. *)
Definition mana_frame : image :=
  image_of 80 250 (fun _ col =>
    if ((50 <=? col) && (col <? 130))%nat then (110, 200, 220) else (0, 0, 0)).

(** An 80 x 150 frame that holds only columns 50..149 of the default
    bar: 30 rows of 100 pixels, of which columns 50..89 lie inside the
    default mana range, 1200 of the 3000 pixels of the region. *)
Definition clipped_mana_frame : image :=
  image_of 80 150 (fun _ col =>
    if ((50 <=? col) && (col <? 90))%nat then (110, 200, 220) else (0, 0, 0)).

(** A 2 x 2 grid of 34 x 38 cells without spacing, and a 68 x 76
    frame showing the two-tone cell in each of them. *)
Definition small_grid : VisionService :=
  {| templates := []; rank_model := None;
     ref_units := ["alpha.png"; "beta.png"]%string;
     ref_colors := [(130, 120, 110); (200, 40, 40)];
     grid_config := {| rows := 2; cols := 2; cell_width := 38; cell_height := 34;
                       grid_start_x := 0; grid_start_y := 0; cell_spacing := 0 |};
     mana_config := default_mana_config |}.

Definition grid_frame : image :=
  image_of 68 76 (fun row col =>
    nth (col mod 38) (nth (row mod 34) two_tone_cell []) (0, 0, 0)).

(** The output of [adb devices -l] with one emulator and one network
    device that is offline, and a bridge that answers nothing. *)
Definition listing : string :=
  ("List of devices attached" ++ String "010" ""
   ++ "emulator-5554          device product:sdk_gphone model:sdk" ++ String "010" ""
   ++ "192.168.1.7:5555       offline" ++ String "010" "" ++ String "010" "")%string.

Definition silent_probe (device_id : string) : ApiDevice.Probe :=
  {| ApiDevice.props := ∅; ApiDevice.sdk := Return 0;
     ApiDevice.battery_info := (None, None);
     ApiDevice.memory_info := (None, None);
     ApiDevice.screen_info := (None, None) |}.

End Samples.

(** ** Vocabulary of the further properties *)

Section LifecycleVocabulary.

Import BackendBot.

(** What can happen to the service between two observations: one of
    the commands, or a step of a main-loop task.  A loop task may take
    its steps at any time. *)
Inductive Step : Type :=
| DoStart (adb : Adb)
| DoStop
| DoTogglePause
| DoDisconnectDevice
| DoClearLogs
| LoopEnter
| LoopIteration (c : Cycle).

Definition do_step (now : Q) (st : Step) (s : BotService) : BotService :=
  match st with
  | DoStart adb => fst (start now adb s)
  | DoStop => fst (stop now s)
  | DoTogglePause => fst (toggle_pause now s)
  | DoDisconnectDevice => fst (disconnect_device now s)
  | DoClearLogs => clear_logs s
  | LoopEnter => main_loop_enter now s
  | LoopIteration c => main_loop_iteration now c s
  end.

Fixpoint do_steps (sts : list (Q * Step)) (s : BotService) : BotService :=
  match sts with
  | [] => s
  | (now, st) :: sts' => do_steps sts' (do_step now st s)
  end.

Definition lifecycle_invariant (s : BotService) : Prop :=
  (length (logs s) <= 1000)%nat
  /\ (status s = PAUSED -> _paused s = true)
  /\ (connected (bot s) = true <-> is_Some (device_serial (bot s))).

(** The refusal [start] answers with while the bot is running or
    starting. *)
Definition start_refused : Reply :=
  {| success := false; message := "Бот уже запущен или запускается" |}.

Definition adb_without_devices : Adb :=
  {| ADB_AVAILABLE := true; adb_devices := Return []; launch_ok := true |}.

(** The refusal [stop] answers with once the bot is stopped. *)
Definition stop_refused : Reply :=
  {| success := false; message := "Бот уже остановлен" |}.

(** Neither created nor inside the loop. *)
Definition task_at_rest (t : option Task) : Prop :=
  t <> Some TaskCreated /\ t <> Some TaskLooping.

(** An event without payload. *)
Definition event (now : Q) (t : string) : Event :=
  {| ev_type := t; ev_timestamp := now; ev_data := [] |}.

End LifecycleVocabulary.

Section ApiStartVocabulary.
Import ApiBot ApiBotStart.

(** A registry listing with nothing to start on: no device is
    connected, none is disconnected. *)
Definition nothing_to_use (devices : list ApiDevice.DeviceInfo) : Prop :=
  forall d, d ∈ devices ->
    ApiDevice.status d <> ApiDevice.CONNECTED
    /\ ApiDevice.status d <> ApiDevice.DISCONNECTED.

Definition device_with (i : string) (st : ApiDevice.DeviceStatus) : ApiDevice.DeviceInfo :=
  {| ApiDevice.id := i; ApiDevice.name := i; ApiDevice.model := "Unknown";
     ApiDevice.android_version := "Unknown"; ApiDevice.api_level := 0;
     ApiDevice.architecture := "Unknown"; ApiDevice.status := st;
     ApiDevice.connection_type := ApiDevice.connection_type_of i;
     ApiDevice.battery_level := None; ApiDevice.is_charging := None;
     ApiDevice.screen_resolution := None; ApiDevice.screen_density := None;
     ApiDevice.total_memory := None; ApiDevice.available_memory := None;
     ApiDevice.last_seen := None;
     ApiDevice.rush_royale_installed := false;
     ApiDevice.rush_royale_version := None |}.

(** An offline network device listed before a connected emulator. *)
Definition two_devices : list ApiDevice.DeviceInfo :=
  [device_with "192.168.1.7:5555" ApiDevice.DISCONNECTED;
   device_with "emulator-5554" ApiDevice.CONNECTED].

End ApiStartVocabulary.

Section ApiDeviceVocabulary.
Import ApiDevice.

(** The records of a listing that carry the id [k]. *)
Definition records_of (k : string) (found : list DeviceInfo) : list DeviceInfo :=
  filter (fun d => id d = k) found.

(** The record [_parse_device_line] builds before it asks the bridge. *)
Definition unprobed (now : Q) (device_id : string) (st : DeviceStatus) : DeviceInfo :=
  {| id := device_id; name := device_id; model := "Unknown";
     android_version := "Unknown"; api_level := 0;
     architecture := "Unknown"; status := st;
     connection_type := connection_type_of device_id;
     battery_level := None; is_charging := None;
     screen_resolution := None; screen_density := None;
     total_memory := None; available_memory := None;
     last_seen := Some now;
     rush_royale_installed := false; rush_royale_version := None |}.

(** [s.replace(c, new)] for a one-character [c], character by
    character. *)
Fixpoint subst_char (c : ascii) (new s : string) : string :=
  match s with
  | EmptyString => EmptyString
  | String d rest =>
      if Ascii.eqb d c then (new ++ subst_char c new rest)%string
      else String d (subst_char c new rest)
  end.

(** An id that does not have the shape of a network address. *)
Definition local_id (device_id : string) : Prop := Str.contains ":" device_id = false.

(** A service that found no adb executable. *)
Definition service_without_adb : DeviceService := {| adb_path := None; devices := ∅ |}.

End ApiDeviceVocabulary.

Section BackendDeviceVocabulary.
Import BackendDevice.

(** The handles of an enumeration that carry the serial [k]. *)
Definition handles_of (k : string) (ds : list AdbDevice) : list AdbDevice :=
  filter (fun d => serial d = k) ds.

(** The scan is not held back by the throttle and has an adb client. *)
Definition scan_runs (t : Q) (found : bool) (svc : DeviceService) : Prop :=
  Vision.Qltb (t - _last_scan_time svc) (_scan_interval svc) = false
  /\ adb_client svc || found = true.

(** [range(start_port, end_port + 1)]. *)
Definition port_range (start_port end_port : Z) : list Z :=
  seqZ start_port (end_port + 1 - start_port).

(** A connected device: its record says so and it holds a handle. *)
Definition connected_pixel_phone : Device :=
  {| info := _get_device_info 10 pixel_phone; adb_device := Some pixel_phone |}.

End BackendDeviceVocabulary.

Section LoggerVocabulary.

Import Logger.

(** A call of the logger: [log] with its arguments, or [clear_logs]. *)
Inductive Call : Type :=
| CallLog (now : Q) (lvl : LogLevel) (msg cat src : string)
| CallClear.

Definition do_call (c : Call) (s : LoggerService) : LoggerService :=
  match c with
  | CallLog now lvl msg cat src => log now lvl msg cat src s
  | CallClear => clear_logs s
  end.

Fixpoint do_calls (cs : list Call) (s : LoggerService) : LoggerService :=
  match cs with
  | [] => s
  | c :: cs' => do_calls cs' (do_call c s)
  end.

(** The entries the calls [cs] add to [acc]: those logged under an
    enabled category since the last clear, oldest first. *)
Fixpoint accepted (enabled : list string) (cs : list Call) (acc : list LogEntry)
  : list LogEntry :=
  match cs with
  | [] => acc
  | CallLog now lvl msg cat src :: cs' =>
      accepted enabled cs'
        (if bool_decide (cat ∈ enabled)
         then acc ++ [{| timestamp := now; level := lvl; message := msg;
                         category := cat; source := src |}]
         else acc)
  | CallClear :: cs' => accepted enabled cs' []
  end.

Definition LogLevel_eqb (a b : LogLevel) : bool :=
  match a, b with
  | DEBUG, DEBUG | INFO, INFO | WARNING, WARNING
  | ERROR, ERROR | CRITICAL, CRITICAL => true
  | _, _ => false
  end.

Definition count_level (l : LogLevel) (es : list LogEntry) : Z :=
  Z.of_nat (length (filter (fun e => LogLevel_eqb (level e) l = true) es)).

Definition count_category (c : string) (es : list LogEntry) : Z :=
  Z.of_nat (length (filter (fun e => category e = c) es)).

(** The statistics count exactly the entries [es], and the buffer
    holds the latest [max_logs] of them. *)
Definition tracks (s : LoggerService) (es : list LogEntry) : Prop :=
  logs s = last_entries (Z.to_nat (max_logs (config s))) es
  /\ total_logs (stats s) = Z.of_nat (length es)
  /\ debug_count (stats s) = count_level DEBUG es
  /\ info_count (stats s) = count_level INFO es
  /\ warning_count (stats s) = count_level WARNING es
  /\ error_count (stats s) = count_level ERROR es
  /\ critical_count (stats s) = count_level CRITICAL es
  /\ (forall c, categories (stats s) !! c
                = if decide (count_category c es = 0) then None
                  else Some (count_category c es)).

Definition fresh_logger (cfg : LogConfig) : LoggerService :=
  {| logs := []; stats := empty_stats; config := cfg |}.

End LoggerVocabulary.

Section VisionVocabularyMore.
Import Vision.

(** The timing of a fresh service, and one call of
    [_update_processing_time] per measurement: the first call that
    raises ends the sequence. *)
Definition no_timing {F : Type} (zero : F) : Timing F :=
  {| processing_times := []; average_processing_time := zero |}.

Fixpoint record_times {F : Type} (fsum : list F -> F) (fdiv : F -> nat -> F)
         (ms : list F) (t : Timing F) : result (Timing F) :=
  match ms with
  | [] => Return t
  | m :: ms' => t' ← _update_processing_time F fsum fdiv m t;
                record_times fsum fdiv ms' t'
  end.

(** The cell is occupied and carries the label [k]. *)
Definition labelled (k : string) (c : GridCell) : Prop :=
  occupied c = true /\ card_type c = Some k.

Definition count_labelled (k : string) (cs : list GridCell) : Z :=
  Z.of_nat (length (filter (labelled k) cs)).

Definition count_occupied (cs : list GridCell) : Z :=
  Z.of_nat (length (filter (fun c => occupied c = true) cs)).

(** The detail [d] describes the cell at index [j] of the analysis:
    an occupied cell whose stored corner is the one of the row and
    column the detail names. *)
Definition describes (g : GridConfig) (cs : list GridCell) (d : UnitDetail) (j : nat)
  : Prop :=
  exists cell,
    cs !! j = Some cell
    /\ occupied cell = true
    /\ card_type cell <> Some "unknown"%string
    /\ ud_row d = Z.of_nat j / cols g
    /\ ud_col d = Z.of_nat j mod cols g
    /\ (x cell, y cell) = cell_at g (ud_row d) (ud_col d).

(** The number of pixels of [unit_img] whose quantized colour is [c]. *)
Definition frequency (unit_img : image) (c : color) : Z :=
  Z.of_nat (length (filter (fun p => p = c) (quantized_pixels unit_img))).

(** The reference [c] stored under [file_name] is the first row of
    [_get_color] on an image of the listing with that name. *)
Definition first_row_of (files : list (string * option image))
           (file_name : string) (c : color) : Prop :=
  exists unit_image rest,
    ((file_name, Some unit_image) ∈ files)
    /\ _get_color unit_image false = Return (c :: rest)
    /\ ((distinct_colors unit_image < 10)%nat -> c = (0, 0, 0)).

End VisionVocabularyMore.

(** * Properties *)

(** ** The embedding on sample inputs *)

Example str_methods :
  Str.split "  emulator-5554   device  " = ["emulator-5554"; "device"]%string
  /\ Str.strip "  x y  " = "x y"%string
  /\ Str.split_on "," "data:image/png;base64,AAAA"
     = ["data:image/png;base64"; "AAAA"]%string
  /\ Str.replace ".png" "" "archer.png" = "archer"%string
  /\ Str.contains "emulator" "emulator-5554" = true
  /\ Str.count_char "." "192.168.1.7:5555" = 3%nat.
Proof. repeat split; reflexivity. Qed.

(** Equal counts make the fill loop repeat a row: the three least
    frequent places all receive the first colour that occurs once. *)
Example dominant_colors_of_two_tone_cell :
  Vision._get_color Samples.two_tone_cell true
  = Return [(100, 100, 100); (200, 40, 40); (20, 0, 0); (20, 0, 0); (20, 0, 0)].
Proof. vm_compute. reflexivity. Qed.

Example refresh_on_listing :
  let r := ApiDevice.refresh_devices 5 Samples.silent_probe (Return (0, Samples.listing))
             {| ApiDevice.adb_path := Some "adb"%string; ApiDevice.devices := ∅ |} in
  map (fun d => (ApiDevice.id d, ApiDevice.status d, ApiDevice.connection_type d)) r.2
  = [("emulator-5554"%string, ApiDevice.CONNECTED, ApiDevice.EMULATOR);
     ("192.168.1.7:5555"%string, ApiDevice.DISCONNECTED, ApiDevice.WIFI)].
Proof. vm_compute. reflexivity. Qed.

(** ** The event log of the orchestrator *)

Section EventLog.

Import BackendBot.

Lemma slice_from_neg {A} (l : list A) (k : Z) :
  0 < k -> slice_from l (- k) = last_entries (Z.to_nat k) l.
Proof.
  intros Hk. unfold slice_from, clamp, last_entries.
  destruct (Z.ltb_spec (- k) 0) as [_|?]; [|lia].
  f_equal. lia.
Qed.

Lemma append_event_last (e : Event) (log : list Event) :
  append_event e log = last_entries 1000 (log ++ [e]).
Proof.
  unfold append_event.
  destruct (Nat.ltb_spec 1000 (length (log ++ [e]))) as [Hlt|Hge].
  - change (-1000) with (- (1000)). rewrite slice_from_neg by lia. reflexivity.
  - unfold last_entries. replace (length (log ++ [e]) - 1000)%nat with 0%nat by lia.
    reflexivity.
Qed.

Lemma last_entries_length {A} (n : nat) (l : list A) :
  length (last_entries n l) = Nat.min n (length l).
Proof. unfold last_entries. rewrite length_drop. lia. Qed.

Lemma last_entries_app {A} (n : nat) (l r : list A) :
  last_entries n (last_entries n l ++ r) = last_entries n (l ++ r).
Proof.
  unfold last_entries.
  destruct (Nat.le_gt_cases (length l) n) as [Hle|Hgt].
  - replace (length l - n)%nat with 0%nat by lia. rewrite drop_0.
    reflexivity.
  - rewrite <- (drop_app_le l r) by lia.
    rewrite drop_drop. f_equal.
    rewrite length_drop, !length_app. lia.
Qed.

Lemma emit_all_logs evs s :
  (length (logs s) <= 1000)%nat ->
  logs (emit_all evs s) = last_entries 1000 (logs s ++ map event_of evs).
Proof.
  revert s. induction evs as [|[[now t] d] evs IH]; intros s Hlen.
  - simpl. rewrite app_nil_r. unfold last_entries.
    replace (length (logs s) - 1000)%nat with 0%nat by lia. reflexivity.
  - simpl emit_all. rewrite IH.
    + unfold _emit_event. simpl logs. rewrite append_event_last.
      rewrite last_entries_app, <- app_assoc. reflexivity.
    + unfold _emit_event. simpl logs.
      rewrite append_event_last, last_entries_length. lia.
Qed.

End EventLog.

(** C9.  After every call of [_emit_event] the log holds at most 1000
    entries; they are the last entries of the previous log followed by
    the new event, so only the oldest entries are dropped and the event
    just emitted is always retained, as the last one. *)
Theorem emit_event_keeps_latest_1000 (now : Q) (t : string) (d : payload)
        (s : BackendBot.BotService) :
  let e := {| BackendBot.ev_type := t; BackendBot.ev_timestamp := now;
              BackendBot.ev_data := d |} in
  let s' := BackendBot._emit_event now t d s in
  (length (BackendBot.logs s') <= 1000)%nat
  /\ BackendBot.logs s' = last_entries 1000 (BackendBot.logs s ++ [e])
  /\ (exists dropped, BackendBot.logs s ++ [e] = dropped ++ BackendBot.logs s')
  /\ last (BackendBot.logs s') = Some e.
Proof.
  intros e s'. subst s'. unfold BackendBot._emit_event. simpl BackendBot.logs.
  fold e. rewrite append_event_last.
  split; [|split; [|split]].
  - rewrite last_entries_length. lia.
  - reflexivity.
  - exists (take (length (BackendBot.logs s ++ [e]) - 1000) (BackendBot.logs s ++ [e])).
    unfold last_entries. symmetry. apply take_drop.
  - unfold last_entries. rewrite drop_app_le by (rewrite length_app; simpl; lia).
    apply last_snoc.
Qed.

(** ** Lifecycle commands from an incompatible state *)

(** In the api service, pausing a stopped bot raises [ValueError]: the
    call does not return a result at all. *)
Lemma api_pause_on_stopped_raises :
  ApiBot.pause_bot 0 ApiBot.init
  = (ApiBot.init, Raise (ValueError "Bot is not running"))
  /\ ~ returns (snd (ApiBot.pause_bot 0 ApiBot.init)).
Proof.
  split; [reflexivity|].
  intros [st Hst]. simpl in Hst. discriminate Hst.
Qed.

(** C2, as the code has it.  A command that does not fit the lifecycle
    state leaves the service exactly as it was and never puts it in
    another state.  How the refusal is reported differs:
    - backend [stop] on a stopped bot, and backend [toggle_pause] when
      the bot is not running and the pause flag is clear, return the
      dictionary with [success = false];
    - api [stop_bot] on a stopped bot returns the unchanged status
      snapshot;
    - api [pause_bot] outside [RUNNING] and [resume_bot] outside [PAUSED]
      raise [ValueError]. *)
Theorem incompatible_commands_leave_state :
  (forall now s,
      BackendBot.status s = BackendBot.STOPPED ->
      exists msg,
        BackendBot.stop now s
        = (s, {| BackendBot.success := false; BackendBot.message := msg |}))
  /\ (forall now s,
      BackendBot.status s <> BackendBot.RUNNING ->
      BackendBot._paused s = false ->
      exists msg,
        BackendBot.toggle_pause now s
        = (s, {| BackendBot.success := false; BackendBot.message := msg |}))
  /\ (forall now join s,
      ApiBot.state s = ApiBot.STOPPED ->
      ApiBot.stop_bot now join s = (s, Return (ApiBot.get_status now s)))
  /\ (forall now s,
      ApiBot.state s <> ApiBot.RUNNING ->
      ApiBot.pause_bot now s = (s, Raise (ValueError "Bot is not running")))
  /\ (forall now s,
      ApiBot.state s <> ApiBot.PAUSED ->
      ApiBot.resume_bot now s = (s, Raise (ValueError "Bot is not paused"))).
Proof.
  repeat split.
  - intros now s Hs. unfold BackendBot.stop. rewrite Hs. simpl. eauto.
  - intros now s Hs Hp. unfold BackendBot.toggle_pause. rewrite Hp.
    destruct (BackendBot.status s); simpl; eauto. congruence.
  - intros now join s Hs. unfold ApiBot.stop_bot. rewrite Hs. reflexivity.
  - intros now s Hs. unfold ApiBot.pause_bot.
    destruct (ApiBot.state s); simpl; try reflexivity. congruence.
  - intros now s Hs. unfold ApiBot.resume_bot.
    destruct (ApiBot.state s); simpl; try reflexivity. congruence.
Qed.

(** The theorem at work: a freshly constructed service of either stack
    refuses [stop], the pause toggle, [pause] and [resume]. *)
Lemma incompatible_commands_witness :
  (exists msg, BackendBot.stop 0 BackendBot.init
               = (BackendBot.init,
                  {| BackendBot.success := false; BackendBot.message := msg |}))
  /\ (exists msg, BackendBot.toggle_pause 0 BackendBot.init
                  = (BackendBot.init,
                     {| BackendBot.success := false; BackendBot.message := msg |}))
  /\ ApiBot.stop_bot 0 (Return tt) ApiBot.init
     = (ApiBot.init, Return (ApiBot.get_status 0 ApiBot.init))
  /\ ApiBot.pause_bot 0 ApiBot.init
     = (ApiBot.init, Raise (ValueError "Bot is not running"))
  /\ ApiBot.resume_bot 0 ApiBot.init
     = (ApiBot.init, Raise (ValueError "Bot is not paused")).
Proof.
  destruct incompatible_commands_leave_state as (H1 & H2 & H3 & H4 & H5).
  split; [apply H1; reflexivity|].
  split; [apply H2; [discriminate|reflexivity]|].
  split; [apply H3; reflexivity|].
  split; [apply H4; discriminate|apply H5; discriminate].
Defined.

(** The backend has one pause command, the toggle; it looks at the
    pause flag, not at the status, so a bot left in [STARTING] by a
    failed restart from [PAUSED] is resumed into [RUNNING]. *)
Example toggle_resumes_from_starting :
  let paused := fst (BackendBot.toggle_pause 1
                       (BackendBot.set_status BackendBot.RUNNING BackendBot.init)) in
  let no_device := {| BackendBot.ADB_AVAILABLE := true;
                      BackendBot.adb_devices := Return [];
                      BackendBot.launch_ok := true |} in
  let stuck := fst (BackendBot.start 2 no_device paused) in
  BackendBot.status stuck = BackendBot.STARTING
  /\ BackendBot.status (fst (BackendBot.toggle_pause 3 stuck)) = BackendBot.RUNNING.
Proof. split; reflexivity. Qed.

(** ** Errors in the main loop and the restart *)

Section Restart.

Import BackendBot.

Lemma main_loop_iteration_error_count now c s :
  _error_count (main_loop_iteration now c s) = _error_count s
  /\ total_errors (stats (main_loop_iteration now c s)) = total_errors (stats s)
  /\ (_running s = true -> _main_task (main_loop_iteration now c s) = _main_task s).
Proof.
  unfold main_loop_iteration, main_loop_leave, loop_body.
  destruct (_running s); simpl; [|repeat split; discriminate].
  destruct (_paused s); simpl; [repeat split; reflexivity|].
  destruct (negb (connected (bot s))); simpl.
  - destruct (Bot_connect_device (cycle_adb c) (bot s)) as [b [|]]; simpl.
    + destruct (truthy_bytes (screenshot c)); simpl; [|repeat split; reflexivity].
      destruct (game_state_changed c), (sleep_raises c); repeat split; reflexivity.
    + repeat split; reflexivity.
  - destruct (truthy_bytes (screenshot c)); simpl; [|repeat split; reflexivity].
    destruct (game_state_changed c), (sleep_raises c); repeat split; reflexivity.
Qed.

(** Whatever the loop meets, and however often, it never counts an
    error: [_error_count] is only ever written by [start] and by
    [_handle_error], and the loop calls neither. *)
Lemma main_loop_run_error_count cs s :
  _error_count (main_loop_run cs s) = _error_count s
  /\ total_errors (stats (main_loop_run cs s)) = total_errors (stats s).
Proof.
  revert s. induction cs as [|[now c] cs IH]; intros s; [split; reflexivity|].
  simpl. destruct (IH (main_loop_iteration now c s)) as [-> ->].
  destruct (main_loop_iteration_error_count now c s) as (-> & -> & _).
  split; reflexivity.
Qed.

End Restart.

(** C3, on the code.  However many passes of the main loop raise, and
    whatever the configuration, the loop leaves [_error_count] and
    [total_errors] as they were, so the restart threshold is never
    reached from the loop.  At the failing input, a bot started with
    [restart_on_error = True] and [max_errors = 3] whose loop body raises
    three times in a row: the counter is still 0, the log has gained
    three [error_occurred] events, no [bot_stopped] event and no second
    [bot_started] event, and the bot is still [RUNNING] on its first
    loop task. *)
Theorem main_loop_three_errors_no_restart :
  (forall cs s,
      BackendBot._error_count (BackendBot.main_loop_run cs s) = BackendBot._error_count s
      /\ BackendBot.total_errors (BackendBot.stats (BackendBot.main_loop_run cs s))
         = BackendBot.total_errors (BackendBot.stats s))
  /\ (let s := BackendBot.main_loop_run
                 [(1%Q, failing_cycle); (7%Q, failing_cycle); (13%Q, failing_cycle)]
                 running_service in
      BackendBot.restart_on_error (BackendBot.config running_service) = true
      /\ BackendBot.max_errors (BackendBot.config running_service) = 3
      /\ BackendBot._error_count s = 0
      /\ BackendBot.count_events "error_occurred" (BackendBot.logs s) = 3%nat
      /\ BackendBot.count_events "bot_stopped" (BackendBot.logs s) = 0%nat
      /\ BackendBot.count_events "bot_started" (BackendBot.logs s) = 1%nat
      /\ BackendBot.status s = BackendBot.RUNNING
      /\ BackendBot._main_task s = Some BackendBot.TaskLooping).
Proof.
  split.
  - intros cs s. apply main_loop_run_error_count.
  - vm_compute. repeat split; reflexivity.
Qed.

(** The handler the loop never calls holds the counting and the
    restart: called three times from outside the loop task, [_handle_error]
    restarts nothing at the first two errors and stops and starts the bot
    once at the third. *)
Example handle_error_restarts_at_third :
  let s1 := BackendBot._handle_error 1 6 adb_with_emulator running_service in
  let s2 := BackendBot._handle_error 7 12 adb_with_emulator s1 in
  let s3 := BackendBot._handle_error 13 18 adb_with_emulator s2 in
  BackendBot._error_count s2 = 2
  /\ BackendBot.count_events "bot_stopped" (BackendBot.logs s2) = 0%nat
  /\ BackendBot.count_events "bot_stopped" (BackendBot.logs s3) = 1%nat
  /\ BackendBot.count_events "bot_started" (BackendBot.logs s3) = 2%nat
  /\ BackendBot.status s3 = BackendBot.RUNNING.
Proof. vm_compute. repeat split; reflexivity. Qed.

(** ** The device registry after a scan *)

(** Equalities between key sets, by membership. *)
Ltac sets_by_membership :=
  apply set_eq; intros ?;
  repeat (rewrite elem_of_union || rewrite elem_of_intersection
          || rewrite elem_of_list_to_set || rewrite elem_of_cons
          || rewrite elem_of_nil || rewrite elem_of_singleton
          || rewrite elem_of_empty);
  tauto.

Section ApiRegistry.

Import ApiDevice.

Lemma parse_lines_dom now probe lines (reg : gmap string DeviceInfo) :
  dom (parse_lines now probe lines reg).2
  = dom reg ∪ list_to_set (map id (parse_lines now probe lines reg).1).
Proof.
  revert reg. induction lines as [|line rest IH]; intros reg; simpl.
  - sets_by_membership.
  - destruct (String.eqb (Str.strip line) ""); [apply IH|].
    destruct (_parse_device_line now probe line) as [d|]; [|apply IH].
    specialize (IH (<[id d := d]> reg)).
    destruct (parse_lines now probe rest (<[id d := d]> reg)) as [ds reg'].
    simpl in *. rewrite IH, dom_insert_L. sets_by_membership.
Qed.

Lemma prune_fold_lookup (cur : gset string) (reg : gmap string DeviceInfo)
      (ks : list string) (k : string) :
  foldr (fun device_id acc =>
           if decide (device_id ∈ cur) then acc else delete device_id acc)
        reg ks !! k
  = if decide (k ∈ ks ∧ k ∉ cur) then None else reg !! k.
Proof.
  induction ks as [|k' ks IH]; cbn [foldr].
  - rewrite decide_False; [reflexivity|].
    intros [H _]. inversion H.
  - destruct (decide (k' ∈ cur)) as [Hin|Hnin].
    + rewrite IH.
      destruct (decide (k ∈ ks ∧ k ∉ cur)) as [[H1 H2]|H].
      * rewrite decide_True; [reflexivity|]. split; [by right|assumption].
      * rewrite decide_False; [reflexivity|].
        intros [[->|H1]%elem_of_cons H2]; [contradiction|]. apply H. by split.
    + rewrite lookup_delete. destruct (decide (k' = k)) as [->|Hk].
      * rewrite decide_True; [reflexivity|]. split; [by left|assumption].
      * rewrite IH.
        destruct (decide (k ∈ ks ∧ k ∉ cur)) as [[H1 H2]|H].
        -- rewrite decide_True; [reflexivity|]. split; [by right|assumption].
        -- rewrite decide_False; [reflexivity|].
           intros [[->|H1]%elem_of_cons H2]; [congruence|]. apply H. by split.
Qed.

Lemma prune_lookup (cur : gset string) (reg : gmap string DeviceInfo) (k : string) :
  prune cur reg !! k = if decide (k ∈ cur) then reg !! k else None.
Proof.
  unfold prune. rewrite prune_fold_lookup.
  destruct (decide (k ∈ cur)) as [Hin|Hnin].
  - rewrite decide_False; [reflexivity|]. intros [_ H]. contradiction.
  - destruct (decide (k ∈ elements (dom reg) ∧ k ∉ cur)) as [H|H]; [reflexivity|].
    apply not_elem_of_dom. intros Hd. apply H. split; [|assumption].
    apply elem_of_elements. assumption.
Qed.

Lemma prune_dom (cur : gset string) (reg : gmap string DeviceInfo) :
  dom (prune cur reg) = dom reg ∩ cur.
Proof.
  apply set_eq. intros k. rewrite elem_of_intersection, !elem_of_dom, prune_lookup.
  destruct (decide (k ∈ cur)) as [Hin|Hnin]; split; intros H; try tauto.
  destruct H as [? H]. inversion H.
Qed.

(** In the api stack a completed refresh leaves exactly the devices
    just listed: the registry keys are the ids parsed from the
    listing, whatever the registry held before. *)
Lemma api_refresh_prunes now probe path out (svc : DeviceService) :
  adb_path svc = Some path ->
  let r := refresh_devices now probe (Return (0, out)) svc in
  dom (devices r.1) = list_to_set (map id r.2).
Proof.
  intros Hpath. unfold refresh_devices. rewrite Hpath. simpl.
  pose proof (parse_lines_dom now probe
                (slice_from (Str.split_on "010" (Str.strip out)) 1) (devices svc)) as Hd.
  destruct (parse_lines now probe _ (devices svc)) as [found reg]. simpl in *.
  rewrite prune_dom, Hd. sets_by_membership.
Qed.

End ApiRegistry.

Section BackendRegistry.

Import BackendDevice.

Lemma record_devices_dom (ds : list AdbDevice) (reg : gmap string Device) :
  dom (foldl record_device reg ds) = dom reg ∪ list_to_set (map serial ds).
Proof.
  revert reg. induction ds as [|d ds IH]; intros reg; simpl.
  - sets_by_membership.
  - rewrite IH. unfold record_device. rewrite dom_insert_L. sets_by_membership.
Qed.

Lemma mark_absent_dom (cur : gset string) (reg : gmap string Device) :
  dom (mark_absent cur reg) = dom reg.
Proof.
  unfold mark_absent. apply dom_imap_L. intros k. rewrite elem_of_dom.
  split.
  - intros [dev Hdev]. exists dev. split; [assumption|]. case_decide; eauto.
  - intros (dev & Hdev & _). eauto.
Qed.

(** In the backend stack a completed scan never removes a key: the
    registry afterwards holds every id it held before, together with
    the ids just enumerated. *)
Lemma backend_scan_keeps_keys (t : Q) (found : bool) (ds : list AdbDevice)
      (svc : DeviceService) :
  Vision.Qltb (t - _last_scan_time svc) (_scan_interval svc) = false ->
  adb_client svc || found = true ->
  dom (devices (scan_devices t found (Return ds) svc))
  = dom (devices svc) ∪ list_to_set (map serial ds).
Proof.
  intros Ht Hc. unfold scan_devices. rewrite Ht, Hc. simpl.
  rewrite mark_absent_dom. apply record_devices_dom.
Qed.

Lemma mark_absent_lookup (cur : gset string) (reg : gmap string Device) (k : string) :
  mark_absent cur reg !! k
  = (fun dev => if decide (k ∈ cur) then dev else mark_disconnected dev) <$> reg !! k.
Proof.
  unfold mark_absent. rewrite map_lookup_imap.
  destruct (reg !! k) as [dev|]; [|reflexivity].
  cbn. destruct (decide (k ∈ cur)); reflexivity.
Qed.

Lemma record_devices_lookup_other (ds : list AdbDevice) (reg : gmap string Device)
      (k : string) :
  k ∉ map serial ds ->
  foldl record_device reg ds !! k = reg !! k.
Proof.
  revert reg. induction ds as [|d ds IH]; intros reg Hk; [reflexivity|].
  cbn [foldl]. rewrite IH.
  - unfold record_device. apply lookup_insert_ne. intros Heq. apply Hk.
    rewrite <- Heq. by left.
  - intros H. apply Hk. by right.
Qed.

(** A device held by the registry and missing from the enumeration is
    still held after the scan, marked as disconnected. *)
Lemma backend_scan_lookup_absent (t : Q) (found : bool) (ds : list AdbDevice)
      (svc : DeviceService) (k : string) (dev : Device) :
  Vision.Qltb (t - _last_scan_time svc) (_scan_interval svc) = false ->
  adb_client svc || found = true ->
  devices svc !! k = Some dev ->
  k ∉ map serial ds ->
  devices (scan_devices t found (Return ds) svc) !! k = Some (mark_disconnected dev).
Proof.
  intros Ht Hc Hdev Hk. unfold scan_devices. rewrite Ht, Hc.
  cbn [negb devices]. rewrite mark_absent_lookup, record_devices_lookup_other by assumption.
  rewrite Hdev. cbn. rewrite decide_False; [reflexivity|].
  rewrite elem_of_list_to_set. assumption.
Qed.

End BackendRegistry.

(** C5, at the failing input.  The backend registry holds
    [emulator-5554]; the next completed scan enumerates no device at
    all; the record is still in the registry afterwards, marked
    [DISCONNECTED], so the keys are not the enumerated ids. *)
Theorem backend_scan_retains_absent_device :
  let before := service_with_one_device in
  let after := BackendDevice.scan_devices 20 true (Return []) before in
  (exists dev,
      BackendDevice.devices after !! "emulator-5554"%string = Some dev
      /\ BackendDevice.status (BackendDevice.info dev) = BackendDevice.DISCONNECTED
      /\ BackendDevice.adb_device dev = None)
  /\ dom (BackendDevice.devices after) = {["emulator-5554"%string]}
  /\ dom (BackendDevice.devices after)
     <> list_to_set (map BackendDevice.serial []).
Proof.
  intros before after.
  assert (Ha : dom (BackendDevice.devices after) = {["emulator-5554"%string]}).
  { subst after. rewrite backend_scan_keeps_keys by reflexivity.
    subst before. unfold service_with_one_device. cbn [BackendDevice.devices map].
    rewrite dom_singleton_L. cbn [list_to_set foldr]. apply union_empty_r_L. }
  split; [|split; [exact Ha|]].
  - eexists. split; [|split].
    + subst after. apply backend_scan_lookup_absent.
      * reflexivity.
      * reflexivity.
      * subst before. unfold service_with_one_device. cbn [BackendDevice.devices].
        apply lookup_singleton_eq.
      * cbn [map]. apply not_elem_of_nil.
    + reflexivity.
    + reflexivity.
  - rewrite Ha. cbn [map list_to_set foldr].
    intros H. apply (not_elem_of_empty (C := gset string) "emulator-5554"%string).
    rewrite <- H. apply elem_of_singleton. reflexivity.
Qed.

(** ** Parsing one line of the device listing *)

(** C6.  The listing line ["emulator-5554 device"] parses to a record
    with connection type [EMULATOR] and status [CONNECTED], whatever the
    bridge answers to the follow-up queries. *)
Theorem parse_emulator_line (now : Q) (probe : string -> ApiDevice.Probe) :
  exists d,
    ApiDevice._parse_device_line now probe "emulator-5554 device" = Some d
    /\ ApiDevice.id d = "emulator-5554"%string
    /\ ApiDevice.connection_type d = ApiDevice.EMULATOR
    /\ ApiDevice.status d = ApiDevice.CONNECTED.
Proof.
  eexists. split.
  - unfold ApiDevice._parse_device_line.
    change (Str.split "emulator-5554 device")
      with ["emulator-5554"%string; "device"%string].
    cbv beta iota.
    replace (ApiDevice.status_map !! "device"%string)
      with (Some ApiDevice.CONNECTED) by (symmetry; apply lookup_insert_eq).
    cbn [default ApiDevice.DeviceStatus_eqb]. reflexivity.
  - unfold ApiDevice._update_device_details.
    destruct (ApiDevice.sdk (probe "emulator-5554"%string)); cbn;
      repeat split; reflexivity.
Qed.

(** The raw status tokens and the three id shapes. *)
Lemma status_tokens :
  default ApiDevice.ERROR (ApiDevice.status_map !! "device"%string) = ApiDevice.CONNECTED
  /\ default ApiDevice.ERROR (ApiDevice.status_map !! "offline"%string)
     = ApiDevice.DISCONNECTED
  /\ default ApiDevice.ERROR (ApiDevice.status_map !! "unauthorized"%string)
     = ApiDevice.UNAUTHORIZED
  /\ default ApiDevice.ERROR (ApiDevice.status_map !! "recovery"%string) = ApiDevice.ERROR.
Proof. repeat split; vm_compute; reflexivity. Qed.

Example connection_kinds :
  ApiDevice.connection_type_of "192.168.1.5:5555" = ApiDevice.WIFI
  /\ ApiDevice.connection_type_of "emulator-5554" = ApiDevice.EMULATOR
  /\ ApiDevice.connection_type_of "R58M12ABCDE" = ApiDevice.USB.
Proof. repeat split; reflexivity. Qed.

(** The backend stack has no emulator kind: its [_get_device_info]
    files the same id under [USB]. *)
Example backend_emulator_is_usb :
  BackendDevice.connection_type (BackendDevice._get_device_info 10 pixel_phone)
  = BackendDevice.USB.
Proof. reflexivity. Qed.

(** ** Dominant colours: [np.unique], the sort and the fill loop *)

Section DominantColors.

Import Vision.

Lemma color_eqb_eq (a b : color) : color_eqb a b = true <-> a = b.
Proof.
  destruct a as [[a1 a2] a3], b as [[b1 b2] b3]. unfold color_eqb.
  rewrite !andb_true_iff, !Z.eqb_eq. split.
  - intros [[-> ->] ->]. reflexivity.
  - intros H. inversion H. auto.
Qed.

Lemma color_ltb_spec (a b : color) :
  color_ltb a b = true <->
  (a.1.1 < b.1.1
   \/ (a.1.1 = b.1.1 /\ (a.1.2 < b.1.2 \/ (a.1.2 = b.1.2 /\ a.2 < b.2)))).
Proof.
  destruct a as [[a1 a2] a3], b as [[b1 b2] b3]. unfold color_ltb. simpl.
  rewrite !orb_true_iff, !andb_true_iff, !orb_true_iff, !andb_true_iff,
    !Z.ltb_lt, !Z.eqb_eq. tauto.
Qed.

Lemma color_lt_irrefl (a : color) : ~ color_lt a a.
Proof. unfold color_lt. rewrite color_ltb_spec. lia. Qed.

Lemma color_lt_trans (a b c : color) : color_lt a b -> color_lt b c -> color_lt a c.
Proof. unfold color_lt. rewrite !color_ltb_spec. lia. Qed.

Lemma color_lt_total (a b : color) :
  color_eqb a b = false -> color_ltb a b = false -> color_lt b a.
Proof.
  intros He Hl. unfold color_lt.
  assert (a <> b) as Hne.
  { intros H. apply color_eqb_eq in H. congruence. }
  assert (~ color_ltb a b = true) as Hnl by congruence.
  rewrite color_ltb_spec in Hnl. rewrite color_ltb_spec.
  destruct a as [[a1 a2] a3], b as [[b1 b2] b3]. simpl in *.
  assert (a1 <> b1 \/ a2 <> b2 \/ a3 <> b3) as Hd.
  { destruct (Z.eq_dec a1 b1), (Z.eq_dec a2 b2), (Z.eq_dec a3 b3);
      subst; auto. }
  lia.
Qed.

Lemma count_insert_keys (c : color) (l : list (color * Z)) (k : color) :
  k ∈ map fst (count_insert c l) <-> k = c \/ k ∈ map fst l.
Proof.
  induction l as [|[d n] l IH]; simpl.
  - rewrite list_elem_of_singleton, elem_of_nil. tauto.
  - destruct (color_eqb c d) eqn:He.
    + apply color_eqb_eq in He. subst d. simpl.
      rewrite !elem_of_cons. tauto.
    + destruct (color_ltb c d); simpl.
      * rewrite !elem_of_cons. tauto.
      * rewrite !elem_of_cons, IH. tauto.
Qed.

Lemma count_insert_sorted (c : color) (l : list (color * Z)) :
  keys_sorted l -> keys_sorted (count_insert c l).
Proof.
  unfold keys_sorted. induction l as [|[d n] l IH]; simpl; intros Hs.
  - repeat constructor.
  - inversion Hs as [|? ? Hs' Hall]; subst.
    destruct (color_eqb c d) eqn:He; [simpl; constructor; assumption|].
    destruct (color_ltb c d) eqn:Hl; simpl.
    + constructor; [constructor; assumption|].
      constructor; [exact Hl|].
      eapply Forall_impl; [exact Hall|].
      intros x Hx. eapply color_lt_trans; [exact Hl|exact Hx].
    + constructor; [apply IH; assumption|].
      apply Forall_forall. intros x Hx.
      apply count_insert_keys in Hx as [->|Hx].
      * apply color_lt_total; assumption.
      * rewrite Forall_forall in Hall. apply Hall. assumption.
Qed.

Lemma np_unique_sorted (flat : list color) : keys_sorted (np_unique flat).
Proof.
  unfold np_unique. induction flat as [|c flat IH]; simpl.
  - constructor.
  - apply count_insert_sorted. exact IH.
Qed.

Lemma np_unique_keys (flat : list color) (k : color) :
  k ∈ map fst (np_unique flat) <-> k ∈ flat.
Proof.
  unfold np_unique. induction flat as [|c flat IH]; simpl.
  - reflexivity.
  - rewrite count_insert_keys, IH, elem_of_cons. reflexivity.
Qed.

Lemma sorted_keys_NoDup (ks : list color) : StronglySorted color_lt ks -> NoDup ks.
Proof.
  induction 1 as [|k ks Hs IH Hall]; constructor; [|assumption].
  intros Hin. rewrite Forall_forall in Hall.
  apply (color_lt_irrefl k). apply Hall. assumption.
Qed.

(** [len(unique)] is the number of distinct rows. *)
Lemma np_unique_length (flat : list color) :
  length (np_unique flat) = size (list_to_set flat : gset color).
Proof.
  rewrite <- (length_map fst).
  rewrite <- (size_list_to_set (C := gset color)).
  - f_equal. apply set_eq. intros k.
    rewrite !elem_of_list_to_set. apply np_unique_keys.
  - apply sorted_keys_NoDup, np_unique_sorted.
Qed.

Lemma insert_sorted_elem (n : Z) (l : list Z) (k : Z) :
  k ∈ insert_sorted n l <-> k = n \/ k ∈ l.
Proof.
  induction l as [|m l IH]; simpl.
  - rewrite list_elem_of_singleton, elem_of_nil. tauto.
  - destruct (n <=? m); rewrite !elem_of_cons; [tauto|]. rewrite IH. tauto.
Qed.

Lemma insert_sorted_length (n : Z) (l : list Z) :
  length (insert_sorted n l) = S (length l).
Proof.
  induction l as [|m l IH]; simpl; [reflexivity|].
  destruct (n <=? m); simpl; congruence.
Qed.

Lemma np_sort_elem (l : list Z) (k : Z) : k ∈ np_sort l <-> k ∈ l.
Proof.
  unfold np_sort. induction l as [|n l IH]; simpl; [reflexivity|].
  rewrite insert_sorted_elem, IH, elem_of_cons. reflexivity.
Qed.

Lemma np_sort_length (l : list Z) : length (np_sort l) = length l.
Proof.
  unfold np_sort. induction l as [|n l IH]; simpl; [reflexivity|].
  rewrite insert_sorted_length. congruence.
Qed.

Lemma nth_error_lookup {A} (l : list A) (i : nat) : nth_error l i = l !! i.
Proof.
  revert i. induction l as [|a l IH]; intros [|i]; try reflexivity. apply IH.
Qed.

Lemma getitem_lt {A} (l : list A) (i : nat) :
  (i < length l)%nat -> exists a, getitem l i = Return a /\ a ∈ l.
Proof.
  intros Hi. unfold getitem.
  destruct (nth_error l i) as [a|] eqn:Hn.
  - exists a. split; [reflexivity|].
    apply list_elem_of_In. eapply nth_error_In. exact Hn.
  - apply nth_error_None in Hn. lia.
Qed.

Lemma where_first_elem (counts : list Z) (v : Z) :
  v ∈ counts -> exists i, where_first counts v = Return i /\ (i < length counts)%nat.
Proof.
  intros Hv. unfold where_first.
  destruct (list_find (fun c => c = v) counts) as [[i x]|] eqn:Hf.
  - exists i. split; [reflexivity|].
    apply list_find_Some in Hf as (Hl & _). eapply lookup_lt_Some. exact Hl.
  - apply list_find_None in Hf. rewrite Forall_forall in Hf.
    exfalso. apply (Hf v Hv). reflexivity.
Qed.

(** The fill loop never raises and keeps the five rows. *)
Lemma fill_colors_returns (unique : list color) (counts sorted_count : list Z)
      (idxs : list nat) (colors : list color) :
  length unique = length counts ->
  (forall v, v ∈ sorted_count -> v ∈ counts) ->
  Forall (fun i => (i < length sorted_count)%nat) idxs ->
  exists colors',
    fill_colors unique counts sorted_count idxs colors = Return colors'
    /\ length colors' = length colors.
Proof.
  intros Hlen Hsub. revert colors.
  induction idxs as [|i idxs IH]; intros colors Hidx; simpl.
  - eauto.
  - inversion Hidx as [|? ? Hi Hrest]; subst.
    destruct (getitem_lt sorted_count i Hi) as (v & -> & Hv). cbn.
    destruct (where_first_elem counts v (Hsub v Hv)) as (index & -> & Hindex). cbn.
    rewrite <- Hlen in Hindex.
    destruct (getitem_lt unique index Hindex) as (c & -> & _). cbn.
    destruct (IH (<[i := c]> colors) Hrest) as (colors' & -> & Hl).
    exists colors'. split; [reflexivity|]. rewrite Hl. apply length_insert.
Qed.

End DominantColors.

(** ** Nearest reference colour *)

Section NearestReference.

Import Vision.

Lemma foldl_min_spec (l : list Z) (v : Z) :
  foldl Z.min v l ∈ v :: l /\ (forall x, x ∈ v :: l -> foldl Z.min v l <= x).
Proof.
  revert v. induction l as [|a l IH]; intros v; simpl.
  - split; [by left|]. intros x Hx. apply list_elem_of_singleton in Hx. lia.
  - destruct (IH (Z.min v a)) as [Hin Hle]. split.
    + apply elem_of_cons in Hin as [Heq|Hin].
      * rewrite Heq. destruct (Z.min_spec v a) as [[_ ->]|[_ ->]].
        -- by left.
        -- right. by left.
      * right. by right.
    + intros x Hx. apply elem_of_cons in Hx as [->|Hx].
      * specialize (Hle (Z.min v a) ltac:(by left)). lia.
      * apply elem_of_cons in Hx as [->|Hx].
        -- specialize (Hle (Z.min v a) ltac:(by left)). lia.
        -- apply Hle. by right.
Qed.

Lemma np_min_spec (l : list Z) :
  l <> [] ->
  exists m, np_min l = Return m /\ m ∈ l /\ (forall x, x ∈ l -> m <= x).
Proof.
  destruct l as [|v l]; [congruence|]. intros _.
  exists (foldl Z.min v l). split; [reflexivity|]. apply foldl_min_spec.
Qed.

Lemma np_min_unique (l : list Z) (m : Z) :
  m ∈ l -> (forall x, x ∈ l -> m <= x) -> np_min l = Return m.
Proof.
  intros Hin Hle.
  destruct (np_min_spec l) as (m' & -> & Hin' & Hle').
  - intros ->. inversion Hin.
  - f_equal. specialize (Hle _ Hin'). specialize (Hle' _ Hin). lia.
Qed.

Lemma nearest_min (refs : list color) (c : color) (i : nat) (d : Z) :
  nearest refs c i d ->
  np_min (map (sq_dist c) refs) = Return d
  /\ np_argmin (map (sq_dist c) refs) = Return i.
Proof.
  intros ((r & Hr & Hd) & Hmin & Hfirst).
  assert (Hm : np_min (map (sq_dist c) refs) = Return d).
  { apply np_min_unique.
    - apply list_elem_of_fmap. exists r. split; [congruence|].
      eapply list_elem_of_lookup_2. exact Hr.
    - intros x Hx. apply list_elem_of_fmap in Hx as (r' & -> & Hr'). auto. }
  split; [exact Hm|].
  unfold np_argmin. rewrite Hm. cbn. unfold where_first.
  assert (Hf : list_find (fun x => x = d) (map (sq_dist c) refs) = Some (i, d)).
  { apply list_find_Some. split; [|split].
    - change (map (sq_dist c) refs) with (sq_dist c <$> refs).
      rewrite list_lookup_fmap, Hr. simpl. congruence.
    - reflexivity.
    - intros j y Hj Hlt.
      change (map (sq_dist c) refs) with (sq_dist c <$> refs) in Hj.
      rewrite list_lookup_fmap in Hj.
      destruct (refs !! j) as [r'|] eqn:Hr'; [|discriminate].
      simpl in Hj. inversion Hj; subst. eapply Hfirst; eassumption. }
  rewrite Hf. reflexivity.
Qed.

Lemma getitem_lookup {A} (l : list A) (i : nat) (a : A) :
  l !! i = Some a -> getitem l i = Return a.
Proof.
  intros H. unfold getitem. rewrite nth_error_lookup, H. reflexivity.
Qed.

Lemma match_colors_skip (units : list string) (refs : list color)
      (pre rest : list color) :
  refs <> [] ->
  Forall (out_of_reach refs) pre ->
  match_colors units refs (pre ++ rest) = match_colors units refs rest.
Proof.
  intros Hne. induction 1 as [|c pre Hc Hpre IH]; [reflexivity|].
  cbn [app match_colors].
  destruct (np_min_spec (map (sq_dist c) refs)) as (m & -> & Hin & _).
  { destruct refs; [congruence|discriminate]. }
  cbn. apply list_elem_of_fmap in Hin as (r & -> & Hr).
  specialize (Hc r Hr).
  destruct (Z.leb_spec (sq_dist c r) 2000); [lia|]. exact IH.
Qed.

Lemma match_colors_hit (units : list string) (refs : list color)
      (c : color) (rest : list color) (i : nat) (d : Z) (u : string) :
  nearest refs c i d -> d <= 2000 -> units !! i = Some u ->
  match_colors units refs (c :: rest) = Return (Some (u, inject_Z d)).
Proof.
  intros Hn Hd Hu. destruct (nearest_min _ _ _ _ Hn) as [Hm Ha].
  cbn [match_colors]. rewrite Hm. cbn.
  destruct (Z.leb_spec d 2000); [|lia].
  rewrite Ha. cbn. rewrite (getitem_lookup _ _ _ Hu). reflexivity.
Qed.

End NearestReference.

(** ** What [_get_color] returns *)

Section GetColor.

Import Vision.

Lemma get_color_unfold (img : image) (crop : bool) :
  img_size (looked_at img crop) <> 0 ->
  _get_color img crop
  = let uc := np_unique (quantized_pixels (looked_at img crop)) in
    if (length (map fst uc) <? 10)%nat then Return zeros_5x3
    else fill_colors (map fst uc) (map snd uc) (rev (np_sort (map snd uc)))
                     (seq 0 (Nat.min 5 (length (rev (np_sort (map snd uc))))))
                     zeros_5x3.
Proof.
  intros Hsize. unfold _get_color. fold (looked_at img crop).
  unfold cvtColor_BGR2RGB.
  destruct (Z.eqb_spec (img_size (looked_at img crop)) 0) as [|_]; [contradiction|].
  reflexivity.
Qed.

Lemma get_color_returns (img : image) (crop : bool) :
  img_size (looked_at img crop) <> 0 ->
  exists colors,
    _get_color img crop = Return colors
    /\ length colors = 5%nat
    /\ ((distinct_colors (looked_at img crop) < 10)%nat -> colors = zeros_5x3).
Proof.
  intros Hsize. rewrite get_color_unfold by exact Hsize.
  set (uc := np_unique (quantized_pixels (looked_at img crop))).
  cbv zeta.
  assert (Hlen : length (map fst uc) = distinct_colors (looked_at img crop)).
  { rewrite length_map. apply np_unique_length. }
  destruct (Nat.ltb_spec (length (map fst uc)) 10) as [Hlt|Hge].
  - exists zeros_5x3. repeat split; reflexivity.
  - destruct (fill_colors_returns (map fst uc) (map snd uc)
                (rev (np_sort (map snd uc)))
                (seq 0 (Nat.min 5 (length (rev (np_sort (map snd uc))))))
                zeros_5x3) as (colors & Hc & Hl).
    + rewrite !length_map. reflexivity.
    + intros v Hv. apply list_elem_of_In in Hv. apply in_rev in Hv.
      apply list_elem_of_In in Hv. apply np_sort_elem. exact Hv.
    + apply Forall_forall. intros i Hi.
      apply list_elem_of_In, in_seq in Hi. lia.
    + exists colors. split; [exact Hc|]. split; [exact Hl|]. lia.
Qed.

(** With every row black, the colour match depends on the references
    alone: it fails when none is within 2000 of black. *)
Lemma match_black_none (units : list string) (refs : list color) (n : nat) :
  refs <> [] ->
  out_of_reach refs (0, 0, 0) ->
  match_colors units refs (replicate n (0, 0, 0)) = Return None.
Proof.
  intros Hne Hfar.
  rewrite <- (app_nil_r (replicate n _)).
  rewrite match_colors_skip; [reflexivity|exact Hne|].
  apply Forall_forall. intros c Hc. apply elem_of_replicate in Hc as [-> _].
  exact Hfar.
Qed.

Lemma match_unit_unfold (svc : VisionService) (cell : image) (colors : list color) :
  ref_colors svc <> [] ->
  ref_units svc <> [] ->
  _get_color cell true = Return colors ->
  _match_unit svc cell
  = match match_colors (ref_units svc) (ref_colors svc) colors with
    | Return hit => Return (default no_match hit)
    | Raise e => Raise e
    end.
Proof.
  intros Hrc Hru Hc. unfold _match_unit.
  destruct (ref_colors svc); [congruence|].
  destruct (ref_units svc); [congruence|].
  cbn [is_empty orb]. rewrite Hc. reflexivity.
Qed.

Lemma color_branch_unfold (svc : VisionService) (cell : image) :
  ref_colors svc <> [] ->
  ref_units svc <> [] ->
  color_branch svc cell
  = match _match_unit svc cell with
    | Return (unit_type, color_confidence) =>
        if negb (String.eqb unit_type "empty.png") && Qleb color_confidence 2000 then
          let '(rank, rank_confidence) := _match_rank svc cell in
          Return (Some (true, Some (unit_name_of unit_type rank rank_confidence),
                        Qmax (1#10) (1 - color_confidence / 2000)))
        else Return None
    | Raise e => Raise e
    end.
Proof.
  intros Hrc Hru. unfold color_branch.
  destruct (ref_colors svc); [congruence|].
  destruct (ref_units svc); [congruence|].
  cbn [is_empty negb andb].
  destruct (_match_unit svc cell) as [[unit_type cc]|e]; reflexivity.
Qed.

(** [_get_color] raises exactly on an empty inspected part. *)
Lemma get_color_empty (img : image) (crop : bool) :
  img_size (looked_at img crop) = 0 ->
  _get_color img crop = Raise (Cv2Error "cvtColor: !_src.empty()").
Proof.
  intros H. unfold _get_color. fold (looked_at img crop).
  unfold cvtColor_BGR2RGB. rewrite H. reflexivity.
Qed.

Lemma slice_length_clamped {A} (l : list A) (a b : Z) :
  let n := Z.of_nat (length l) in
  Z.of_nat (length (slice l a b))
  = Z.max 0 (Z.min (clamp n b - clamp n a) (n - clamp n a)).
Proof.
  cbn zeta. unfold slice. rewrite length_firstn, length_skipn.
  assert (0 <= clamp (Z.of_nat (length l)) a <= Z.of_nat (length l)).
  { unfold clamp. destruct (Z.ltb_spec a 0); lia. }
  lia.
Qed.

(** The size of a rectangle cut out of an image whose rows have [w]
    pixels. *)
Lemma crop_rect_size (w : nat) (img : image) (y0 y1 x0 x1 : Z) :
  rectangular w img ->
  img_size (crop_rect img y0 y1 x0 x1)
  = Z.of_nat (length (slice img y0 y1))
    * Z.max 0 (Z.min (clamp (Z.of_nat w) x1 - clamp (Z.of_nat w) x0)
                     (Z.of_nat w - clamp (Z.of_nat w) x0))
    * 3.
Proof.
  intros Hrect. unfold img_size, img_height, img_width, crop_rect.
  rewrite length_map.
  assert (Hrows : Forall (fun row => length row = w) (slice img y0 y1)).
  { unfold slice. apply Forall_take, Forall_drop. exact Hrect. }
  destruct (slice img y0 y1) as [|row rows]; [reflexivity|].
  apply Forall_cons in Hrows as [Hrow _].
  cbn [map]. rewrite slice_length_clamped. cbn zeta. rewrite Hrow. reflexivity.
Qed.

(** The centre crop is not empty exactly on cells of more than 30 rows
    and more than 34 columns. *)
Lemma crop_unit_size (w : nat) (cell : image) :
  rectangular w cell ->
  (img_size (crop_unit cell) <> 0 <-> 30 < img_height cell /\ 34 < Z.of_nat w).
Proof.
  intros Hrect. unfold crop_unit. rewrite (crop_rect_size w) by exact Hrect.
  rewrite slice_length_clamped. cbn zeta.
  assert (Hw : img_height cell = 0 \/ img_width cell = Z.of_nat w).
  { unfold img_height, img_width. destruct cell as [|row rest]; [left; reflexivity|].
    right. apply Forall_cons in Hrect as [-> _]. reflexivity. }
  unfold img_height in *.
  change (Z.max 0 15) with 15. change (Z.max 0 17) with 17.
  set (h := Z.of_nat (length cell)) in *.
  set (iw := img_width cell) in *.
  assert (Hh0 : 0 <= h) by (subst h; lia).
  assert (Hw0 : 0 <= Z.of_nat w) by lia.
  set (wz := Z.of_nat w) in *.
  unfold clamp.
  destruct (15 <? 0) eqn:E1; [discriminate|].
  destruct (17 <? 0) eqn:E2; [discriminate|].
  destruct (Z.ltb_spec (15 + Z.min 90 (Z.min (h - 30) (iw - 34))) 0);
    destruct (Z.ltb_spec (17 + Z.min 90 (Z.min (h - 30) (iw - 34))) 0);
    destruct Hw as [Hw|Hw]; nia.
Qed.

End GetColor.

(** A cell of 30 rows and 34 columns is not empty, but its centre crop
    is: [_get_color] with [crop=True], and so [_match_unit], raise
    instead of returning five rows. *)
Lemma undersized_cell_has_no_colors :
  let cell := Samples.solid 30 34 (100, 100, 100) in
  Vision.img_size cell = 3060
  /\ Vision.img_size (looked_at cell true) = 0
  /\ (distinct_colors (looked_at cell true) < 10)%nat
  /\ Vision._get_color cell true = Raise (Cv2Error "cvtColor: !_src.empty()")
  /\ Vision._match_unit Samples.two_refs cell
     = Raise (Cv2Error "cvtColor: !_src.empty()")
  /\ ~ (exists colors, Vision._get_color cell true = Return colors
                       /\ length colors = 5%nat).
Proof.
  cbv zeta.
  split; [vm_compute; reflexivity|]. split; [vm_compute; reflexivity|].
  split; [apply Nat.ltb_lt; vm_compute; reflexivity|].
  assert (H : Vision._get_color (Samples.solid 30 34 (100, 100, 100)) true
              = Raise (Cv2Error "cvtColor: !_src.empty()"))
    by (vm_compute; reflexivity).
  split; [exact H|]. split; [vm_compute; reflexivity|].
  intros (colors & Hc & _). rewrite H in Hc. discriminate.
Qed.

(** C10, as the code has it.  [_get_color] returns exactly when the
    part of the image it inspects is not empty, and raises otherwise;
    with [crop=True] on a cell with rows of equal length that part is
    not empty exactly when the cell has more than 30 rows and more than
    34 columns.  When it returns, it returns five rows; with fewer than
    ten distinct quantized colours all five are [(0, 0, 0)].  A cell
    whose cropped centre is not empty and that uniform, in a service
    with references loaded, is decided by the references alone:
    - if no reference colour is within squared distance 2000 of black,
      the colour match fails and the cell goes to the template loop
      (and from there to ["unknown"]);
    - if the nearest reference to black is within 2000, the cell is
      reported by colour under that reference's name. *)
Theorem near_uniform_cell_has_no_signature :
  (forall (img : Vision.image) (crop : bool),
      Vision.img_size (looked_at img crop) <> 0 ->
      exists colors,
        Vision._get_color img crop = Return colors
        /\ length colors = 5%nat
        /\ ((distinct_colors (looked_at img crop) < 10)%nat ->
            colors = replicate 5 (0, 0, 0)))
  /\ (forall (cv : Vision.Cv2) (svc : Vision.VisionService) (cell : Vision.image),
         Vision.img_size (Vision.crop_unit cell) <> 0 ->
         (distinct_colors (Vision.crop_unit cell) < 10)%nat ->
         Vision.ref_colors svc <> [] ->
         Vision.ref_units svc <> [] ->
         out_of_reach (Vision.ref_colors svc) (0, 0, 0) ->
         Vision._match_unit svc cell = Return ("empty.png"%string, inject_Z 2001)
         /\ Vision.color_branch svc cell = Return None
         /\ (Vision.img_size cell <> 0 ->
             Vision.Qltb (Vision.mean_brightness cv cell) 30 = false ->
             Vision.Qltb 220 (Vision.mean_brightness cv cell) = false ->
             Vision._analyze_cell cv svc cell = Vision.template_branch cv svc cell))
  /\ (forall (svc : Vision.VisionService) (cell : Vision.image)
             (i : nat) (d : Z) (u : string),
         Vision.img_size (Vision.crop_unit cell) <> 0 ->
         (distinct_colors (Vision.crop_unit cell) < 10)%nat ->
         nearest (Vision.ref_colors svc) (0, 0, 0) i d ->
         d <= 2000 ->
         Vision.ref_units svc !! i = Some u ->
         Vision._match_unit svc cell = Return (u, inject_Z d))
  /\ (forall (img : Vision.image) (crop : bool),
         Vision.img_size (looked_at img crop) = 0 ->
         Vision._get_color img crop = Raise (Cv2Error "cvtColor: !_src.empty()"))
  /\ (forall (svc : Vision.VisionService) (cell : Vision.image),
         Vision.img_size (Vision.crop_unit cell) = 0 ->
         Vision.ref_colors svc <> [] ->
         Vision.ref_units svc <> [] ->
         Vision._match_unit svc cell = Raise (Cv2Error "cvtColor: !_src.empty()"))
  /\ (forall (w : nat) (cell : Vision.image),
         rectangular w cell ->
         (Vision.img_size (Vision.crop_unit cell) <> 0
          <-> 30 < Vision.img_height cell /\ 34 < Z.of_nat w)).
Proof.
  split; [|split; [|split; [|split; [|split]]]].
  - intros img crop Hsize. apply get_color_returns. exact Hsize.
  - intros cv svc cell Hsize Hfew Hrc Hru Hfar.
    destruct (get_color_returns cell true Hsize) as (colors & Hc & _ & Hz).
    specialize (Hz Hfew). subst colors.
    assert (Hm : Vision._match_unit svc cell = Return ("empty.png"%string, inject_Z 2001)).
    { rewrite (match_unit_unfold svc cell _ Hrc Hru Hc).
      unfold Vision.zeros_5x3. rewrite match_black_none by assumption.
      reflexivity. }
    assert (Hb : Vision.color_branch svc cell = Return None).
    { rewrite (color_branch_unfold svc cell Hrc Hru), Hm. reflexivity. }
    split; [exact Hm|]. split; [exact Hb|].
    intros Hcell Hdark Hbright. unfold Vision._analyze_cell.
    destruct (Z.eqb_spec (Vision.img_size cell) 0) as [|_]; [contradiction|].
    rewrite Hdark, Hbright, Hb. reflexivity.
  - intros svc cell i d u Hsize Hfew Hn Hd Hu.
    destruct (get_color_returns cell true Hsize) as (colors & Hc & _ & Hz).
    specialize (Hz Hfew). subst colors.
    assert (Hrc : Vision.ref_colors svc <> []).
    { destruct Hn as [(r & Hr & _) _]. intros E. rewrite E, lookup_nil in Hr. discriminate. }
    assert (Hru : Vision.ref_units svc <> []).
    { intros E. rewrite E, lookup_nil in Hu. discriminate. }
    rewrite (match_unit_unfold svc cell _ Hrc Hru Hc).
    change Vision.zeros_5x3 with ((0, 0, 0) :: replicate 4 ((0, 0, 0) : Vision.color)).
    rewrite (match_colors_hit _ _ _ _ i d u Hn Hd Hu). reflexivity.
  - intros img crop Hsize. apply get_color_empty. exact Hsize.
  - intros svc cell Hsize Hrc Hru. unfold Vision._match_unit.
    destruct (Vision.ref_colors svc); [congruence|].
    destruct (Vision.ref_units svc); [congruence|].
    cbn [Vision.is_empty orb].
    rewrite (get_color_empty cell true Hsize). reflexivity.
  - intros w cell Hrect. apply crop_unit_size. exact Hrect.
Qed.

(** The theorem on a uniform 34 x 38 cell: five black rows; with a reference
    far from black the cell ends as ["unknown"], with a reference near
    black it is matched by colour. *)
Lemma near_uniform_witness :
  (exists colors,
      Vision._get_color Samples.uniform_cell true = Return colors
      /\ length colors = 5%nat
      /\ ((distinct_colors (looked_at Samples.uniform_cell true) < 10)%nat ->
          colors = replicate 5 (0, 0, 0)))
  /\ (Vision._match_unit Samples.bright_ref Samples.uniform_cell
      = Return ("empty.png"%string, inject_Z 2001)
      /\ Vision.color_branch Samples.bright_ref Samples.uniform_cell = Return None
      /\ Vision._analyze_cell (Samples.stub_cv []) Samples.bright_ref Samples.uniform_cell
         = Vision.template_branch (Samples.stub_cv []) Samples.bright_ref Samples.uniform_cell)
  /\ Vision._match_unit Samples.dark_ref Samples.uniform_cell
     = Return ("shadow.png"%string, inject_Z 300).
Proof.
  destruct near_uniform_cell_has_no_signature as (H1 & H2 & H3 & _).
  split; [|split].
  - apply (H1 Samples.uniform_cell true). vm_compute. discriminate.
  - destruct (H2 (Samples.stub_cv []) Samples.bright_ref Samples.uniform_cell)
      as (Ha & Hb & Hc).
    + vm_compute. discriminate.
    + apply Nat.ltb_lt. vm_compute. reflexivity.
    + discriminate.
    + discriminate.
    + intros r Hr. apply list_elem_of_singleton in Hr. subst r. vm_compute. reflexivity.
    + split; [exact Ha|]. split; [exact Hb|].
      apply Hc; [vm_compute; discriminate|reflexivity|reflexivity].
  - apply (H3 Samples.dark_ref Samples.uniform_cell 0%nat 300 "shadow.png"%string).
    + vm_compute. discriminate.
    + apply Nat.ltb_lt. vm_compute. reflexivity.
    + split; [|split].
      * exists (10, 10, 10). split; reflexivity.
      * intros r Hr. apply list_elem_of_singleton in Hr. subst r. vm_compute. discriminate.
      * intros j r _ Hj. lia.
    + lia.
    + reflexivity.
Defined.

(** ** Colour matching of a cell *)

(** On the two-tone cell the least distance over all dominant colours
    is 0, to the second reference, but the cell is reported under the
    first reference with confidence 0.3: the most frequent colour is
    within 2000 of it, and the search stops there. *)
Lemma first_dominant_color_wins :
  Vision._analyze_cell (Samples.stub_cv []) Samples.two_refs Samples.two_tone_cell
  = Return (true, Some "alpha"%string, Qmax (1#10) (1 - inject_Z 1400 / 2000))
  /\ ~ decided_by_global_minimum (Samples.stub_cv []) Samples.two_refs Samples.two_tone_cell.
Proof.
  split; [vm_compute; reflexivity|].
  intros H.
  specialize (H [(100, 100, 100); (200, 40, 40); (20, 0, 0); (20, 0, 0); (20, 0, 0)]
                (200, 40, 40) 1%nat 0 "beta.png"%string).
  assert (Hcode : Vision._analyze_cell (Samples.stub_cv []) Samples.two_refs
                    Samples.two_tone_cell
                  = Return (true, Some "alpha"%string, (600 # 2000)%Q))
    by (vm_compute; reflexivity).
  rewrite Hcode in H.
  assert (Return (true, Some "alpha"%string, (600 # 2000)%Q)
          = Return (true,
                    Some (Vision.unit_name_of "beta.png"
                            (Vision._match_rank Samples.two_refs Samples.two_tone_cell).1
                            (Vision._match_rank Samples.two_refs Samples.two_tone_cell).2),
                    Qmax (1#10) (1 - inject_Z 0 / 2000))) as Habs.
  { apply H.
    - vm_compute. reflexivity.
    - right. left.
    - split; [|split].
      + exists (200, 40, 40). split; reflexivity.
      + intros r Hr. destruct r as [[r1 r2] r3]. unfold Vision.sq_dist. nia.
      + intros j r Hj Hlt. assert (j = 0%nat) by lia. subst j.
        cbn in Hj. inversion Hj; subst. vm_compute. discriminate.
    - intros c' r _ _. destruct c' as [[c1 c2] c3], r as [[r1 r2] r3].
      unfold Vision.sq_dist. nia.
    - lia.
    - reflexivity. }
  vm_compute in Habs. discriminate Habs.
Qed.

(** C4, as the code has it.  For a non-empty cell of admissible
    brightness whose dominant colours are [pre ++ c :: post]: if none of
    [pre] has a reference within squared distance 2000, and the nearest
    reference to [c] is the [i]-th, at distance [d <= 2000], then the
    cell is reported occupied under the name of reference [i] (its file
    name without [.png], with the rank appended when the classifier is
    confident) with confidence [max(0.1, 1 - d/2000)], unless that
    reference is called [empty.png].  The dominant colours are tried in
    order of frequency and the first one in reach decides. *)
Theorem first_reachable_color_decides
        (cv : Vision.Cv2) (svc : Vision.VisionService) (cell : Vision.image)
        (colors pre post : list Vision.color) (c : Vision.color)
        (i : nat) (d : Z) (u : string) :
  Vision.img_size cell <> 0 ->
  Vision.Qltb (Vision.mean_brightness cv cell) 30 = false ->
  Vision.Qltb 220 (Vision.mean_brightness cv cell) = false ->
  Vision._get_color cell true = Return colors ->
  colors = pre ++ c :: post ->
  Forall (out_of_reach (Vision.ref_colors svc)) pre ->
  nearest (Vision.ref_colors svc) c i d ->
  d <= 2000 ->
  Vision.ref_units svc !! i = Some u ->
  u <> "empty.png"%string ->
  Vision._analyze_cell cv svc cell
  = Return (true,
            Some (Vision.unit_name_of u (Vision._match_rank svc cell).1
                                      (Vision._match_rank svc cell).2),
            Qmax (1#10) (1 - inject_Z d / 2000)).
Proof.
  intros Hsize Hdark Hbright Hc -> Hpre Hn Hd Hu Hname.
  assert (Hrc : Vision.ref_colors svc <> []).
  { destruct Hn as [(r & Hr & _) _]. intros E. rewrite E, lookup_nil in Hr. discriminate. }
  assert (Hru : Vision.ref_units svc <> []).
  { intros E. rewrite E, lookup_nil in Hu. discriminate. }
  assert (Hm : Vision._match_unit svc cell = Return (u, inject_Z d)).
  { rewrite (match_unit_unfold svc cell _ Hrc Hru Hc).
    rewrite match_colors_skip by assumption.
    rewrite (match_colors_hit _ _ _ _ i d u Hn Hd Hu). reflexivity. }
  unfold Vision._analyze_cell.
  destruct (Z.eqb_spec (Vision.img_size cell) 0) as [|_]; [contradiction|].
  rewrite Hdark, Hbright. cbn [orb].
  rewrite (color_branch_unfold svc cell Hrc Hru), Hm.
  assert (Hne : String.eqb u "empty.png" = false).
  { apply String.eqb_neq. exact Hname. }
  rewrite Hne. cbn [negb andb].
  assert (Hle : Vision.Qleb (inject_Z d) 2000 = true).
  { unfold Vision.Qleb. destruct (Qcompare_spec (inject_Z d) 2000) as [H|H|H]; try reflexivity.
    exfalso. unfold Qlt, inject_Z in H. simpl in H. lia. }
  rewrite Hle. destruct (Vision._match_rank svc cell) as [rank rc]. reflexivity.
Qed.

(** The theorem on the two-tone cell: the most frequent colour,
    (100,100,100), is 1400 away from the first reference. *)
Lemma first_reachable_color_witness :
  Vision._analyze_cell (Samples.stub_cv []) Samples.two_refs Samples.two_tone_cell
  = Return (true,
            Some (Vision.unit_name_of "alpha.png"
                    (Vision._match_rank Samples.two_refs Samples.two_tone_cell).1
                    (Vision._match_rank Samples.two_refs Samples.two_tone_cell).2),
            Qmax (1#10) (1 - inject_Z 1400 / 2000)).
Proof.
  apply (first_reachable_color_decides (Samples.stub_cv []) Samples.two_refs
           Samples.two_tone_cell
           [(100, 100, 100); (200, 40, 40); (20, 0, 0); (20, 0, 0); (20, 0, 0)]
           [] [(200, 40, 40); (20, 0, 0); (20, 0, 0); (20, 0, 0)]
           (100, 100, 100) 0%nat 1400 "alpha.png"%string).
  - vm_compute. discriminate.
  - vm_compute. reflexivity.
  - vm_compute. reflexivity.
  - vm_compute. reflexivity.
  - reflexivity.
  - constructor.
  - split; [|split].
    + exists (130, 120, 110). split; reflexivity.
    + intros r Hr. apply elem_of_cons in Hr as [->|Hr]; [vm_compute; discriminate|].
      apply list_elem_of_singleton in Hr. subst r. vm_compute. discriminate.
    + intros j r _ Hj. lia.
  - lia.
  - reflexivity.
  - discriminate.
Defined.

(** ** Decode failures *)

Section DecodeFailure.

Import Vision.

Variable cv : Cv2.

Lemma decoded_needs_cv2 (s : string) (img : image) :
  _base64_to_image cv s = Return img -> _check_cv2_availability cv = Return tt.
Proof.
  unfold _base64_to_image, _check_cv2_availability.
  destruct (CV2_AVAILABLE cv); [reflexivity|discriminate].
Qed.

Lemma grid_body_undecodable (svc : VisionService) (s : string) (e : exn) :
  _base64_to_image cv s = Raise e ->
  exists e', analyze_grid_body cv svc s = Raise e'.
Proof.
  intros H. unfold analyze_grid_body.
  destruct (_check_cv2_availability cv) as [[]|e0]; [|eexists; reflexivity].
  cbn. rewrite H. eexists. reflexivity.
Qed.

Lemma mana_body_undecodable (svc : VisionService) (s : string) (e : exn) :
  _base64_to_image cv s = Raise e ->
  exists e', analyze_mana_body cv svc s = Raise e'.
Proof.
  intros H. unfold analyze_mana_body.
  destruct (_check_cv2_availability cv) as [[]|e0]; [|eexists; reflexivity].
  cbn. rewrite H. eexists. reflexivity.
Qed.

(** The ways an input fails to decode. *)
Lemma undecodable_cases (s : string) :
  CV2_AVAILABLE cv = true ->
  Str.contains "," s = false ->
  (forall bytes, b64decode cv s = Return bytes -> imdecode cv bytes = None) ->
  exists e, _base64_to_image cv s = Raise e.
Proof.
  intros Hcv Hcomma Hbad. unfold _base64_to_image, _check_cv2_availability.
  rewrite Hcv. cbn. rewrite Hcomma. cbn.
  destruct (b64decode cv s) as [bytes|e] eqn:Hb; [|eexists; reflexivity].
  cbn. rewrite (Hbad bytes eq_refl). eexists. reflexivity.
Qed.

End DecodeFailure.

(** C7.  An input that does not decode makes grid analysis return the
    empty analysis (no cells, confidence 0) and mana analysis the zero
    reading (mana 0, percentage 0, confidence 0).  Neither analysis can
    raise: each either returns what its body computed or, when the body
    raised anything, these fixed results. *)
Theorem undecodable_image_gives_empty_results
        (cv : Vision.Cv2) (svc : Vision.VisionService) (s : string) (e : exn) :
  Vision._base64_to_image cv s = Raise e ->
  (Vision.analyze_grid cv svc s = Vision.empty_grid_analysis
   /\ Vision.cells (Vision.analyze_grid cv svc s) = []
   /\ Vision.ga_confidence (Vision.analyze_grid cv svc s) = 0%Q)
  /\ (Vision.analyze_mana cv svc s = Vision.zero_mana_analysis
      /\ Vision.current_mana (Vision.analyze_mana cv svc s) = 0
      /\ Vision.mana_percentage (Vision.analyze_mana cv svc s) = 0%Q
      /\ Vision.ma_confidence (Vision.analyze_mana cv svc s) = 0%Q)
  /\ (forall svc' s',
         (exists a, Vision.analyze_grid_body cv svc' s' = Return a
                    /\ Vision.analyze_grid cv svc' s' = a)
         \/ (exists e', Vision.analyze_grid_body cv svc' s' = Raise e'
                        /\ Vision.analyze_grid cv svc' s' = Vision.empty_grid_analysis))
  /\ (forall svc' s',
         (exists a, Vision.analyze_mana_body cv svc' s' = Return a
                    /\ Vision.analyze_mana cv svc' s' = a)
         \/ (exists e', Vision.analyze_mana_body cv svc' s' = Raise e'
                        /\ Vision.analyze_mana cv svc' s' = Vision.zero_mana_analysis)).
Proof.
  intros H.
  destruct (grid_body_undecodable cv svc s e H) as [eg Hg].
  destruct (mana_body_undecodable cv svc s e H) as [em Hm].
  unfold Vision.analyze_grid, Vision.analyze_mana. rewrite Hg, Hm.
  split; [repeat split|]. split; [repeat split|]. split.
  - intros svc' s'. destruct (Vision.analyze_grid_body cv svc' s') as [a|e'];
      [left|right]; eauto.
  - intros svc' s'. destruct (Vision.analyze_mana_body cv svc' s') as [a|e'];
      [left|right]; eauto.
Qed.

(** The theorem on bytes that are no image. *)
Lemma undecodable_image_witness :
  Vision.analyze_grid (Samples.stub_cv []) Samples.two_refs "not an image"
  = Vision.empty_grid_analysis
  /\ Vision.analyze_mana (Samples.stub_cv []) Samples.two_refs "not an image"
     = Vision.zero_mana_analysis.
Proof.
  destruct (undecodable_image_gives_empty_results
              (Samples.stub_cv []) Samples.two_refs "not an image"
              (ValueError "Не удалось декодировать изображение"))
    as ((Hg & _) & (Hm & _) & _).
  - reflexivity.
  - split; assumption.
Defined.

(** ** The mana reading *)

Section Mana.

Import Vision.

Lemma Qltb_nonneg (q : Q) : (0 <= q)%Q -> Qltb q 0 = false.
Proof.
  intros H. unfold Qltb. destruct (Qcompare_spec q 0) as [_|Hlt|_]; try reflexivity.
  exfalso. apply (Qlt_not_le _ _ Hlt). exact H.
Qed.

Lemma int_of_nonneg (q : Q) : (0 <= q)%Q -> int_of q = Qfloor q.
Proof. intros H. unfold int_of. rewrite Qltb_nonneg by exact H. reflexivity. Qed.

Lemma slice_length {A} (l : list A) (a b : Z) :
  0 <= a -> a <= b -> b <= Z.of_nat (length l) ->
  length (slice l a b) = Z.to_nat (b - a).
Proof.
  intros Ha Hab Hb. unfold slice, clamp.
  destruct (Z.ltb_spec a 0); [lia|]. destruct (Z.ltb_spec b 0); [lia|].
  rewrite length_firstn, length_skipn.
  rewrite !Z.min_l by lia. apply Nat.min_l. lia.
Qed.

Lemma slice_Forall {A} (P : A -> Prop) (l : list A) (a b : Z) :
  Forall P l -> Forall P (slice l a b).
Proof.
  intros H. unfold slice. apply Forall_take, Forall_drop. exact H.
Qed.

Lemma concat_length_uniform {A} (ls : list (list A)) (n : nat) :
  Forall (fun l => length l = n) ls -> length (concat ls) = (length ls * n)%nat.
Proof.
  induction 1 as [|l ls Hl _ IH]; [reflexivity|].
  simpl. rewrite length_app, IH, Hl. reflexivity.
Qed.

(** When the bar lies inside the image, the region has exactly
    [mana_bar_width * mana_bar_height] pixels. *)
Lemma mana_region_area (m : ManaConfig) (img : image) (w : nat) :
  rectangular w img ->
  0 <= mana_bar_x m -> 0 <= mana_bar_width m ->
  mana_bar_x m + mana_bar_width m <= Z.of_nat w ->
  0 <= mana_bar_y m -> 0 <= mana_bar_height m ->
  mana_bar_y m + mana_bar_height m <= img_height img ->
  Z.of_nat (length (concat (mana_region m img)))
  = mana_bar_width m * mana_bar_height m.
Proof.
  intros Hrect Hx Hw Hxw Hy Hh Hyh. unfold mana_region, crop_rect.
  rewrite (concat_length_uniform _ (Z.to_nat (mana_bar_width m))).
  - rewrite length_map, slice_length by (unfold img_height in Hyh; lia). lia.
  - apply Forall_map. eapply Forall_impl.
    + apply slice_Forall. exact Hrect.
    + intros row Hrow. cbn beta in *. rewrite slice_length by lia. lia.
Qed.

Lemma bar_fraction_nonneg cv m img :
  0 < mana_bar_width m * mana_bar_height m ->
  (0 <= bar_fraction cv m img)%Q.
Proof.
  intros Hpos. unfold bar_fraction.
  apply Qle_shift_div_l.
  - unfold Qlt, inject_Z. simpl. lia.
  - rewrite Qmult_0_l. unfold Qle, inject_Z, matched_pixels, count_in_range.
    simpl. lia.
Qed.

(** A region that [cvtColor] accepts has pixels. *)
Lemma region_pixels_pos (m : ManaConfig) (img : image) :
  img_size (mana_region m img) <> 0 -> 0 < region_pixels m img.
Proof.
  unfold region_pixels, img_size, img_height, img_width.
  destruct (mana_region m img) as [|row rest]; [cbn; lia|].
  intros H. cbn [concat]. rewrite length_app.
  destruct row; [cbn in H; lia|cbn; lia].
Qed.

Lemma analyze_mana_unfold cv svc s img :
  _base64_to_image cv s = Return img ->
  img_size (mana_region (mana_config svc) img) <> 0 ->
  mana_bar_width (mana_config svc) * mana_bar_height (mana_config svc) <> 0 ->
  analyze_mana cv svc s
  = let pct := (bar_fraction cv (mana_config svc) img * 100)%Q in
    {| current_mana := int_of (pct / 100 * inject_Z 10)%Q;
       max_mana := 10;
       mana_percentage := pct;
       ma_confidence := Qmin (pct / 50) 1 |}.
Proof.
  intros Hd Hsize Harea. unfold analyze_mana, analyze_mana_body.
  rewrite (decoded_needs_cv2 cv s img Hd). cbn [mbind result_bind bind].
  rewrite Hd. cbn [mbind result_bind bind]. unfold cvtColor_BGR2HSV.
  destruct (Z.eqb_spec (img_size (mana_region (mana_config svc) img)) 0) as [|_];
    [contradiction|].
  cbn [mbind result_bind bind].
  destruct (Z.eqb_spec (mana_bar_width (mana_config svc)
                        * mana_bar_height (mana_config svc)) 0) as [|_];
    [contradiction|].
  reflexivity.
Qed.

End Mana.

(** On a frame that holds only half of the default bar, 40% of the
    pixels of the mana region match, and the reading is 2, not 4: the
    code divides by the area of the configured bar, not by the pixels
    of the region. *)
Lemma clipped_bar_reads_two :
  let cv := Samples.stub_cv [("clipped"%string, Samples.clipped_mana_frame)] in
  let m := Vision.mana_config Samples.two_refs in
  let a := Vision.analyze_mana cv Samples.two_refs "clipped" in
  Vision._base64_to_image cv "clipped" = Return Samples.clipped_mana_frame
  /\ region_pixels m Samples.clipped_mana_frame = 3000
  /\ matched_pixels cv m Samples.clipped_mana_frame = 1200
  /\ (matched_fraction cv m Samples.clipped_mana_frame == 40 # 100)%Q
  /\ Vision.max_mana a = 10
  /\ Vision.current_mana a = 2
  /\ Vision.current_mana a <> 4.
Proof.
  cbv zeta.
  split; [vm_compute; reflexivity|]. split; [vm_compute; reflexivity|].
  split; [vm_compute; reflexivity|]. split; [vm_compute; reflexivity|].
  split; [vm_compute; reflexivity|].
  assert (H : Vision.current_mana
                (Vision.analyze_mana
                   (Samples.stub_cv [("clipped"%string, Samples.clipped_mana_frame)])
                   Samples.two_refs "clipped") = 2) by (vm_compute; reflexivity).
  split; [exact H|]. rewrite H. discriminate.
Qed.

(** C8, as the code has it.  For an image that decodes, with a bar of
    positive width and height whose region of the image is not empty:
    the matched percentage is 100 times the ratio of the matched pixels
    to the area of the configured bar, [current_mana] is the integer
    part of that ratio times the maximum 10, and the confidence is the
    percentage over 50, capped at 1.  The ratio is the matched fraction
    of the region scaled by the share of the bar area that the region
    covers.  When the bar lies inside the frame the region covers the
    whole bar, the ratio is the matched fraction, [current_mana] is the
    integer part of the fraction times the maximum, and a fraction of
    exactly 40% reads as 4 mana. *)
Theorem mana_is_linear_in_fraction
        (cv : Vision.Cv2) (svc : Vision.VisionService) (s : string) (img : Vision.image) :
  let m := Vision.mana_config svc in
  let ratio := bar_fraction cv m img in
  let fraction := matched_fraction cv m img in
  let a := Vision.analyze_mana cv svc s in
  Vision._base64_to_image cv s = Return img ->
  0 < Vision.mana_bar_width m ->
  0 < Vision.mana_bar_height m ->
  Vision.img_size (Vision.mana_region m img) <> 0 ->
  Vision.current_mana a = Qfloor (ratio * inject_Z (Vision.max_mana a))
  /\ Vision.max_mana a = 10
  /\ Vision.mana_percentage a = (ratio * 100)%Q
  /\ Vision.ma_confidence a = Qmin (Vision.mana_percentage a / 50) 1
  /\ (0 <= Vision.ma_confidence a <= 1)%Q
  /\ (ratio == fraction * (inject_Z (region_pixels m img)
                           / inject_Z (Vision.mana_bar_width m
                                       * Vision.mana_bar_height m)))%Q
  /\ (forall w,
         rectangular w img ->
         0 <= Vision.mana_bar_x m ->
         Vision.mana_bar_x m + Vision.mana_bar_width m <= Z.of_nat w ->
         0 <= Vision.mana_bar_y m ->
         Vision.mana_bar_y m + Vision.mana_bar_height m <= Vision.img_height img ->
         region_pixels m img = Vision.mana_bar_width m * Vision.mana_bar_height m
         /\ (ratio == fraction)%Q
         /\ Vision.current_mana a = Qfloor (fraction * inject_Z (Vision.max_mana a))
         /\ (Vision.mana_percentage a == fraction * 100)%Q
         /\ ((fraction == 40 # 100)%Q -> Vision.current_mana a = 4)).
Proof.
  intros m ratio fraction a Hd Hw Hh Hsize.
  assert (Harea : 0 < Vision.mana_bar_width m * Vision.mana_bar_height m) by lia.
  assert (Hratio : (0 <= ratio)%Q) by (apply bar_fraction_nonneg; exact Harea).
  assert (Ha : a = let pct := (ratio * 100)%Q in
                   {| Vision.current_mana := Vision.int_of (pct / 100 * inject_Z 10)%Q;
                      Vision.max_mana := 10;
                      Vision.mana_percentage := pct;
                      Vision.ma_confidence := Qmin (pct / 50) 1 |}).
  { subst a. apply analyze_mana_unfold; [exact Hd|exact Hsize|].
    fold m. lia. }
  cbv zeta in Ha. rewrite Ha. cbn [Vision.current_mana Vision.max_mana
                                    Vision.mana_percentage Vision.ma_confidence].
  assert (Heq : (ratio * 100 / 100 * inject_Z 10 == ratio * inject_Z 10)%Q)
    by (field).
  assert (Hcur : Vision.int_of (ratio * 100 / 100 * inject_Z 10)%Q
                 = Qfloor (ratio * inject_Z 10)).
  { rewrite int_of_nonneg.
    - apply Qfloor_comp. exact Heq.
    - rewrite Heq. apply Qmult_le_0_compat; [exact Hratio|]. discriminate. }
  assert (Hpix : 0 < region_pixels m img) by (apply region_pixels_pos; exact Hsize).
  assert (Hscale : (ratio == fraction * (inject_Z (region_pixels m img)
                                         / inject_Z (Vision.mana_bar_width m
                                                     * Vision.mana_bar_height m)))%Q).
  { subst ratio fraction. unfold bar_fraction, matched_fraction.
    field. split; intros H0; unfold Qeq, inject_Z in H0; cbn [Qnum Qden] in H0; lia. }
  split; [exact Hcur|]. split; [reflexivity|]. split; [reflexivity|].
  split; [reflexivity|]. split; [|split; [exact Hscale|]].
  - split.
    + apply Q.min_glb; [|discriminate].
      apply Qle_shift_div_l; [reflexivity|]. rewrite Qmult_0_l.
      apply Qmult_le_0_compat; [exact Hratio|discriminate].
    + apply Q.le_min_r.
  - intros w Hrect Hx Hxw Hy Hyh.
    assert (Hfull : region_pixels m img
                    = Vision.mana_bar_width m * Vision.mana_bar_height m).
    { unfold region_pixels. apply (mana_region_area m img w); try assumption; lia. }
    assert (Hsame : (ratio == fraction)%Q).
    { subst ratio fraction. unfold bar_fraction, matched_fraction.
      rewrite Hfull. reflexivity. }
    split; [exact Hfull|]. split; [exact Hsame|]. split; [|split].
    + rewrite Hcur. apply Qfloor_comp. rewrite Hsame. reflexivity.
    + rewrite Hsame. reflexivity.
    + intros H40. rewrite Hcur.
      assert (H4 : (ratio * inject_Z 10 == inject_Z 4)%Q).
      { rewrite Hsame, H40. reflexivity. }
      rewrite (Qfloor_comp _ _ H4). apply Qfloor_Z.
Qed.

(** The theorem on a frame that holds the whole bar, filled over 80 of
    its 200 columns. *)
Lemma mana_forty_percent_witness :
  Vision.current_mana
    (Vision.analyze_mana (Samples.stub_cv [("frame"%string, Samples.mana_frame)])
                         Samples.two_refs "frame") = 4.
Proof.
  pose proof (mana_is_linear_in_fraction
                (Samples.stub_cv [("frame"%string, Samples.mana_frame)])
                Samples.two_refs "frame" Samples.mana_frame) as H.
  cbv zeta in H.
  destruct H as (_ & _ & _ & _ & _ & _ & Hin).
  - reflexivity.
  - reflexivity.
  - reflexivity.
  - vm_compute. discriminate.
  - destruct (Hin 250%nat) as (_ & _ & _ & _ & H40).
    + apply (bool_decide_unpack _). vm_compute. exact I.
    + vm_compute. discriminate.
    + vm_compute. discriminate.
    + vm_compute. discriminate.
    + vm_compute. discriminate.
    + apply H40. vm_compute. reflexivity.
Defined.

(** ** The grid: number of cells and confidence range *)

Section Grid.

Import Vision.

Variable cv : Cv2.

Lemma Qltb_lt (a b : Q) : Qltb a b = true -> (a < b)%Q.
Proof.
  unfold Qltb. destruct (Qcompare_spec a b); try discriminate. auto.
Qed.

Lemma Qleb_le (a b : Q) : Qleb a b = true -> (a <= b)%Q.
Proof.
  unfold Qleb. destruct (Qcompare_spec a b) as [H|H|H]; try discriminate; intros _.
  - rewrite H. apply Qle_refl.
  - apply Qlt_le_weak. exact H.
Qed.

Lemma sq_dist_nonneg (c r : color) : 0 <= sq_dist c r.
Proof. destruct c as [[c1 c2] c3], r as [[r1 r2] r3]. unfold sq_dist. nia. Qed.

Lemma match_colors_nonneg units refs colors u q :
  match_colors units refs colors = Return (Some (u, q)) -> (0 <= q)%Q.
Proof.
  induction colors as [|c colors IH]; cbn [match_colors]; [discriminate|].
  destruct (np_min (map (sq_dist c) refs)) as [m|e] eqn:Hm; [|discriminate].
  cbn [mbind result_bind bind].
  destruct (m <=? 2000); [|exact IH].
  destruct (np_argmin (map (sq_dist c) refs)) as [i|e]; [|discriminate].
  cbn [mbind result_bind bind].
  destruct (getitem units i) as [u'|e]; [|discriminate].
  cbn [mbind result_bind bind mret result_ret]. intros H. inversion H; subst.
  destruct (map (sq_dist c) refs) as [|v l] eqn:Hl; [discriminate|].
  destruct (np_min_spec (v :: l)) as (m' & Hm' & Hin & _); [discriminate|].
  rewrite Hm in Hm'. inversion Hm'; subst m'.
  rewrite <- Hl in Hin. apply list_elem_of_fmap in Hin as (r & -> & _).
  unfold Qle, inject_Z. simpl. pose proof (sq_dist_nonneg c r). lia.
Qed.

Lemma match_unit_nonneg svc cell u q :
  _match_unit svc cell = Return (u, q) -> (0 <= q)%Q.
Proof.
  unfold _match_unit.
  destruct (is_empty (ref_colors svc) || is_empty (ref_units svc)).
  - intros H. inversion H. discriminate.
  - destruct (_get_color cell true) as [colors|e]; [|discriminate].
    cbn [mbind result_bind bind].
    destruct (match_colors (ref_units svc) (ref_colors svc) colors)
      as [[[u' q']|]|e] eqn:Hm; [| |discriminate].
    + cbn. intros H. inversion H; subst. eapply match_colors_nonneg. exact Hm.
    + cbn. intros H. inversion H. discriminate.
Qed.

Lemma color_branch_confidence svc cell b ct conf :
  color_branch svc cell = Return (Some (b, ct, conf)) -> in_unit_interval conf.
Proof.
  unfold color_branch.
  destruct (negb (is_empty (ref_colors svc)) && negb (is_empty (ref_units svc)));
    [|discriminate].
  destruct (_match_unit svc cell) as [[u q]|e] eqn:Hm; [|discriminate].
  cbn [mbind result_bind bind].
  destruct (negb (String.eqb u "empty.png") && Qleb q 2000) eqn:Hc; [|discriminate].
  destruct (_match_rank svc cell) as [rank rc].
  intros H. inversion H; subst. clear H.
  apply andb_true_iff in Hc as [_ Hq]. apply Qleb_le in Hq.
  pose proof (match_unit_nonneg _ _ _ _ Hm) as Hq0.
  assert (Hdiv : (0 <= q / 2000 <= 1)%Q).
  { split.
    - apply Qle_shift_div_l; [reflexivity|]. rewrite Qmult_0_l. exact Hq0.
    - apply Qle_shift_div_r; [reflexivity|]. rewrite Qmult_1_l. exact Hq. }
  destruct Hdiv as [Hd0 Hd1]. split.
  - eapply Qle_trans; [|apply Q.le_max_l]. discriminate.
  - apply Q.max_lub; [discriminate|].
    apply Qle_trans with (1 + - 0)%Q; [|discriminate].
    unfold Qminus. apply Qplus_le_r. apply Qopp_le_compat. exact Hd0.
Qed.

Lemma template_loop_confidence (Hs : scores_bounded cv) cell ts best best' :
  in_unit_interval (snd best) ->
  template_loop cv cell ts best = Return best' ->
  in_unit_interval (snd best').
Proof.
  revert best. induction ts as [|[n t] ts IH]; intros best Hb; cbn [template_loop].
  - intros H. inversion H; subst. exact Hb.
  - destruct (String.eqb (category t) "card"); [|apply IH; exact Hb].
    destruct (match_template cv cell (template_image t)) as [q|e] eqn:Hq; [|discriminate].
    cbn [mbind result_bind bind].
    destruct (Qltb (snd best) q && Qltb (threshold t) q) eqn:Hc; [|apply IH; exact Hb].
    apply IH. cbn [snd]. apply andb_true_iff in Hc as [Hlt _].
    apply Qltb_lt in Hlt. split.
    + apply Qlt_le_weak. eapply Qle_lt_trans; [apply Hb|exact Hlt].
    + eapply Hs. exact Hq.
Qed.

Lemma analyze_cell_confidence (Hs : scores_bounded cv) svc cell b ct conf :
  _analyze_cell cv svc cell = Return (b, ct, conf) -> in_unit_interval conf.
Proof.
  unfold _analyze_cell.
  destruct (img_size cell =? 0).
  { intros H. inversion H. split; discriminate. }
  destruct (Qltb (mean_brightness cv cell) 30 || Qltb 220 (mean_brightness cv cell)).
  { intros H. inversion H. split; discriminate. }
  destruct (color_branch svc cell) as [[[[b' ct'] conf']|]|e] eqn:Hb; [| |discriminate].
  - cbn. intros H. inversion H; subst. eapply color_branch_confidence. exact Hb.
  - cbn [mbind result_bind bind]. unfold template_branch.
    destruct (template_loop cv cell (templates svc) (None, 0%Q)) as [[bm bc]|e] eqn:Ht;
      [|discriminate].
    cbn [mbind result_bind bind].
    pose proof (template_loop_confidence Hs cell (templates svc) (None, 0%Q) (bm, bc)) as Hc.
    destruct (truthy bm); intros H; inversion H; subst.
    + apply Hc; [split; discriminate|exact Ht].
    + split; discriminate.
Qed.

(** [mapM] over [result]: one outcome per element, in order. *)
Lemma mapM_result_Forall2 {A B} (f : A -> result B) (l : list A) (l' : list B) :
  mapM f l = Return l' -> Forall2 (fun a b => f a = Return b) l l'.
Proof.
  revert l'. induction l as [|a l IH]; intros l'; cbn [mapM].
  - intros H. inversion H. constructor.
  - destruct (f a) as [b|e] eqn:Ha; [|discriminate].
    cbn [mbind result_bind bind].
    destruct (mapM f l) as [k|e]; [|discriminate].
    cbn. intros H. inversion H; subst. constructor; [exact Ha|]. apply IH. reflexivity.
Qed.

Lemma mapM_result_returns {A B} (f : A -> result B) (l : list A) :
  Forall (fun a => returns (f a)) l -> exists l', mapM f l = Return l'.
Proof.
  induction 1 as [|a l [b Hb] _ [k Hk]]; cbn [mapM].
  - eexists. reflexivity.
  - rewrite Hb. cbn [mbind result_bind bind]. rewrite Hk. eexists. reflexivity.
Qed.

Lemma positions_length (g : GridConfig) :
  length (positions g) = (Z.to_nat (rows g) * Z.to_nat (cols g))%nat.
Proof.
  unfold positions.
  assert (Hinner : forall row : Z,
             length (col ← seqZ 0 (cols g); [(row, col)]) = Z.to_nat (cols g)).
  { intros row. rewrite <- (length_seqZ 0 (cols g)).
    induction (seqZ 0 (cols g)) as [|c cs IH]; [reflexivity|].
    cbn. f_equal. exact IH. }
  rewrite <- (length_seqZ 0 (rows g)).
  induction (seqZ 0 (rows g)) as [|r rs IH]; [reflexivity|].
  change (length ((col ← seqZ 0 (cols g); [(r, col)])
                  ++ (row ← rs; col ← seqZ 0 (cols g); [(row, col)]))
          = (S (length rs) * Z.to_nat (cols g))%nat).
  rewrite length_app, Hinner, IH. reflexivity.
Qed.

End Grid.

(** With the default 4 x 4 grid an input that does not decode yields an
    analysis without cells, not one with 16. *)
Lemma undecodable_image_has_no_cells :
  let svc := Samples.two_refs in
  let a := Vision.analyze_grid (Samples.stub_cv []) svc "not an image" in
  Vision.rows (Vision.grid_config svc) = 4
  /\ Vision.cols (Vision.grid_config svc) = 4
  /\ length (Vision.cells a) = 0%nat
  /\ Z.of_nat (length (Vision.cells a))
     <> Vision.rows (Vision.grid_config svc) * Vision.cols (Vision.grid_config svc).
Proof. repeat split. discriminate. Qed.

(** C1, as the code has it.  With template scores of at most 1, every
    cell of every analysis has its confidence in [0, 1], and the
    analysis has either exactly [rows * cols] cells or none:
    - when the image decodes and the analysis of each cell region
      returns, there are exactly [rows * cols] cells;
    - when the image does not decode (or anything else raises), there
      are no cells and the confidence is 0. *)
Theorem grid_has_all_cells_or_none
        (cv : Vision.Cv2) (svc : Vision.VisionService) (s : string) :
  let g := Vision.grid_config svc in
  let a := Vision.analyze_grid cv svc s in
  scores_bounded cv ->
  0 <= Vision.rows g ->
  0 <= Vision.cols g ->
  Forall (fun c => in_unit_interval (Vision.confidence c)) (Vision.cells a)
  /\ (Z.of_nat (length (Vision.cells a)) = Vision.rows g * Vision.cols g
      \/ Vision.cells a = [])
  /\ (forall img,
         Vision._base64_to_image cv s = Return img ->
         Forall (fun pos => returns (Vision.analyze_position cv svc img pos))
                (Vision.positions g) ->
         Z.of_nat (length (Vision.cells a)) = Vision.rows g * Vision.cols g
         /\ Vision.total_cells a = Vision.rows g * Vision.cols g)
  /\ (forall e,
         Vision.analyze_grid_body cv svc s = Raise e ->
         Vision.cells a = [] /\ Vision.ga_confidence a = 0%Q).
Proof.
  intros g a Hs Hr Hc.
  assert (Hbody : forall a',
             Vision.analyze_grid_body cv svc s = Return a' ->
             Forall (fun c => in_unit_interval (Vision.confidence c)) (Vision.cells a')
             /\ Z.of_nat (length (Vision.cells a')) = Vision.rows g * Vision.cols g
             /\ Vision.total_cells a' = Vision.rows g * Vision.cols g).
  { intros a'. unfold Vision.analyze_grid_body.
    destruct (Vision._check_cv2_availability cv) as [[]|e]; [|discriminate].
    cbn [mbind result_bind bind].
    destruct (Vision._base64_to_image cv s) as [img|e]; [|discriminate].
    cbn [mbind result_bind bind]. fold g.
    destruct (mapM (Vision.analyze_position cv svc img) (Vision.positions g))
      as [cs|e] eqn:Hm; [|discriminate].
    cbn [mbind result_bind bind]. intros H. inversion H; subst a'. clear H.
    cbn [Vision.cells Vision.total_cells].
    apply mapM_result_Forall2 in Hm.
    assert (Hlen : Z.of_nat (length cs) = Vision.rows g * Vision.cols g).
    { rewrite <- (Forall2_length _ _ _ Hm), positions_length. lia. }
    split; [|split; exact Hlen].
    clear Hlen. induction Hm as [|pos c ps cs Hpos _ IH]; constructor; [|exact IH].
    unfold Vision.analyze_position in Hpos.
    destruct pos as [row col]. destruct (Vision.cell_at _ row col) as [cx cy].
    destruct (Vision._analyze_cell cv svc _) as [[[occ ct] conf]|e] eqn:Hcell;
      [|discriminate].
    cbn in Hpos. inversion Hpos; subst c. cbn [Vision.confidence].
    eapply analyze_cell_confidence; [exact Hs|exact Hcell]. }
  subst a. unfold Vision.analyze_grid.
  destruct (Vision.analyze_grid_body cv svc s) as [a'|e] eqn:Hb.
  - destruct (Hbody a' eq_refl) as (Hconf & Hlen & Htot).
    split; [exact Hconf|]. split; [left; exact Hlen|]. split.
    + intros img Hd Hall. split; assumption.
    + intros e He. discriminate He.
  - split; [constructor|]. split; [right; reflexivity|]. split.
    + intros img Hd Hall. exfalso.
      destruct (mapM_result_returns _ _ Hall) as [cs Hcs].
      unfold Vision.analyze_grid_body in Hb.
      rewrite (decoded_needs_cv2 cv s img Hd) in Hb.
      cbn [mbind result_bind bind] in Hb. rewrite Hd in Hb.
      cbn [mbind result_bind bind] in Hb. fold g in Hb. rewrite Hcs in Hb.
      discriminate Hb.
    + intros e' _. split; reflexivity.
Qed.

(** The theorem on a 2 x 2 grid whose frame decodes: four cells. *)
Lemma grid_has_all_cells_witness :
  let cv := Samples.stub_cv [("grid"%string, Samples.grid_frame)] in
  let g := Vision.grid_config Samples.small_grid in
  let a := Vision.analyze_grid cv Samples.small_grid "grid" in
  Forall (fun c => in_unit_interval (Vision.confidence c)) (Vision.cells a)
  /\ Z.of_nat (length (Vision.cells a)) = Vision.rows g * Vision.cols g.
Proof.
  intros cv g a.
  assert (Hs : scores_bounded cv).
  { intros cell t q H. unfold cv, Samples.stub_cv, Vision.match_template in H.
    inversion H. destruct (Samples.same_image cell t); discriminate. }
  assert (Hd : Vision._base64_to_image cv "grid" = Return Samples.grid_frame)
    by (vm_compute; reflexivity).
  assert (Hall : Forall (fun pos => returns (Vision.analyze_position cv Samples.small_grid
                                               Samples.grid_frame pos))
                        (Vision.positions g)).
  { change (Vision.positions g) with [(0, 0); (0, 1); (1, 0); (1, 1)].
    repeat constructor; eexists; vm_compute; reflexivity. }
  destruct (grid_has_all_cells_or_none cv Samples.small_grid "grid" Hs)
    as (Hconf & _ & Hcount & _); [discriminate|discriminate|].
  destruct (Hcount Samples.grid_frame Hd Hall) as [Hlen _].
  split; [exact Hconf|exact Hlen].
Defined.

(** ** The rational model against binary64 *)

(** For the default bar of 200 x 30 pixels and every possible number of
    matched pixels, the binary64 evaluation of the source expressions
    gives the [current_mana] of the rational model and a confidence in
    [0, 1]; and for every squared distance up to 2000 the binary64
    confidence of a colour match lies in [0.1, 1]. *)
Lemma binary64_agrees_with_model :
  forallb (fun p =>
             match Binary64.current_mana p 6000 with
             | Some k => k =? Qfloor (inject_Z p / inject_Z 6000 * inject_Z 10)%Q
             | None => false
             end
             && PrimFloat.leb 0 (Binary64.mana_confidence p 6000)
             && PrimFloat.leb (Binary64.mana_confidence p 6000) 1)
          (seqZ 0 6001) = true
  /\ forallb (fun d =>
                PrimFloat.leb Binary64.one_tenth (Binary64.final_confidence d)
                && PrimFloat.leb (Binary64.final_confidence d) 1)
             (seqZ 0 2001) = true
  /\ Binary64.current_mana 2400 6000 = Some 4.
Proof. split; [|split]; vm_compute; reflexivity. Qed.

(** * Further properties of the code *)

(** ** The backend orchestrator over sequences of commands *)

Section Lifecycle.

Import BackendBot.

Lemma emit_event_fields now t d s :
  status (_emit_event now t d s) = status s
  /\ _paused (_emit_event now t d s) = _paused s
  /\ _running (_emit_event now t d s) = _running s
  /\ bot (_emit_event now t d s) = bot s
  /\ (length (logs (_emit_event now t d s)) <= 1000)%nat.
Proof.
  repeat split.
  cbn [_emit_event logs set_logs]. rewrite append_event_last, last_entries_length. lia.
Qed.

Lemma connect_device_serial adb b :
  (connected b = true <-> is_Some (device_serial b)) ->
  connected (Bot_connect_device adb b).1 = true
  <-> is_Some (device_serial (Bot_connect_device adb b).1).
Proof.
  intros Hb. unfold Bot_connect_device.
  destruct (negb (ADB_AVAILABLE adb)); [exact Hb|].
  destruct (adb_devices adb) as [[|d ds]|e]; try exact Hb.
  cbn. split; [eauto|reflexivity].
Qed.

Lemma start_invariant now adb s :
  lifecycle_invariant s -> lifecycle_invariant (start now adb s).1.
Proof.
  intros (Hlog & Hp & Hb). unfold start.
  destruct (BotStatus_eqb (status s) RUNNING || BotStatus_eqb (status s) STARTING).
  { repeat split; tauto. }
  cbn [set_status bot connected].
  set (r := if negb (connected (bot s)) then Bot_connect_device adb (bot s) else (bot s, true)).
  assert (Hr : connected r.1 = true <-> is_Some (device_serial r.1)).
  { subst r. destruct (negb (connected (bot s))); [apply connect_device_serial|]; exact Hb. }
  destruct r as [b ok]. cbn [fst] in Hr.
  destruct (negb ok).
  { cbn. repeat split; try tauto; discriminate. }
  cbn [set_bot bot].
  destruct (negb (Bot_start_app adb b)).
  { cbn. repeat split; try tauto; discriminate. }
  cbn [fst].
  match goal with |- lifecycle_invariant (_emit_event ?n ?t ?d ?s') =>
    destruct (emit_event_fields n t d s') as (E1 & E2 & E3 & E4 & E5) end.
  unfold lifecycle_invariant. rewrite E1, E2, E4. split; [exact E5|].
  cbn. split; [discriminate|exact Hr].
Qed.

Lemma cancel_main_task_fields now s :
  _paused (cancel_main_task now s) = _paused s
  /\ bot (cancel_main_task now s) = bot s
  /\ _start_time (cancel_main_task now s) = _start_time s
  /\ ((length (logs s) <= 1000)%nat -> (length (logs (cancel_main_task now s)) <= 1000)%nat).
Proof.
  unfold cancel_main_task. destruct (_main_task s) as [[]|]; repeat split; try tauto.
  intros _. cbn [set_main_task logs].
  match goal with |- context [_emit_event ?n ?t ?d ?s'] =>
    destruct (emit_event_fields n t d s') as (_ & _ & _ & _ & E5) end. exact E5.
Qed.

Lemma stop_invariant now s :
  lifecycle_invariant s -> lifecycle_invariant (stop now s).1.
Proof.
  intros (Hlog & Hp & Hb). unfold stop.
  destruct (BotStatus_eqb (status s) STOPPED).
  { repeat split; tauto. }
  cbn [fst].
  match goal with |- lifecycle_invariant (_emit_event ?n ?t ?d ?s') =>
    destruct (emit_event_fields n t d s') as (E1 & E2 & E3 & E4 & E5) end.
  unfold lifecycle_invariant. rewrite E1, E2, E4. split; [exact E5|].
  cbn [set_status status _paused bot]. split; [discriminate|].
  match goal with |- context [match ?x with Some _ => _ | None => _ end] => destruct x end;
    cbn; split; intros H; try discriminate; destruct H; discriminate.
Qed.

Lemma toggle_invariant now s :
  lifecycle_invariant s -> lifecycle_invariant (toggle_pause now s).1.
Proof.
  intros (Hlog & Hp & Hb). unfold toggle_pause.
  destruct (negb (BotStatus_eqb (status s) RUNNING) && negb (_paused s)).
  { repeat split; tauto. }
  cbn [fst].
  match goal with |- lifecycle_invariant (_emit_event ?n ?t ?d ?s') =>
    destruct (emit_event_fields n t d s') as (E1 & E2 & E3 & E4 & E5) end.
  unfold lifecycle_invariant. rewrite E1, E2, E4. split; [exact E5|].
  cbn. split; [|exact Hb].
  destruct (_paused s); cbn; [discriminate|reflexivity].
Qed.

Lemma emit_invariant now t d s :
  lifecycle_invariant s -> lifecycle_invariant (_emit_event now t d s).
Proof.
  intros (Hlog & Hp & Hb).
  destruct (emit_event_fields now t d s) as (E1 & E2 & E3 & E4 & E5).
  unfold lifecycle_invariant. rewrite E1, E2, E4. tauto.
Qed.

Lemma loop_body_invariant now c s :
  lifecycle_invariant s -> lifecycle_invariant (loop_body now c s).1.
Proof.
  intros (Hlog & Hp & Hb). unfold loop_body.
  set (r := if negb (connected (bot s)) then Bot_connect_device (cycle_adb c) (bot s)
            else (bot s, true)).
  assert (Hr : connected r.1 = true <-> is_Some (device_serial r.1)).
  { subst r. destruct (negb (connected (bot s))); [apply connect_device_serial|]; exact Hb. }
  destruct r as [b ok]. cbn [fst] in Hr.
  assert (Hs : lifecycle_invariant (set_bot b s)) by (split; [|split]; assumption).
  destruct (negb ok); [exact Hs|].
  destruct (negb (truthy_bytes (screenshot c))); [exact Hs|].
  cbn [fst]. destruct (game_state_changed c) as [data|]; [|exact Hs].
  apply emit_invariant, Hs.
Qed.

Lemma do_step_invariant now st s :
  lifecycle_invariant s -> lifecycle_invariant (do_step now st s).
Proof.
  intros H. destruct st; cbn [do_step].
  - apply start_invariant, H.
  - apply stop_invariant, H.
  - apply toggle_invariant, H.
  - unfold disconnect_device. cbn [fst]. apply emit_invariant.
    destruct H as (Hlog & Hp & Hb). split; [|split]; try assumption; cbn.
    split; [discriminate|intros []; discriminate].
  - destruct H as (Hlog & Hp & Hb). split; [|split]; try assumption. cbn. lia.
  - unfold main_loop_enter. apply emit_invariant.
    destruct H as (Hlog & Hp & Hb). split; [|split]; try assumption. discriminate.
  - unfold main_loop_iteration. destruct (negb (_running s)).
    + unfold main_loop_leave.
      match goal with |- lifecycle_invariant (set_main_task ?t ?s') =>
        assert (lifecycle_invariant s') as (I1 & I2 & I3) end.
      { apply emit_invariant. destruct H as (Hlog & Hp & Hb).
        split; [|split]; try assumption. discriminate. }
      split; [|split]; assumption.
    + destruct (_paused s); [exact H|].
      pose proof (loop_body_invariant now c s H) as Hl.
      destruct (loop_body now c s) as [s' [e|]]; cbn [fst] in Hl; [|exact Hl].
      apply emit_invariant, Hl.
Qed.

(** X1.  Whatever commands the backend orchestrator receives, in
    whatever order, and whenever its loop tasks take their steps, the
    event log never holds more than 1000 events, a status of PAUSED
    always comes with the pause flag set, and the [Bot] handle is
    marked connected exactly when it carries a device serial. *)
Theorem lifecycle_invariant_holds (sts : list (Q * Step)) :
  lifecycle_invariant (do_steps sts init).
Proof.
  assert (H0 : lifecycle_invariant init).
  { repeat split; cbn; try lia; try discriminate. intros []; discriminate. }
  revert H0. generalize init. induction sts as [|[now st] sts IH]; intros s Hs; [exact Hs|].
  cbn [do_steps]. apply IH, do_step_invariant, Hs.
Qed.

End Lifecycle.

(** ** Single commands of the backend orchestrator *)

Section Commands.

Import BackendBot.

(** X2.  When [start] fails to reach a device or to launch the
    application, it leaves the status at STARTING, emits no event and
    does not touch the run flag; from that state every further [start]
    is refused, whatever adb answers, and only [stop] leads out of
    it. *)
Theorem failed_start_blocks_start (now : Q) (adb : Adb) (s : BotService) :
  status s <> RUNNING ->
  status s <> STARTING ->
  success (start now adb s).2 = false ->
  let s' := (start now adb s).1 in
  status s' = STARTING
  /\ _running s' = _running s
  /\ logs s' = logs s
  /\ (forall now' adb', start now' adb' s' = (s', start_refused))
  /\ (forall now', status (stop now' s').1 = STOPPED).
Proof.
  intros Hr Hs. unfold start at 1 2.
  destruct (status s) eqn:E; try congruence; cbn [BotStatus_eqb orb].
  all: cbn [set_status bot connected].
  all: destruct (if negb (connected (bot s)) then Bot_connect_device adb (bot s)
                 else (bot s, true)) as [b ok].
  all: destruct (negb ok); cbn [set_bot bot].
  all: try destruct (negb (Bot_start_app adb b)); cbn [snd fst success].
  all: try discriminate.
  all: intros _; repeat split; intros; reflexivity.
Qed.

Lemma failed_start_blocks_start_witness :
  status (start 1 adb_without_devices init).1 = STARTING
  /\ start 2 adb_with_emulator (start 1 adb_without_devices init).1
     = ((start 1 adb_without_devices init).1, start_refused).
Proof.
  assert (H1 : status init <> RUNNING) by discriminate.
  assert (H2 : status init <> STARTING) by discriminate.
  assert (H3 : success (start 1 adb_without_devices init).2 = false) by reflexivity.
  destruct (failed_start_blocks_start 1 adb_without_devices init H1 H2 H3)
    as (A & _ & _ & B & _).
  split; [exact A|exact (B 2%Q adb_with_emulator)].
Defined.

Lemma last_entries_last {A} (n : nat) (l : list A) (a : A) :
  (0 < n)%nat -> last (last_entries n (l ++ [a])) = Some a.
Proof.
  intros Hn. unfold last_entries. rewrite length_app. cbn [length].
  rewrite drop_app_le by lia. apply last_snoc.
Qed.

Lemma emit_event_last now t d s :
  last (logs (_emit_event now t d s))
  = Some {| ev_type := t; ev_timestamp := now; ev_data := d |}.
Proof.
  cbn [_emit_event set_logs logs]. rewrite append_event_last.
  apply last_entries_last. lia.
Qed.

Lemma cancel_main_task_rest now s :
  task_at_rest (_main_task (cancel_main_task now s))
  /\ stats (cancel_main_task now s) = stats s
  /\ _start_time (cancel_main_task now s) = _start_time s.
Proof.
  unfold cancel_main_task, task_at_rest.
  destruct (_main_task s) as [[]|] eqn:E; cbn; rewrite ?E; repeat split; congruence.
Qed.

(** X3.  [stop] from any status but STOPPED succeeds and brings the
    service to rest: status STOPPED, run and pause flags clear, the
    device handle dropped, no loop task pending, [bot_stopped] as the
    last event, the time since the start added to the total runtime;
    a second [stop] is refused and changes nothing. *)
Theorem stop_brings_to_rest (now : Q) (s : BotService) :
  status s <> STOPPED ->
  let s' := (stop now s).1 in
  success (stop now s).2 = true
  /\ status s' = STOPPED
  /\ _running s' = false
  /\ _paused s' = false
  /\ bot s' = {| connected := false; device_serial := None |}
  /\ task_at_rest (_main_task s')
  /\ last (logs s') = Some (event now "bot_stopped")
  /\ (forall t0, _start_time s = Some t0 ->
        total_runtime (stats s') = (total_runtime (stats s) + (now - t0))%Q)
  /\ (forall now', stop now' s' = (s', stop_refused)).
Proof.
  intros Hs. unfold stop at 1 2.
  destruct (BotStatus_eqb (status s) STOPPED) eqn:E.
  { destruct (status s); try discriminate. congruence. }
  cbn [fst snd success].
  set (s1 := set_paused false (set_running false (set_status STOPPING s))).
  destruct (cancel_main_task_rest now s1) as (Ht & Hst & Hstart).
  set (s2 := cancel_main_task now s1) in *.
  assert (Hp : _paused s2 = false).
  { subst s2. unfold cancel_main_task. destruct (_main_task s1) as [[]|]; reflexivity. }
  assert (Hr : _running s2 = false).
  { subst s2. unfold cancel_main_task. destruct (_main_task s1) as [[]|]; reflexivity. }
  split; [reflexivity|]. split; [reflexivity|].
  split. { cbn [_emit_event set_logs set_status _running].
           destruct (_start_time (set_bot (Bot_disconnect (bot s2)) s2)); exact Hr. }
  split. { cbn [_emit_event set_logs set_status _paused].
           destruct (_start_time (set_bot (Bot_disconnect (bot s2)) s2)); exact Hp. }
  split. { cbn [_emit_event set_logs set_status bot].
           destruct (_start_time (set_bot (Bot_disconnect (bot s2)) s2)); reflexivity. }
  split. { cbn [_emit_event set_logs set_status _main_task].
           destruct (_start_time (set_bot (Bot_disconnect (bot s2)) s2)); exact Ht. }
  split. { apply emit_event_last. }
  split. { intros t0 Ht0. cbn [_emit_event set_logs set_status stats].
           assert (Hs2 : _start_time (set_bot (Bot_disconnect (bot s2)) s2) = Some t0).
           { cbn [set_bot _start_time]. rewrite Hstart. exact Ht0. }
           rewrite Hs2. cbn [set_stats stats set_bot total_runtime]. rewrite Hst. reflexivity. }
  intros now'. reflexivity.
Qed.

Lemma stop_brings_to_rest_witness :
  status (stop 9 running_service).1 = STOPPED
  /\ total_runtime (stats (stop 9 running_service).1)
     = (total_runtime (stats running_service) + (9 - 0))%Q.
Proof.
  assert (H : status running_service <> STOPPED) by (vm_compute; discriminate).
  destruct (stop_brings_to_rest 9 running_service H) as (_ & A & _ & _ & _ & _ & _ & B & _).
  split; [exact A|]. apply B. vm_compute. reflexivity.
Defined.

(** X4.  From a running, unpaused bot [toggle_pause] gives status
    PAUSED with the pause flag set, and while it is set an iteration
    of the main loop does nothing; a second [toggle_pause] restores
    the service, field for field, except that the log has gained the
    two events [bot_paused] and [bot_resumed]. *)
Theorem toggle_pause_round_trip (now1 now2 : Q) (s : BotService) :
  status s = RUNNING ->
  _paused s = false ->
  let paused := (toggle_pause now1 s).1 in
  status paused = PAUSED
  /\ _paused paused = true
  /\ (forall now c, main_loop_iteration now c paused
                    = if _running s then paused else main_loop_leave now paused)
  /\ (toggle_pause now2 paused).1
     = set_logs (append_event (event now2 "bot_resumed")
                   (append_event (event now1 "bot_paused") (logs s))) s.
Proof.
  intros Hs Hp. destruct s. cbn in Hs, Hp. subst.
  unfold toggle_pause. cbn. repeat split.
  intros now c. unfold main_loop_iteration. cbn. destruct _running0; reflexivity.
Qed.

Lemma toggle_pause_round_trip_witness :
  status (toggle_pause 1 running_service).1 = PAUSED
  /\ status (toggle_pause 2 (toggle_pause 1 running_service).1).1 = RUNNING.
Proof.
  assert (H1 : status running_service = RUNNING) by (vm_compute; reflexivity).
  assert (H2 : _paused running_service = false) by (vm_compute; reflexivity).
  destruct (toggle_pause_round_trip 1 2 running_service H1 H2) as (A & _ & _ & B).
  split; [exact A|]. rewrite B. exact H1.
Defined.

(** X5.  [get_logs limit] returns the latest [limit] events in log
    order, all of them when fewer exist, and the whole log for a limit
    of zero or less; it is always a suffix of the log.  Right after an
    event is emitted [get_logs 1] is that event, and after
    [clear_logs] it is empty. *)
Theorem get_logs_returns_latest (limit : Z) (s : BotService) :
  get_logs limit s
  = (if 0 <? limit then last_entries (Z.to_nat limit) (logs s) else logs s)
  /\ (exists older, logs s = older ++ get_logs limit s)
  /\ length (get_logs limit s)
     = (if 0 <? limit then Nat.min (Z.to_nat limit) (length (logs s))
        else length (logs s))
  /\ (forall now t d,
         get_logs 1 (_emit_event now t d s)
         = [{| ev_type := t; ev_timestamp := now; ev_data := d |}])
  /\ get_logs limit (clear_logs s) = [].
Proof.
  assert (E : get_logs limit s
              = if 0 <? limit then last_entries (Z.to_nat limit) (logs s) else logs s).
  { unfold get_logs. destruct (0 <? limit) eqn:El; [|reflexivity].
    apply slice_from_neg. lia. }
  split; [exact E|]. split.
  { rewrite E. destruct (0 <? limit).
    - exists (take (length (logs s) - Z.to_nat limit) (logs s)).
      unfold last_entries. symmetry. apply take_drop.
    - exists []. reflexivity. }
  split.
  { rewrite E. destruct (0 <? limit); [apply last_entries_length|reflexivity]. }
  split.
  { intros now t d. unfold get_logs. cbn [Z.ltb Z.compare].
    rewrite (slice_from_neg _ 1) by lia.
    cbn [_emit_event set_logs logs]. rewrite append_event_last.
    unfold last_entries. rewrite length_app. cbn [length].
    rewrite drop_app_le by lia.
    rewrite length_app, length_drop. cbn [length].
    replace (length (logs s) - (length (logs s) + 1 - 1000) + 1 - Z.to_nat 1)%nat
      with (length (drop (length (logs s) + 1 - 1000) (logs s)))
      by (rewrite length_drop; lia).
    rewrite drop_app_length. reflexivity. }
  unfold get_logs, clear_logs. cbn [set_logs logs]. destruct (0 <? limit); [|reflexivity].
  unfold slice_from. apply drop_nil.
Qed.

End Commands.

(** ** Starting, pausing and resuming the api orchestrator *)

Section ApiStart.

Import ApiBot ApiBotStart.

Lemma is_connected_spec d : is_connected d = true <-> ApiDevice.status d = ApiDevice.CONNECTED.
Proof. unfold is_connected. destruct (ApiDevice.status d); cbn; split; congruence. Qed.

Lemma is_disconnected_spec d :
  is_disconnected d = true <-> ApiDevice.status d = ApiDevice.DISCONNECTED.
Proof. unfold is_disconnected. destruct (ApiDevice.status d); cbn; split; congruence. Qed.

Lemma find_Some_elem {A} (f : A -> bool) (l : list A) (a : A) :
  List.find f l = Some a -> a ∈ l /\ f a = true.
Proof. intros H. apply find_some in H. rewrite list_elem_of_In. exact H. Qed.

Lemma find_None_elem {A} (f : A -> bool) (l : list A) :
  List.find f l = None -> forall a, a ∈ l -> f a = false.
Proof. intros H a Ha. apply (find_none f l H). apply list_elem_of_In, Ha. Qed.

Lemma find_is_Some {A} (f : A -> bool) (l : list A) (a : A) :
  a ∈ l -> f a = true -> is_Some (List.find f l).
Proof.
  intros Ha Hf. destruct (List.find f l) eqn:E; [eauto|].
  rewrite (find_None_elem f l E a Ha) in Hf. discriminate.
Qed.

(** X6.  [_ensure_device_connected] succeeds exactly when some
    listed device is connected or disconnected.  The device it settles
    on is one of the list; it is a connected one whenever any device is
    connected, and then no connection is attempted; it is the
    preferred device whenever that one is listed as connected.  Only
    when no device is connected does it take a disconnected one, and
    it reports success without looking at the result of the connection
    attempt.  Without a device service it fails and changes nothing. *)
Theorem ensure_device_prefers_connected (preferred : option string)
        (devices : list ApiDevice.DeviceInfo) (s : BotService) :
  let r := _ensure_device_connected true preferred devices s in
  (r.1.2 = true <->
   exists d, d ∈ devices /\ (ApiDevice.status d = ApiDevice.CONNECTED
                             \/ ApiDevice.status d = ApiDevice.DISCONNECTED))
  /\ (r.1.2 = false -> r.1.1 = s /\ r.2 = None)
  /\ (r.1.2 = true ->
      exists d, d ∈ devices
        /\ r.1.1 = set_connected_device (Some (ApiDevice.id d)) s
        /\ ((exists c, c ∈ devices /\ ApiDevice.status c = ApiDevice.CONNECTED) ->
            ApiDevice.status d = ApiDevice.CONNECTED /\ r.2 = None)
        /\ ((forall c, c ∈ devices -> ApiDevice.status c <> ApiDevice.CONNECTED) ->
            ApiDevice.status d = ApiDevice.DISCONNECTED /\ r.2 = Some (ApiDevice.id d))
        /\ (forall p, p ∈ devices -> Vision.truthy preferred = true ->
              Some (ApiDevice.id p) = preferred ->
              ApiDevice.status p = ApiDevice.CONNECTED ->
              Some (ApiDevice.id d) = preferred))
  /\ _ensure_device_connected false preferred devices s = (s, false, None).
Proof.
  cbn zeta. unfold _ensure_device_connected. cbn [negb].
  set (fp := fun d => bool_decide (Some (ApiDevice.id d) = preferred) && is_connected d).
  set (hit := if Vision.truthy preferred then List.find fp devices else None).
  assert (Hhit : forall d, hit = Some d ->
            d ∈ devices /\ Some (ApiDevice.id d) = preferred
            /\ ApiDevice.status d = ApiDevice.CONNECTED).
  { intros d. subst hit. destruct (Vision.truthy preferred); [|discriminate].
    intros H. apply find_Some_elem in H as [H1 H2]. subst fp. cbn in H2.
    apply andb_true_iff in H2 as [H2 H3]. apply bool_decide_eq_true in H2.
    apply is_connected_spec in H3. auto. }
  assert (Hnohit : hit = None -> forall p, p ∈ devices -> Vision.truthy preferred = true ->
            Some (ApiDevice.id p) = preferred ->
            ApiDevice.status p = ApiDevice.CONNECTED -> False).
  { subst hit. intros H p Hp Ht Hid Hst. rewrite Ht in H.
    pose proof (find_None_elem fp devices H p Hp) as Hf. subst fp. cbn in Hf.
    rewrite bool_decide_eq_true_2 in Hf by exact Hid.
    apply is_connected_spec in Hst. rewrite Hst in Hf. discriminate. }
  split; [|split; [|split; [|reflexivity]]].
  - destruct hit as [d|] eqn:Eh.
    { destruct (Hhit d eq_refl) as (H1 & H2 & H3). cbn. split; [eauto|reflexivity]. }
    destruct (List.find is_connected devices) as [d|] eqn:Ec.
    { apply find_Some_elem in Ec as [H1 H2]. apply is_connected_spec in H2.
      cbn. split; [eauto|reflexivity]. }
    destruct (List.find is_disconnected devices) as [d|] eqn:Ed.
    { apply find_Some_elem in Ed as [H1 H2]. apply is_disconnected_spec in H2.
      cbn. split; [eauto|reflexivity]. }
    cbn. split; [discriminate|]. intros (d & Hd & [H|H]).
    + apply is_connected_spec in H. rewrite (find_None_elem _ _ Ec d Hd) in H. discriminate.
    + apply is_disconnected_spec in H. rewrite (find_None_elem _ _ Ed d Hd) in H. discriminate.
  - destruct hit as [d|]; [discriminate|].
    destruct (List.find is_connected devices); [discriminate|].
    destruct (List.find is_disconnected devices); [discriminate|]. auto.
  - destruct hit as [d|] eqn:Eh.
    { destruct (Hhit d eq_refl) as (H1 & H2 & H3). cbn. intros _. exists d.
      split; [exact H1|]. split; [reflexivity|]. split; [auto|].
      split; [|auto]. intros Hn. destruct (Hn d H1 H3). }
    destruct (List.find is_connected devices) as [d|] eqn:Ec.
    { apply find_Some_elem in Ec as [H1 H2]. apply is_connected_spec in H2.
      cbn. intros _. exists d. split; [exact H1|]. split; [reflexivity|]. split; [auto|].
      split. { intros Hn. destruct (Hn d H1 H2). }
      intros p Hp Ht Hid Hst. destruct (Hnohit eq_refl p Hp Ht Hid Hst). }
    destruct (List.find is_disconnected devices) as [d|] eqn:Ed; [|discriminate].
    apply find_Some_elem in Ed as [H1 H2]. apply is_disconnected_spec in H2.
    cbn. intros _. exists d. split; [exact H1|]. split; [reflexivity|].
    split. { intros (c & Hc & Hst). apply is_connected_spec in Hst.
             rewrite (find_None_elem _ _ Ec c Hc) in Hst. discriminate. }
    split; [auto|].
    intros p Hp Ht Hid Hst. destruct (Hnohit eq_refl p Hp Ht Hid Hst).
Qed.

Lemma ensure_device_prefers_connected_witness :
  (_ensure_device_connected true None two_devices init).1.1
  = set_connected_device (Some "emulator-5554"%string) init
  /\ (_ensure_device_connected true None two_devices init).2 = None.
Proof.
  destruct (ensure_device_prefers_connected None two_devices init) as (_ & _ & H & _).
  destruct (H eq_refl) as (d & Hd & Hs & Hc & _).
  assert (Hex : exists c, c ∈ two_devices /\ ApiDevice.status c = ApiDevice.CONNECTED).
  { exists (device_with "emulator-5554" ApiDevice.CONNECTED).
    split; [right; left|reflexivity]. }
  destruct (Hc Hex) as [_ H2]. split; [reflexivity|exact H2].
Defined.

Lemma ensure_nothing_to_use has pref devices s :
  nothing_to_use devices ->
  _ensure_device_connected has pref devices s = (s, false, None).
Proof.
  intros Hn. unfold _ensure_device_connected. destruct has; [|reflexivity]. cbn [negb].
  assert (Hf : forall f, (forall d, f d = true -> is_connected d = true \/ is_disconnected d = true) ->
               List.find f devices = None).
  { intros f Hf. destruct (List.find f devices) as [d|] eqn:E; [|reflexivity].
    apply find_Some_elem in E as [H1 H2]. destruct (Hn d H1) as [A B].
    destruct (Hf d H2) as [H|H].
    - apply is_connected_spec in H. contradiction.
    - apply is_disconnected_spec in H. contradiction. }
  rewrite (Hf is_connected) by auto. rewrite (Hf is_disconnected) by auto.
  rewrite Hf. { destruct (Vision.truthy pref); reflexivity. }
  intros d H. apply andb_true_iff in H as [_ H]. auto.
Qed.

Lemma ensure_device_chosen has pref devices s s1 att :
  _ensure_device_connected has pref devices s = (s1, true, att) ->
  exists d, d ∈ devices /\ s1 = set_connected_device (Some (ApiDevice.id d)) s.
Proof.
  unfold _ensure_device_connected. destruct has; cbn [negb]; [|discriminate].
  destruct (if Vision.truthy pref then _ else _) as [d|] eqn:Eh.
  { intros [= <- _]. exists d. split; [|reflexivity].
    destruct (Vision.truthy pref); [|discriminate].
    apply find_Some_elem in Eh. tauto. }
  destruct (List.find is_connected devices) as [d|] eqn:Ec.
  { intros [= <- _]. exists d. split; [|reflexivity]. apply find_Some_elem in Ec. tauto. }
  destruct (List.find is_disconnected devices) as [d|] eqn:Ed; [|discriminate].
  intros [= <- _]. exists d. split; [|reflexivity]. apply find_Some_elem in Ed. tauto.
Qed.

(** X7.  [start_bot] has three outcomes.  From RUNNING or STARTING
    it raises [ValueError] and changes nothing.  Without a usable
    device it raises [RuntimeError] and leaves the state ERROR with
    that message.  Otherwise it returns the status of a fresh session:
    state RUNNING, start time now, the four counters reset, no error
    message, the stop gate clear and the pause gate open, a device of
    the list selected; stopping that session later adds exactly the
    elapsed time to the total runtime. *)
Theorem start_bot_outcomes (now : Q) (has : bool) (pref : option string)
        (devices : list ApiDevice.DeviceInfo) (s : BotService) :
  let r := start_bot now has pref devices s in
  (state s = RUNNING \/ state s = STARTING ->
   r = (s, Raise (ValueError "Bot is already running or starting"), None))
  /\ (state s <> RUNNING -> state s <> STARTING ->
      (has = false \/ nothing_to_use devices) ->
      r.1.2 = Raise (RuntimeError "No device available for bot operation")
      /\ r.1.1 = set_error_message (Some "No device available for bot operation"%string)
                   (set_state ERROR s))
  /\ (state s <> RUNNING -> state s <> STARTING ->
      returns r.1.2 ->
      state r.1.1 = RUNNING
      /\ start_time r.1.1 = Some now
      /\ battles_played r.1.1 = 0 /\ battles_won r.1.1 = 0
      /\ current_wave r.1.1 = None /\ current_coop r.1.1 = None
      /\ error_message r.1.1 = None
      /\ _bot_task r.1.1 = Some TaskRunning
      /\ _stop_event r.1.1 = false /\ _pause_event r.1.1 = true
      /\ total_runtime r.1.1 = total_runtime s
      /\ (exists d, d ∈ devices /\ connected_device r.1.1 = Some (ApiDevice.id d))
      /\ r.1.2 = Return (get_status now r.1.1)
      /\ (forall later join,
            let stopped := (stop_bot later (Return join) r.1.1).1 in
            state stopped = STOPPED
            /\ start_time stopped = None
            /\ total_runtime stopped = (total_runtime s + (later - now))%Q)).
Proof.
  cbn zeta. split; [|split].
  - intros [H|H]; unfold start_bot; rewrite H; reflexivity.
  - intros H1 H2 Hno. unfold start_bot.
    assert (E : BotState_eqb (state s) RUNNING || BotState_eqb (state s) STARTING = false)
      by (destruct (state s); try reflexivity; congruence).
    rewrite E.
    assert (En : _ensure_device_connected has pref devices
                   (set_error_message None (set_state STARTING s))
                 = (set_error_message None (set_state STARTING s), false, None)).
    { destruct Hno as [->|Hno]; [reflexivity|]. apply ensure_nothing_to_use, Hno. }
    rewrite En. cbn. split; reflexivity.
  - intros H1 H2. unfold start_bot.
    assert (E : BotState_eqb (state s) RUNNING || BotState_eqb (state s) STARTING = false)
      by (destruct (state s); try reflexivity; congruence).
    rewrite E.
    set (s0 := set_error_message None (set_state STARTING s)).
    destruct (_ensure_device_connected has pref devices s0) as [[s1 ok] att] eqn:En.
    destruct ok; cbn [negb]; [|intros [a Ha]; discriminate].
    intros _. cbn [fst snd].
    destruct (ensure_device_chosen _ _ _ _ _ _ En) as (d & Hd & ->).
    cbn. do 11 (split; [reflexivity|]).
    split; [exists d; split; [exact Hd|reflexivity]|].
    split; [reflexivity|].
    intros later join. repeat split.
Qed.

Lemma start_bot_outcomes_witness :
  state (start_bot 1 true None two_devices init).1.1 = RUNNING
  /\ (start_bot 1 false None two_devices init).1.2
     = Raise (RuntimeError "No device available for bot operation").
Proof.
  destruct (start_bot_outcomes 1 true None two_devices init) as (_ & _ & H).
  destruct (start_bot_outcomes 1 false None two_devices init) as (_ & H' & _).
  split.
  - apply H; [discriminate|discriminate|eexists; reflexivity].
  - apply H'; [discriminate|discriminate|left; reflexivity].
Defined.

(** X8.  Pausing a running api bot closes the pause gate and leaves
    the stop gate alone; the uptime keeps counting from the start of
    the session while paused; resuming restores the service as it was
    before the pause, but for the last action and its time. *)
Theorem pause_resume_round_trip (now1 now2 : Q) (s : BotService) :
  state s = RUNNING ->
  _pause_event s = true ->
  let paused := (pause_bot now1 s).1 in
  state paused = PAUSED
  /\ _pause_event paused = false
  /\ _stop_event paused = _stop_event s
  /\ (forall t0, start_time s = Some t0 ->
        st_uptime (get_status now2 paused) = Some (now2 - t0)%Q)
  /\ (resume_bot now2 paused).1 = set_last_action "Bot resumed" now2 s.
Proof.
  intros Hs Hp. destruct s. cbn in Hs, Hp. subst.
  cbn. repeat split. intros t0 ->. reflexivity.
Qed.

Lemma pause_resume_round_trip_witness :
  state (resume_bot 3 (pause_bot 2 (start_bot 1 true None two_devices init).1.1).1).1
  = RUNNING.
Proof.
  set (s := (start_bot 1 true None two_devices init).1.1).
  assert (H1 : state s = RUNNING) by reflexivity.
  assert (H2 : _pause_event s = true) by reflexivity.
  destruct (pause_resume_round_trip 2 3 s H1 H2) as (_ & _ & _ & _ & E).
  rewrite E. exact H1.
Defined.

End ApiStart.

(** ** The api device registry: snapshot, parsing and actions *)

Section ApiRegistryMore.

Import ApiDevice.

Lemma last_filter_cons {A} (P : A -> Prop) `{!forall a, Decision (P a)} (a : A) (l : list A) :
  last (filter P (a :: l))
  = match last (filter P l) with
    | Some x => Some x
    | None => if decide (P a) then Some a else None
    end.
Proof.
  rewrite filter_cons. destruct (decide (P a)); [|destruct (last (filter P l)); reflexivity].
  destruct (filter P l) as [|b l'] eqn:E; [reflexivity|].
  rewrite last_cons. destruct (last (b :: l')) eqn:E2; [reflexivity|].
  apply last_None in E2. discriminate.
Qed.

Lemma parse_lines_found now probe lines (reg reg' : gmap string DeviceInfo) :
  (parse_lines now probe lines reg).1 = (parse_lines now probe lines reg').1.
Proof.
  revert reg reg'. induction lines as [|line rest IH]; intros reg reg'; [reflexivity|].
  cbn [parse_lines]. destruct (String.eqb (Str.strip line) ""); [apply IH|].
  destruct (_parse_device_line now probe line) as [d|]; [|apply IH].
  specialize (IH (<[id d := d]> reg) (<[id d := d]> reg')).
  destruct (parse_lines now probe rest (<[id d := d]> reg)) as [ds r1].
  destruct (parse_lines now probe rest (<[id d := d]> reg')) as [ds' r2].
  cbn in *. congruence.
Qed.

Lemma parse_lines_lookup now probe lines (reg : gmap string DeviceInfo) (k : string) :
  (parse_lines now probe lines reg).2 !! k
  = match last (records_of k (parse_lines now probe lines reg).1) with
    | Some d => Some d
    | None => reg !! k
    end.
Proof.
  revert reg. induction lines as [|line rest IH]; intros reg; [reflexivity|].
  cbn [parse_lines]. destruct (String.eqb (Str.strip line) ""); [apply IH|].
  destruct (_parse_device_line now probe line) as [d|]; [|apply IH].
  specialize (IH (<[id d := d]> reg)).
  destruct (parse_lines now probe rest (<[id d := d]> reg)) as [ds r1].
  cbn [fst snd] in *. rewrite IH. unfold records_of. rewrite last_filter_cons.
  destruct (last (filter (fun d0 => id d0 = k) ds)); [reflexivity|].
  destruct (decide (id d = k)) as [<-|Hne].
  - apply lookup_insert_eq.
  - apply lookup_insert_ne, Hne.
Qed.

Lemma records_of_last_None k (found : list DeviceInfo) :
  last (records_of k found) = None <-> k ∉ map id found.
Proof.
  rewrite last_None. unfold records_of. split.
  - intros H Hin. apply list_elem_of_fmap in Hin as (d & -> & Hd).
    assert (Hf : d ∈ filter (fun d0 => id d0 = id d) found)
      by (apply list_elem_of_filter; auto).
    rewrite H in Hf. inversion Hf.
  - intros H. destruct (filter (fun d => id d = k) found) as [|d l] eqn:E; [reflexivity|].
    exfalso. apply H.
    assert (Hd : d ∈ filter (fun d => id d = k) found) by (rewrite E; left).
    apply list_elem_of_filter in Hd as [<- Hd]. apply list_elem_of_fmap. eauto.
Qed.

(** X9.  After a successful [refresh_devices] the registry is a
    function of the listing alone: under every id it holds the last
    record parsed for that id and nothing else, so the outcome is the
    same as on an empty registry. *)
Theorem refresh_is_a_snapshot (now : Q) (probe : string -> Probe)
        (path : string) (out : string) (reg : gmap string DeviceInfo) :
  let svc := {| adb_path := Some path; devices := reg |} in
  let fresh := {| adb_path := Some path; devices := ∅ |} in
  let r := refresh_devices now probe (Return (0, out)) svc in
  (forall k, devices r.1 !! k = last (records_of k r.2))
  /\ r = refresh_devices now probe (Return (0, out)) fresh
  /\ (forall d, d ∈ r.2 -> exists d', devices r.1 !! id d = Some d' /\ d' ∈ r.2 /\ id d' = id d)
  /\ (forall k d, devices r.1 !! k = Some d -> d ∈ r.2 /\ id d = k).
Proof.
  cbn zeta.
  assert (Hlook : forall reg0 k,
            devices (refresh_devices now probe (Return (0, out))
                       {| adb_path := Some path; devices := reg0 |}).1 !! k
            = last (records_of k (refresh_devices now probe (Return (0, out))
                       {| adb_path := Some path; devices := reg0 |}).2)).
  { intros reg0 k. unfold refresh_devices. cbn [adb_path devices Z.eqb negb].
    set (lines := slice_from _ 1).
    pose proof (parse_lines_lookup now probe lines reg0 k) as Hl.
    destruct (parse_lines now probe lines reg0) as [found reg1]. cbn [fst snd devices] in *.
    rewrite prune_lookup. destruct (decide (k ∈ (list_to_set (map id found) : gset string))) as [Hin|Hout].
    - rewrite Hl. destruct (last (records_of k found)) eqn:E; [reflexivity|].
      apply records_of_last_None in E. rewrite elem_of_list_to_set in Hin. contradiction.
    - rewrite elem_of_list_to_set in Hout. symmetry. apply records_of_last_None, Hout. }
  assert (Hfound : forall reg0,
            (refresh_devices now probe (Return (0, out))
               {| adb_path := Some path; devices := reg0 |}).2
            = (refresh_devices now probe (Return (0, out))
               {| adb_path := Some path; devices := ∅ |}).2).
  { intros reg0. unfold refresh_devices. cbn [adb_path devices Z.eqb negb].
    set (lines := slice_from _ 1).
    pose proof (parse_lines_found now probe lines reg0 ∅) as Hf.
    destruct (parse_lines now probe lines reg0) as [f1 r1].
    destruct (parse_lines now probe lines ∅) as [f2 r2]. exact Hf. }
  split; [apply Hlook|]. split.
  { set (r1 := refresh_devices _ _ _ {| adb_path := Some path; devices := reg |}).
    set (r2 := refresh_devices _ _ _ {| adb_path := Some path; devices := ∅ |}).
    assert (Hd : devices r1.1 = devices r2.1).
    { apply map_eq. intros k. subst r1 r2. rewrite !Hlook, (Hfound reg). reflexivity. }
    assert (Hp : adb_path r1.1 = adb_path r2.1).
    { subst r1 r2. unfold refresh_devices. cbn [adb_path devices Z.eqb negb].
      set (lines := slice_from _ 1).
      destruct (parse_lines now probe lines reg), (parse_lines now probe lines ∅). reflexivity. }
    assert (Hf : r1.2 = r2.2) by apply Hfound.
    destruct r1 as [[p1 d1] f1], r2 as [[p2 d2] f2]. cbn in *. congruence. }
  split.
  { intros d Hd. rewrite Hlook.
    destruct (last (records_of (id d) _)) as [d'|] eqn:E.
    - exists d'. split; [reflexivity|].
      apply last_Some_elem_of in E. apply list_elem_of_filter in E. tauto.
    - apply records_of_last_None in E. exfalso. apply E. apply list_elem_of_fmap. eauto. }
  intros k d Hk. rewrite Hlook in Hk. apply last_Some_elem_of in Hk.
  apply list_elem_of_filter in Hk. tauto.
Qed.

End ApiRegistryMore.

Section ApiLines.

Import ApiDevice.

Lemma status_of_token (st : string) :
  default ERROR (status_map !! st) = CONNECTED <-> st = "device"%string.
Proof.
  unfold status_map. split.
  - intros H. destruct (decide (st = "device"%string)) as [->|N1]; [reflexivity|].
    rewrite lookup_insert_ne in H by congruence.
    destruct (decide (st = "offline"%string)) as [->|N2].
    { rewrite lookup_insert_eq in H. discriminate. }
    rewrite lookup_insert_ne in H by congruence.
    destruct (decide (st = "unauthorized"%string)) as [->|N3].
    { rewrite lookup_insert_eq in H. discriminate. }
    rewrite lookup_insert_ne in H by congruence.
    destruct (decide (st = "no permissions"%string)) as [->|N4].
    { rewrite lookup_insert_eq in H. discriminate. }
    rewrite lookup_insert_ne, lookup_empty in H by congruence. discriminate.
  - intros ->. rewrite lookup_insert_eq. reflexivity.
Qed.

Lemma status_never_connecting (st : string) :
  default ERROR (status_map !! st) <> CONNECTING.
Proof.
  unfold status_map.
  destruct (decide (st = "device"%string)) as [->|N1].
  { rewrite lookup_insert_eq. discriminate. }
  rewrite lookup_insert_ne by congruence.
  destruct (decide (st = "offline"%string)) as [->|N2].
  { rewrite lookup_insert_eq. discriminate. }
  rewrite lookup_insert_ne by congruence.
  destruct (decide (st = "unauthorized"%string)) as [->|N3].
  { rewrite lookup_insert_eq. discriminate. }
  rewrite lookup_insert_ne by congruence.
  destruct (decide (st = "no permissions"%string)) as [->|N4].
  { rewrite lookup_insert_eq. discriminate. }
  rewrite lookup_insert_ne, lookup_empty by congruence. discriminate.
Qed.

Lemma update_device_details_frame (p : Probe) (d : DeviceInfo) :
  id (_update_device_details p d) = id d
  /\ status (_update_device_details p d) = status d
  /\ connection_type (_update_device_details p d) = connection_type d
  /\ last_seen (_update_device_details p d) = last_seen d.
Proof. unfold _update_device_details. destruct (sdk p); repeat split. Qed.

(** X10.  A parsed line yields a record whose id is the first token,
    whose status is read off the second one and is never CONNECTING,
    and whose connection type depends on the id only.  The bridge is
    asked for details exactly when the second token is [device]: any
    other line gives the record with the placeholder details, the same
    whatever the bridge would answer. *)
Theorem only_connected_lines_are_probed (now : Q) (probe : string -> Probe)
        (line : string) (d : DeviceInfo) :
  _parse_device_line now probe line = Some d ->
  exists device_id status_str rest,
    Str.split line = device_id :: status_str :: rest
    /\ id d = device_id
    /\ status d = default ERROR (status_map !! status_str)
    /\ status d <> CONNECTING
    /\ (status d = CONNECTED <-> status_str = "device"%string)
    /\ connection_type d = connection_type_of device_id
    /\ last_seen d = Some now
    /\ (status_str <> "device"%string ->
        d = unprobed now device_id (status d)
        /\ forall probe', _parse_device_line now probe' line = Some d)
    /\ (status_str = "device"%string ->
        d = _update_device_details (probe device_id) (unprobed now device_id CONNECTED)).
Proof.
  unfold _parse_device_line.
  destruct (Str.split line) as [|device_id [|status_str rest]]; try discriminate.
  intros H. exists device_id, status_str, rest. split; [reflexivity|].
  pose proof (status_of_token status_str) as Hc.
  pose proof (status_never_connecting status_str) as Hn.
  destruct (default ERROR (status_map !! status_str)) eqn:E; cbn [DeviceStatus_eqb] in H;
    injection H as <-.
  all: try (destruct (update_device_details_frame (probe device_id)
                        (unprobed now device_id CONNECTED)) as (F1 & F2 & F3 & F4);
            fold (unprobed now device_id CONNECTED);
            rewrite F1, F2, F3, F4).
  all: cbn [id status connection_type last_seen unprobed].
  all: repeat split; try congruence; try tauto.
  all: try (intros Hd; apply Hc in Hd; discriminate).
  all: try (intros Hd; destruct Hc as [Hc _]; specialize (Hc eq_refl); contradiction).
Qed.

Lemma only_connected_lines_are_probed_witness :
  exists d,
    _parse_device_line 5 Samples.silent_probe "192.168.1.7:5555       offline" = Some d
    /\ status d = DISCONNECTED
    /\ connection_type d = WIFI.
Proof.
  eexists. split; [reflexivity|].
  destruct (only_connected_lines_are_probed 5 Samples.silent_probe
              "192.168.1.7:5555       offline" _ eq_refl)
    as (i & st & rest & Hs & _ & Hst & _ & _ & Hc & _).
  vm_compute in Hs. injection Hs as <- <- <-.
  split; [exact Hst|exact Hc].
Defined.

End ApiLines.

Section ApiActions.

Import ApiDevice.

(** X11.  A successful [disconnect_device] of the api registry
    removes the id and nothing else; a failed one leaves the service
    unchanged.  For an id without a colon it always succeeds and never
    runs adb; for a network id it succeeds exactly when adb is
    available and [adb disconnect] exits with 0. *)
Theorem api_disconnect_forgets_device (adb_disconnect : result (Z * string))
        (device_id : string) (svc : DeviceService) :
  let r := disconnect_device adb_disconnect device_id svc in
  (success r.2 = true ->
   devices r.1 !! device_id = None
   /\ (forall k, k <> device_id -> devices r.1 !! k = devices svc !! k)
   /\ dom (devices r.1) = dom (devices svc) ∖ {[device_id]}
   /\ adb_path r.1 = adb_path svc)
  /\ (success r.2 = false -> r.1 = svc)
  /\ (local_id device_id -> success r.2 = true)
  /\ (~ local_id device_id ->
      (success r.2 = true <->
       exists path err, adb_path svc = Some path /\ adb_disconnect = Return (0, err))).
Proof.
  cbn zeta. unfold disconnect_device, local_id, _run_adb_command.
  assert (Hrem : forall reg : gmap string DeviceInfo,
            delete device_id reg !! device_id = None
            /\ (forall k, k <> device_id -> delete device_id reg !! k = reg !! k)
            /\ dom (delete device_id reg) = dom reg ∖ {[device_id]}).
  { intros reg. split; [apply lookup_delete_eq|]. split; [|apply dom_delete_L].
    intros k Hk. apply lookup_delete_ne. congruence. }
  destruct (Str.contains ":" device_id).
  - destruct (adb_path svc) as [path|] eqn:Ep.
    + destruct adb_disconnect as [[rc err]|e]; cbn.
      * destruct (rc =? 0) eqn:Erc; cbn.
        -- apply Z.eqb_eq in Erc. subst rc.
           split; [intros _; split; [apply Hrem|split; [apply Hrem|split; [apply Hrem|reflexivity]]]|].
           split; [discriminate|]. split; [discriminate|].
           intros _. split; [eauto|reflexivity].
        -- split; [discriminate|]. split; [reflexivity|]. split; [discriminate|].
           intros _. split; [discriminate|].
           intros (p & er & _ & Hx). injection Hx as -> _. discriminate.
      * split; [discriminate|]. split; [reflexivity|]. split; [discriminate|].
        intros _. split; [discriminate|]. intros (p & er & _ & Hx). discriminate.
    + cbn. split; [discriminate|]. split; [reflexivity|]. split; [discriminate|].
      intros _. split; [discriminate|]. intros (p & er & Hx & _). discriminate.
  - cbn. split; [intros _; split; [apply Hrem|split; [apply Hrem|split; [apply Hrem|reflexivity]]]|].
    split; [discriminate|]. split; [reflexivity|]. intros Hx. destruct Hx. reflexivity.
Qed.

Lemma api_disconnect_forgets_device_witness :
  let svc := (refresh_devices 5 Samples.silent_probe (Return (0, Samples.listing))
                {| adb_path := Some "adb"%string; devices := ∅ |}).1 in
  devices (disconnect_device (Raise IndexError) "emulator-5554" svc).1
    !! "emulator-5554"%string = None.
Proof.
  cbn zeta.
  match goal with |- devices (disconnect_device ?a ?i ?s).1 !! _ = _ =>
    destruct (api_disconnect_forgets_device a i s) as (H & _ & Hl & _) end.
  apply H, Hl. reflexivity.
Defined.

(** X12.  [connect_device] on an id without a colon reports success
    whatever adb does: it only refreshes the registry.  Without an adb
    path the service is unchanged, and when the listing does not name
    the id the registry does not hold it afterwards, success
    notwithstanding. *)
Theorem api_connect_local_id_always_succeeds (now : Q) (probe : string -> Probe)
        (adb_connect listing : result (Z * string))
        (device_id : string) (svc : DeviceService) :
  local_id device_id ->
  let r := connect_device now probe adb_connect listing device_id svc in
  success r.2 = true
  /\ message r.2 = ("Connected to device " ++ device_id)%string
  /\ r.1 = (refresh_devices now probe listing svc).1
  /\ (adb_path svc = None -> r.1 = svc)
  /\ (forall out found,
        refresh_devices now probe listing svc = (r.1, found) ->
        listing = Return (0, out) ->
        adb_path svc <> None ->
        device_id ∉ map id found ->
        devices r.1 !! device_id = None).
Proof.
  unfold local_id. intros Hl. cbn zeta. unfold connect_device. rewrite Hl. cbn [fst snd success message].
  repeat split.
  - intros Hp. unfold refresh_devices. rewrite Hp. reflexivity.
  - intros out found Hr -> Hp Hn.
    destruct (adb_path svc) as [path|] eqn:Ep; [|congruence].
    pose proof (api_refresh_prunes now probe path out svc Ep) as Hd. cbn zeta in Hd.
    rewrite Hr in Hd. cbn [fst snd] in Hd.
    apply not_elem_of_dom. rewrite Hd, elem_of_list_to_set. exact Hn.
Qed.

Lemma api_connect_local_id_always_succeeds_witness :
  success (connect_device 0 Samples.silent_probe (Raise IndexError) (Raise IndexError)
             "R58M12ABCDE" service_without_adb).2 = true
  /\ (connect_device 0 Samples.silent_probe (Raise IndexError) (Raise IndexError)
        "R58M12ABCDE" service_without_adb).1 = service_without_adb.
Proof.
  assert (H : local_id "R58M12ABCDE") by reflexivity.
  destruct (api_connect_local_id_always_succeeds 0 Samples.silent_probe
              (Raise IndexError) (Raise IndexError) "R58M12ABCDE" service_without_adb H)
    as (A & _ & _ & B & _).
  split; [exact A|apply B; reflexivity].
Defined.

Lemma count_char_app (c : ascii) (a b : string) :
  Str.count_char c (a ++ b) = (Str.count_char c a + Str.count_char c b)%nat.
Proof.
  induction a as [|d a IH]; [reflexivity|].
  change (String d a ++ b)%string with (String d (a ++ b)).
  cbn [Str.count_char]. rewrite IH. lia.
Qed.

Lemma replace_char (c : ascii) (new s : string) (fuel : nat) :
  (String.length s <= fuel)%nat ->
  Str.replace_from fuel (String c "") new s = subst_char c new s.
Proof.
  revert s. induction fuel as [|fuel IH]; intros s Hs.
  - destruct s; [reflexivity|cbn in Hs; lia].
  - destruct s as [|d rest]; [reflexivity|]. cbn in Hs.
    cbn [Str.replace_from subst_char String.prefix String.length Str.drop].
    destruct (Ascii.ascii_dec c d) as [<-|Hne].
    + rewrite Ascii.eqb_refl.
      assert (Hp : String.prefix "" rest = true) by (destruct rest; reflexivity).
      rewrite Hp, IH by lia. reflexivity.
    + destruct (Ascii.eqb d c) eqn:E; [apply Ascii.eqb_eq in E; congruence|].
      rewrite IH by lia. reflexivity.
Qed.

Lemma replace_is_subst_char (c : ascii) (new s : string) :
  Str.replace (String c "") new s = subst_char c new s.
Proof. apply replace_char. lia. Qed.

Lemma subst_char_count (x c : ascii) (new s : string) :
  Str.count_char x new = 0%nat ->
  Str.count_char x (subst_char c new s)
  = if Ascii.eqb x c then 0%nat else Str.count_char x s.
Proof.
  intros Hn. induction s as [|d rest IH].
  - cbn. destruct (Ascii.eqb x c); reflexivity.
  - cbn [subst_char]. destruct (Ascii.eqb d c) eqn:E.
    + apply Ascii.eqb_eq in E. subst d. rewrite count_char_app, Hn, IH.
      cbn [Str.count_char]. destruct (Ascii.eqb x c); reflexivity.
    + cbn [Str.count_char]. rewrite IH. destruct (Ascii.eqb x c) eqn:Ex; [|reflexivity].
      apply Ascii.eqb_eq in Ex. subst x. rewrite Ascii.eqb_sym, E. reflexivity.
Qed.

Lemma subst_char_absent (c : ascii) (new s : string) :
  Str.count_char c s = 0%nat -> subst_char c new s = s.
Proof.
  induction s as [|d rest IH]; cbn [subst_char Str.count_char]; [reflexivity|].
  rewrite (Ascii.eqb_sym d c). destruct (Ascii.eqb c d); [discriminate|].
  intros H. rewrite IH by exact H. reflexivity.
Qed.

(** X13.  The text [send_text_input] hands to adb contains no
    space, and as many ampersands as the input; it is the input with
    every space replaced by [%s] and a backslash put before every
    ampersand, so a text without either is sent as it is.  The
    escaping is not injective: [a b] and [a%sb] are sent alike. *)
Theorem escaped_text_has_no_space (text : string) :
  Str.count_char " " (escape_text text) = 0%nat
  /\ Str.count_char "&" (escape_text text)
     = Str.count_char "&" text
  /\ escape_text text = subst_char "&" "\&" (subst_char " " "%s" text)
  /\ (Str.count_char " " text = 0%nat -> Str.count_char "&" text = 0%nat ->
      escape_text text = text)
  /\ escape_text "a b" = escape_text "a%sb".
Proof.
  assert (E : escape_text text = subst_char "&" "\&" (subst_char " " "%s" text)).
  { unfold escape_text. rewrite !replace_is_subst_char. reflexivity. }
  split; [|split; [|split; [exact E|split; [|reflexivity]]]].
  - rewrite E, subst_char_count by reflexivity. cbn [Ascii.eqb Bool.eqb].
    rewrite subst_char_count by reflexivity. reflexivity.
  - rewrite E. clear E. induction text as [|d rest IH]; [reflexivity|].
    cbn [subst_char]. destruct (Ascii.eqb d " ") eqn:Es.
    + apply Ascii.eqb_eq in Es. subst d. cbn -[subst_char Str.count_char] in *.
      change (subst_char "&" "\&" (String "%" (String "s" (subst_char " " "%s" rest))))
        with (String "%" (String "s" (subst_char "&" "\&" (subst_char " " "%s" rest)))).
      cbn [Str.count_char Ascii.eqb Bool.eqb]. exact IH.
    + cbn [subst_char]. destruct (Ascii.eqb d "&") eqn:Ea.
      * apply Ascii.eqb_eq in Ea. subst d.
        change (Str.count_char "&" ("\&" ++ subst_char "&" "\&" (subst_char " " "%s" rest)))
          with (S (Str.count_char "&" (subst_char "&" "\&" (subst_char " " "%s" rest)))).
        cbn [Str.count_char Ascii.eqb Bool.eqb]. rewrite IH. reflexivity.
      * cbn [Str.count_char]. rewrite IH. reflexivity.
  - intros H1 H2. rewrite E. rewrite (subst_char_absent " ") by exact H1.
    apply subst_char_absent, H2.
Qed.

End ApiActions.

(** ** The backend device registry: scans, ports and screenshots *)

Section BackendMore.

Import BackendDevice.

Lemma record_devices_lookup (ds : list AdbDevice) (reg : gmap string Device) (k : string) :
  foldl record_device reg ds !! k
  = match last (handles_of k ds) with
    | Some d => Some {| info := _get_device_info (info_time d) d; adb_device := Some d |}
    | None => reg !! k
    end.
Proof.
  revert reg. induction ds as [|d ds IH]; intros reg; [reflexivity|].
  cbn [foldl]. rewrite IH. unfold handles_of. rewrite last_filter_cons.
  destruct (last (filter (fun d0 => serial d0 = k) ds)); [reflexivity|].
  unfold record_device. destruct (decide (serial d = k)) as [<-|Hne].
  - apply lookup_insert_eq.
  - apply lookup_insert_ne, Hne.
Qed.

Lemma handles_of_last_None k (ds : list AdbDevice) :
  last (handles_of k ds) = None <-> k ∉ map serial ds.
Proof.
  rewrite last_None. unfold handles_of. split.
  - intros H Hin. apply list_elem_of_fmap in Hin as (d & -> & Hd).
    assert (Hf : d ∈ filter (fun d0 => serial d0 = serial d) ds)
      by (apply list_elem_of_filter; auto).
    rewrite H in Hf. inversion Hf.
  - intros H. destruct (filter (fun d => serial d = k) ds) as [|d l] eqn:E; [reflexivity|].
    exfalso. apply H.
    assert (Hd : d ∈ filter (fun d => serial d = k) ds) by (rewrite E; left).
    apply list_elem_of_filter in Hd as [<- Hd]. apply list_elem_of_fmap. eauto.
Qed.

Lemma get_device_info_frame now d :
  device_id (_get_device_info now d) = serial d
  /\ last_seen (_get_device_info now d) = now
  /\ (is_connected (_get_device_info now d) = true
      <-> status (_get_device_info now d) = CONNECTED).
Proof.
  unfold _get_device_info.
  destruct (getprop_model d); cbn; [|repeat split; discriminate].
  destruct (getprop_release d); cbn; [|repeat split; discriminate].
  destruct (wm_size d); cbn; repeat split; discriminate.
Qed.

Lemma scan_devices_lookup t found ds svc k :
  scan_runs t found svc ->
  devices (scan_devices t found (Return ds) svc) !! k
  = match last (handles_of k ds) with
    | Some d => Some {| info := _get_device_info (info_time d) d; adb_device := Some d |}
    | None => mark_disconnected <$> devices svc !! k
    end.
Proof.
  intros [H1 H2]. unfold scan_devices. rewrite H1, H2. cbn [negb devices].
  rewrite mark_absent_lookup, record_devices_lookup.
  destruct (last (handles_of k ds)) as [d|] eqn:E.
  - assert (Hin : k ∈ map serial ds).
    { destruct (decide (k ∈ map serial ds)) as [Hin|Hout]; [exact Hin|].
      apply handles_of_last_None in Hout. congruence. }
    cbn. rewrite decide_True by (rewrite elem_of_list_to_set; exact Hin). reflexivity.
  - apply handles_of_last_None in E. destruct (devices svc !! k); cbn; [|reflexivity].
    rewrite decide_False by (rewrite elem_of_list_to_set; exact E). reflexivity.
Qed.

(** X14.  A backend scan that runs ends in one of two ways.  When
    the enumeration raises, the registry is left as it was, so a device
    may still count as connected though nothing was enumerated.  When
    the enumeration succeeds, a registered device counts as connected
    only if the scan enumerated it; every device the scan did not
    enumerate is DISCONNECTED, flagged unconnected and without handle;
    every enumerated device is registered with its handle and the
    record built for that handle, whose [last_seen] is the clock
    reading taken while building it, and counts as connected exactly
    when that record has status CONNECTED.  Either way the time of the
    scan is recorded. *)
Theorem backend_scan_flags_follow_enumeration (t : Q) (found : bool)
        (enumeration : result (list AdbDevice)) (svc : DeviceService) :
  scan_runs t found svc ->
  let svc' := scan_devices t found enumeration svc in
  (forall e, enumeration = Raise e -> devices svc' = devices svc)
  /\ (forall ds, enumeration = Return ds ->
        (forall k dev, devices svc' !! k = Some dev ->
           Device_is_connected dev = true -> k ∈ map serial ds)
        /\ (forall k dev, devices svc' !! k = Some dev -> k ∉ map serial ds ->
              status (info dev) = DISCONNECTED
              /\ is_connected (info dev) = false
              /\ adb_device dev = None)
        /\ (forall d, d ∈ ds ->
              exists d' dev, d' ∈ ds /\ serial d' = serial d
                /\ devices svc' !! serial d = Some dev
                /\ adb_device dev = Some d'
                /\ info dev = _get_device_info (info_time d') d'
                /\ device_id (info dev) = serial d
                /\ last_seen (info dev) = info_time d'
                /\ (Device_is_connected dev = true <-> status (info dev) = CONNECTED)))
  /\ adb_client svc' = true
  /\ _last_scan_time svc' = t
  /\ _scan_interval svc' = _scan_interval svc.
Proof.
  intros Hrun. cbn zeta. split; [|split].
  { intros e ->. destruct Hrun as [H1 H2]. unfold scan_devices.
    rewrite H1, H2. reflexivity. }
  { intros ds ->.
    assert (Habsent : forall k dev,
              devices (scan_devices t found (Return ds) svc) !! k = Some dev ->
              k ∉ map serial ds ->
              status (info dev) = DISCONNECTED
              /\ is_connected (info dev) = false /\ adb_device dev = None).
    { intros k dev Hk Hout. rewrite (scan_devices_lookup _ _ _ _ _ Hrun) in Hk.
      apply handles_of_last_None in Hout. rewrite Hout in Hk.
      destruct (devices svc !! k) as [old|]; [|discriminate].
      injection Hk as <-. repeat split. }
    split.
    { intros k dev Hk Hc. destruct (decide (k ∈ map serial ds)) as [Hin|Hout]; [exact Hin|].
      destruct (Habsent k dev Hk Hout) as (_ & H2 & _).
      unfold Device_is_connected in Hc. rewrite H2 in Hc. discriminate. }
    split; [exact Habsent|].
    intros d Hd. pose proof (scan_devices_lookup t found ds svc (serial d) Hrun) as Hl.
    destruct (last (handles_of (serial d) ds)) as [d'|] eqn:E.
    - apply last_Some_elem_of in E. apply list_elem_of_filter in E as [E1 E2].
      destruct (get_device_info_frame (info_time d') d') as (F1 & F2 & F3).
      exists d', {| info := _get_device_info (info_time d') d'; adb_device := Some d' |}.
      split; [exact E2|]. split; [exact E1|]. split; [exact Hl|].
      split; [reflexivity|]. split; [reflexivity|].
      cbn [info adb_device]. split; [congruence|]. split; [exact F2|].
      unfold Device_is_connected. cbn [info adb_device].
      rewrite bool_decide_eq_true_2 by eauto. rewrite andb_true_r. exact F3.
    - apply handles_of_last_None in E. exfalso. apply E, list_elem_of_fmap. eauto. }
  destruct Hrun as [H1 H2]. unfold scan_devices. rewrite H1, H2.
  split; [reflexivity|]. split; reflexivity.
Qed.

(** The theorem on a registry that holds one connected device: a scan
    that enumerates nothing marks it DISCONNECTED, and a scan whose
    enumeration raises leaves it connected. *)
Lemma backend_scan_flags_follow_enumeration_witness :
  (exists dev,
     devices (scan_devices 20 true (Return []) service_with_one_device)
       !! "emulator-5554"%string = Some dev
     /\ status (info dev) = DISCONNECTED)
  /\ (exists dev,
        devices (scan_devices 20 true (Raise (RuntimeError "adb")) service_with_one_device)
          !! "emulator-5554"%string = Some dev
        /\ Device_is_connected dev = true).
Proof.
  assert (Hrun : Vision.Qltb (20 - _last_scan_time service_with_one_device)
                   (_scan_interval service_with_one_device) = false) by reflexivity.
  assert (Hc : adb_client service_with_one_device || true = true) by reflexivity.
  assert (Hk : devices service_with_one_device !! "emulator-5554"%string
               = Some connected_pixel_phone).
  { unfold service_with_one_device. cbn [devices]. apply lookup_singleton_eq. }
  assert (Hn : "emulator-5554"%string ∉ map serial []) by apply not_elem_of_nil.
  pose proof (backend_scan_lookup_absent 20 true [] service_with_one_device
                "emulator-5554" connected_pixel_phone Hrun Hc Hk Hn) as Hl.
  assert (Hruns : scan_runs 20 true service_with_one_device) by (split; reflexivity).
  split.
  - destruct (backend_scan_flags_follow_enumeration 20 true (Return [])
                service_with_one_device Hruns) as (_ & H & _).
    destruct (H [] eq_refl) as (_ & Habs & _).
    exists (mark_disconnected connected_pixel_phone). split; [exact Hl|].
    apply (Habs _ _ Hl Hn).
  - destruct (backend_scan_flags_follow_enumeration 20 true (Raise (RuntimeError "adb"))
                service_with_one_device Hruns) as (Hkeep & _).
    exists connected_pixel_phone. split; [|reflexivity].
    rewrite (Hkeep _ eq_refl). exact Hk.
Defined.

(** X15.  A scan that runs records its time on every path, and a
    further scan within the scan interval of that time changes nothing,
    whatever adb would have answered. *)
Theorem backend_scan_is_throttled (t t' : Q) (found found' : bool)
        (e e' : result (list AdbDevice)) (svc : DeviceService) :
  Vision.Qltb (t - _last_scan_time svc) (_scan_interval svc) = false ->
  Vision.Qltb (t' - t) (_scan_interval svc) = true ->
  let svc' := scan_devices t found e svc in
  _last_scan_time svc' = t
  /\ _scan_interval svc' = _scan_interval svc
  /\ scan_devices t' found' e' svc' = svc'.
Proof.
  intros H1 H2. cbn zeta.
  assert (H : _last_scan_time (scan_devices t found e svc) = t
              /\ _scan_interval (scan_devices t found e svc) = _scan_interval svc).
  { unfold scan_devices. rewrite H1. destruct (negb (adb_client svc || found)); split; reflexivity. }
  destruct H as [Ht Hi]. split; [exact Ht|]. split; [exact Hi|].
  unfold scan_devices at 1. rewrite Ht, Hi, H2. reflexivity.
Qed.

Lemma backend_scan_is_throttled_witness :
  scan_devices 21 true (Return [pixel_phone])
    (scan_devices 20 true (Return []) service_with_one_device)
  = scan_devices 20 true (Return []) service_with_one_device.
Proof.
  apply (backend_scan_is_throttled 20 21 true true (Return []) (Return [pixel_phone])
           service_with_one_device); reflexivity.
Defined.

Lemma seqZ_sorted (m : Z) (n : nat) : StronglySorted Z.lt (seqZ m (Z.of_nat n)).
Proof.
  revert m. induction n as [|n IH]; intros m.
  - cbn. constructor.
  - rewrite seqZ_cons by lia. replace (Z.pred (Z.of_nat (S n))) with (Z.of_nat n) by lia.
    constructor; [apply IH|].
    apply Forall_forall. intros x Hx. apply elem_of_seqZ in Hx. lia.
Qed.

Lemma port_range_sorted (a b : Z) : StronglySorted Z.lt (port_range a b).
Proof.
  unfold port_range. destruct (decide (0 <= b + 1 - a)) as [H|H].
  - rewrite <- (Z2Nat.id (b + 1 - a)) by exact H. apply seqZ_sorted.
  - unfold seqZ. replace (Z.to_nat (b + 1 - a)) with 0%nat by lia. constructor.
Qed.

Lemma StronglySorted_filter {A} (R : relation A) (P : A -> Prop)
      `{!forall a, Decision (P a)} (l : list A) :
  StronglySorted R l -> StronglySorted R (filter P l).
Proof.
  induction 1 as [|a l Hs IH Hall]; [constructor|].
  rewrite filter_cons. destruct (decide (P a)); [|exact IH].
  constructor; [exact IH|]. apply Forall_forall. intros x Hx.
  apply list_elem_of_filter in Hx as [_ Hx]. rewrite Forall_forall in Hall. auto.
Qed.

Lemma StronglySorted_lt_le (l : list Z) : StronglySorted Z.lt l -> StronglySorted Z.le l.
Proof.
  induction 1 as [|a l Hs IH Hall]; constructor; [exact IH|].
  eapply Forall_impl; [exact Hall|]. intros x Hx. cbn in Hx. lia.
Qed.

(** X16.  Whatever the order in which the workers finish,
    [scan_ports] returns the ports of the range that accepted the
    connection, each once, in increasing order.  Without an adb path
    the result is empty, and a worker count of zero raises. *)
Theorem scan_ports_lists_open_ports_in_order (path : string) (connects : Z -> bool)
        (max_workers start_port end_port : Z) (completed : list Z) :
  0 < max_workers ->
  completed ≡ₚ port_range start_port end_port ->
  let open := filter (fun port => connects port = true) (port_range start_port end_port) in
  scan_ports (Some path) connects max_workers completed = Return open
  /\ StronglySorted Z.lt open
  /\ NoDup open
  /\ (forall port, port ∈ open <->
        start_port <= port <= end_port /\ connects port = true)
  /\ scan_ports None connects max_workers completed = Return []
  /\ ~ returns (scan_ports (Some path) connects 0 completed).
Proof.
  intros Hw Hperm. cbn zeta.
  set (open := filter (fun port => connects port = true) (port_range start_port end_port)).
  assert (Hs : StronglySorted Z.lt open).
  { apply StronglySorted_filter, port_range_sorted. }
  split.
  { unfold scan_ports. destruct (max_workers <=? 0) eqn:E; [lia|]. f_equal.
    unfold sorted. apply (StronglySorted_unique Z.le).
    - apply StronglySorted_merge_sort; apply _.
    - apply StronglySorted_lt_le, Hs.
    - rewrite merge_sort_Permutation. subst open. rewrite Hperm. reflexivity. }
  split; [exact Hs|]. split.
  { subst open. apply NoDup_filter. unfold port_range. apply NoDup_seqZ. }
  split.
  { intros port. subst open. rewrite list_elem_of_filter. unfold port_range.
    rewrite elem_of_seqZ. split; intros [H1 H2]; split; try assumption; lia. }
  split; [reflexivity|].
  intros [a Ha]. discriminate.
Qed.

Lemma scan_ports_lists_open_ports_in_order_witness :
  scan_ports (Some "adb"%string) (fun port => port =? 5557) 10 [5556; 5555; 5557]
  = Return [5557].
Proof.
  assert (Hw : 0 < 10) by lia.
  assert (Hp : [5556; 5555; 5557] ≡ₚ port_range 5555 5557) by apply perm_swap.
  destruct (scan_ports_lists_open_ports_in_order "adb" (fun port => port =? 5557) 10
              5555 5557 _ Hw Hp) as (H & _).
  exact H.
Defined.

(** X17.  When [take_screenshot] returns a screenshot, the device is
    connected, the screenshot is not empty and it is the cached one;
    it was either served from the cache, which is then unchanged, or
    just captured at the current time.  Any request less than a second
    after the capture returns the same bytes without asking the
    device, and a later request with a non-empty capture replaces the
    cache. *)
Theorem screenshot_is_cached_for_a_second (t : Q) (screencap : result (option string))
        (d : Device) (c : ScreenshotCache) (data : option string) :
  let r := take_screenshot t screencap d c in
  r.2 = data ->
  is_Some data ->
  Device_is_connected d = true
  /\ BackendBot.truthy_bytes data = true
  /\ _screenshot_cache r.1 = data
  /\ (r.1 = c \/ (_last_screenshot_time r.1 = t /\ screencap = Return data))
  /\ (forall t' screencap',
        Vision.Qltb (t' - _last_screenshot_time r.1) 1 = true ->
        take_screenshot t' screencap' d r.1 = (r.1, data))
  /\ (forall t' data',
        Vision.Qltb (t' - _last_screenshot_time r.1) 1 = false ->
        BackendBot.truthy_bytes data' = true ->
        take_screenshot t' (Return data') d r.1
        = ({| _last_screenshot_time := t'; _screenshot_cache := data' |}, data')).
Proof.
  cbn zeta. intros Hr Hsome.
  unfold take_screenshot in Hr |- *.
  destruct (Device_is_connected d) eqn:Ec; cbn [negb orb] in *.
  2: { subst data. destruct Hsome; discriminate. }
  assert (Hh : bool_decide (is_Some (adb_device d)) = true).
  { unfold Device_is_connected in Ec. apply andb_true_iff in Ec. tauto. }
  rewrite Hh in *. cbn [negb] in *.
  destruct (Vision.Qltb (t - _last_screenshot_time c) 1
            && BackendBot.truthy_bytes (_screenshot_cache c)) eqn:Ehit.
  - cbn [fst snd] in *. apply andb_true_iff in Ehit as [E1 E2]. subst data.
    split; [reflexivity|]. split; [exact E2|]. split; [reflexivity|]. split; [left; reflexivity|].
    split.
    + intros t' sc' Ht'. rewrite Ht', E2. reflexivity.
    + intros t' data' Ht' Hd'. rewrite Ht', Hd'. reflexivity.
  - destruct screencap as [sd|e]; cbn [fst snd] in *.
    2: { subst data. destruct Hsome; discriminate. }
    destruct (BackendBot.truthy_bytes sd) eqn:Et; cbn [fst snd] in *.
    2: { subst data. destruct Hsome; discriminate. }
    subst data. split; [reflexivity|]. split; [exact Et|]. split; [reflexivity|].
    split; [right; split; reflexivity|].
    cbn [_last_screenshot_time _screenshot_cache]. split.
    + intros t' sc' Ht'. rewrite Ht', Et. reflexivity.
    + intros t' data' Ht' Hd'. rewrite Ht', Hd'. reflexivity.
Qed.

Lemma screenshot_is_cached_for_a_second_witness :
  let c := (take_screenshot 100 (Return (Some "PNG"%string)) connected_pixel_phone
              empty_cache).1 in
  take_screenshot (100 + (1#2)) (Raise IndexError) connected_pixel_phone c
  = (c, Some "PNG"%string).
Proof.
  cbn zeta.
  destruct (screenshot_is_cached_for_a_second 100 (Return (Some "PNG"%string))
              connected_pixel_phone empty_cache (Some "PNG"%string))
    as (_ & _ & _ & _ & H & _).
  - reflexivity.
  - eauto.
  - apply H. reflexivity.
Defined.

End BackendMore.

(** ** The logger *)

Section LoggerProps.

Import Logger.

Lemma keep_latest {A} (n : Z) (l : list A) :
  1 <= n ->
  (if n <? Z.of_nat (length l) then slice_from l (- n) else l)
  = last_entries (Z.to_nat n) l.
Proof.
  intros Hn. destruct (n <? Z.of_nat (length l)) eqn:E.
  - apply slice_from_neg. lia.
  - unfold last_entries. replace (length l - Z.to_nat n)%nat with 0%nat by lia. reflexivity.
Qed.

Lemma count_level_snoc l es e :
  count_level l (es ++ [e]) = count_level l es + (if LogLevel_eqb (level e) l then 1 else 0).
Proof.
  unfold count_level. rewrite filter_app, length_app, filter_cons, filter_nil.
  destruct (LogLevel_eqb (level e) l); cbn.
  - rewrite decide_True by reflexivity. cbn. lia.
  - rewrite decide_False by discriminate. cbn. lia.
Qed.

Lemma count_category_snoc c es e :
  count_category c (es ++ [e])
  = count_category c es + (if decide (category e = c) then 1 else 0).
Proof.
  unfold count_category. rewrite filter_app, length_app, filter_cons, filter_nil.
  destruct (decide (category e = c)); cbn; lia.
Qed.

Lemma count_category_nonneg c es : 0 <= count_category c es.
Proof. unfold count_category. lia. Qed.

Lemma levels_partition es :
  Z.of_nat (length es)
  = count_level DEBUG es + count_level INFO es + count_level WARNING es
    + count_level ERROR es + count_level CRITICAL es.
Proof.
  induction es as [|e es IH] using rev_ind; [reflexivity|].
  rewrite !count_level_snoc, length_app. cbn [length].
  destruct (level e); cbn; lia.
Qed.

Lemma log_tracks now lvl msg cat src s es :
  1 <= max_logs (config s) ->
  tracks s es ->
  tracks (log now lvl msg cat src s)
         (if bool_decide (cat ∈ enabled_categories (config s))
          then es ++ [{| timestamp := now; level := lvl; message := msg;
                         category := cat; source := src |}]
          else es)
  /\ config (log now lvl msg cat src s) = config s.
Proof.
  intros Hn (Hl & Ht & H1 & H2 & H3 & H4 & H5 & Hc). unfold log.
  destruct (bool_decide (cat ∈ enabled_categories (config s))); cbn [negb]; [|repeat split; assumption].
  split; [|reflexivity].
  set (e := {| timestamp := now; level := lvl; message := msg; category := cat; source := src |}).
  unfold tracks. cbn [logs stats config].
  split.
  { rewrite keep_latest by exact Hn. rewrite Hl. apply last_entries_app. }
  unfold _update_stats. cbn [total_logs debug_count info_count warning_count error_count
                             critical_count categories level category].
  rewrite !count_level_snoc, length_app. cbn [length level e].
  split; [lia|].
  split; [destruct lvl; cbn; lia|]. split; [destruct lvl; cbn; lia|].
  split; [destruct lvl; cbn; lia|]. split; [destruct lvl; cbn; lia|].
  split; [destruct lvl; cbn; lia|].
  intros c. rewrite count_category_snoc. cbn [category e].
  pose proof (count_category_nonneg c es) as Hnn.
  pose proof (Hc cat) as Hcat.
  destruct (decide (cat = c)) as [->|Hne].
  - destruct (categories (stats s) !! c) as [n|] eqn:E; rewrite lookup_insert_eq.
    + destruct (decide (count_category c es = 0)); [discriminate|]. injection Hcat as ->.
      rewrite decide_False by lia. reflexivity.
    + destruct (decide (count_category c es = 0)) as [->|]; [|discriminate].
      reflexivity.
  - assert (Hs : forall v, <[cat := v]> (categories (stats s)) !! c
                           = categories (stats s) !! c)
      by (intros v; apply lookup_insert_ne, Hne).
    destruct (categories (stats s) !! cat); rewrite Hs, Hc, Z.add_0_r; reflexivity.
Qed.

Lemma clear_tracks s : tracks (clear_logs s) [] /\ config (clear_logs s) = config s.
Proof.
  split; [|reflexivity]. unfold tracks, clear_logs. cbn.
  repeat split.
Qed.

Lemma do_calls_tracks cs s es :
  1 <= max_logs (config s) ->
  tracks s es ->
  tracks (do_calls cs s) (accepted (enabled_categories (config s)) cs es)
  /\ config (do_calls cs s) = config s.
Proof.
  revert s es. induction cs as [|c cs IH]; intros s es Hn Hs; [split; [exact Hs|reflexivity]|].
  destruct c as [now lvl msg cat src|]; cbn [do_calls do_call accepted].
  - destruct (log_tracks now lvl msg cat src s es Hn Hs) as [Ht Hcfg].
    rewrite <- Hcfg in Hn.
    destruct (IH _ _ Hn Ht) as [A B]. rewrite Hcfg in A, B. split; [exact A|exact B].
  - destruct (clear_tracks s) as [Ht Hcfg].
    rewrite <- Hcfg in Hn.
    destruct (IH _ _ Hn Ht) as [A B]. rewrite Hcfg in A, B. split; [exact A|exact B].
Qed.

(** X18.  Over every sequence of [log] and [clear_logs] calls on a
    fresh logger with a buffer size of at least 1, the statistics
    count exactly the entries logged under an enabled category since
    the last clear, in total, per level and per category, and the
    buffer holds the latest [max_logs] of them.  Hence the total is the
    sum of the five level counters and bounds both the buffer and
    every category counter. *)
Theorem logger_statistics_count_accepted_entries (cfg : LogConfig) (cs : list Call) :
  1 <= max_logs cfg ->
  let s := do_calls cs (fresh_logger cfg) in
  let es := accepted (enabled_categories cfg) cs [] in
  tracks s es
  /\ (Z.of_nat (length (logs s)) <= max_logs cfg)
  /\ (Z.of_nat (length (logs s)) <= total_logs (stats s))
  /\ total_logs (stats s)
     = debug_count (stats s) + info_count (stats s) + warning_count (stats s)
       + error_count (stats s) + critical_count (stats s)
  /\ (forall c n, categories (stats s) !! c = Some n -> 1 <= n <= total_logs (stats s))
  /\ config s = cfg.
Proof.
  intros Hn. cbn zeta.
  assert (H0 : tracks (fresh_logger cfg) []).
  { unfold tracks, fresh_logger. cbn. repeat split. }
  destruct (do_calls_tracks cs (fresh_logger cfg) [] Hn H0) as [Ht Hcfg].
  cbn [fresh_logger config] in Ht, Hcfg.
  split; [exact Ht|].
  destruct Ht as (Hl & Htot & H1 & H2 & H3 & H4 & H5 & Hc).
  rewrite Hcfg in Hl.
  assert (Hlen : length (logs (do_calls cs (fresh_logger cfg)))
                 = Nat.min (Z.to_nat (max_logs cfg))
                           (length (accepted (enabled_categories cfg) cs [])))
    by (rewrite Hl; apply last_entries_length).
  split; [lia|]. split; [lia|].
  split; [rewrite Htot, H1, H2, H3, H4, H5; apply levels_partition|].
  split; [|exact Hcfg].
  intros c n Hcn. rewrite Hc in Hcn.
  destruct (decide (count_category c (accepted (enabled_categories cfg) cs []) = 0));
    [discriminate|]. injection Hcn as <-.
  pose proof (count_category_nonneg c (accepted (enabled_categories cfg) cs [])).
  split; [lia|]. rewrite Htot. unfold count_category.
  apply inj_le. apply length_filter.
Qed.

Lemma logger_statistics_count_accepted_entries_witness :
  let s := do_calls [CallLog 1 INFO "started" "bot" "bot";
                     CallLog 2 ERROR "ignored" "network" "bot";
                     CallLog 3 ERROR "failed" "bot" "bot"] init in
  total_logs (stats s) = 2 /\ categories (stats s) !! "bot"%string = Some 2.
Proof.
  cbn zeta.
  assert (Hn : 1 <= max_logs (config init)) by (cbn; lia).
  destruct (logger_statistics_count_accepted_entries (config init)
              [CallLog 1 INFO "started" "bot" "bot";
               CallLog 2 ERROR "ignored" "network" "bot";
               CallLog 3 ERROR "failed" "bot" "bot"] Hn)
    as ((_ & Ht & _ & _ & _ & _ & _ & Hc) & _).
  split; [exact Ht|]. exact (Hc "bot"%string).
Defined.

End LoggerProps.

(** ** Perception: timing, unit recognition, cells and the grid *)

Section Timing.

Import Vision.

Variable F : Type.
Variable fsum : list F -> F.
Variable fdiv : F -> nat -> F.
Variable zero : F.

Lemma keep_latest_nat {A} (n : nat) (l : list A) :
  (1 <= n)%nat ->
  (if (n <? length l)%nat then slice_from l (- Z.of_nat n) else l) = last_entries n l.
Proof.
  intros Hn. destruct (n <? length l)%nat eqn:E.
  - rewrite slice_from_neg by lia. rewrite Nat2Z.id. reflexivity.
  - apply Nat.ltb_ge in E. unfold last_entries.
    replace (length l - n)%nat with 0%nat by lia. reflexivity.
Qed.

(** One call: the list whose length divides is never empty. *)
Lemma update_processing_time_returns (m : F) (t : Timing F) :
  let window := last_entries 100 (processing_times F t ++ [m]) in
  _update_processing_time F fsum fdiv m t
  = Return {| processing_times := window;
              average_processing_time := fdiv (fsum window) (length window) |}.
Proof.
  cbn zeta. unfold _update_processing_time. cbn zeta.
  rewrite (keep_latest_nat 100) by lia.
  unfold mean. rewrite last_entries_length, length_app. cbn [length].
  destruct (Nat.eqb_spec (Nat.min 100 (length (processing_times F t) + 1)) 0) as [E|_];
    [lia|].
  reflexivity.
Qed.

Lemma record_times_snoc (ms : list F) (m : F) (t : Timing F) :
  record_times fsum fdiv (ms ++ [m]) t
  = (t' ← record_times fsum fdiv ms t; _update_processing_time F fsum fdiv m t').
Proof.
  revert t. induction ms as [|x ms IH]; intros t.
  - cbn [app record_times mbind result_bind bind].
    destruct (_update_processing_time F fsum fdiv m t); reflexivity.
  - cbn [app record_times].
    destruct (_update_processing_time F fsum fdiv x t) as [t'|e]; [|reflexivity].
    cbn [mbind result_bind bind]. apply IH.
Qed.

Lemma record_times_window (ms : list F) (t : Timing F) (all : list F) :
  processing_times F t = last_entries 100 all ->
  exists t', record_times fsum fdiv ms t = Return t'
             /\ processing_times F t' = last_entries 100 (all ++ ms).
Proof.
  revert t all. induction ms as [|m ms IH]; intros t all Ht.
  - exists t. split; [reflexivity|]. rewrite app_nil_r. exact Ht.
  - cbn [record_times]. rewrite update_processing_time_returns.
    cbn [mbind result_bind bind].
    destruct (IH {| processing_times := last_entries 100 (processing_times F t ++ [m]);
                    average_processing_time :=
                      fdiv (fsum (last_entries 100 (processing_times F t ++ [m])))
                           (length (last_entries 100 (processing_times F t ++ [m]))) |}
                 (all ++ [m])) as (t' & Hr & Hw).
    + cbn [processing_times]. rewrite Ht. apply last_entries_app.
    + exists t'. split; [exact Hr|]. rewrite Hw, <- app_assoc. reflexivity.
Qed.

(** The state after a sequence of measurements that ends with [m]. *)
Lemma record_times_state (ms : list F) (m : F) :
  let window := last_entries 100 (ms ++ [m]) in
  record_times fsum fdiv (ms ++ [m]) (no_timing zero)
  = Return {| processing_times := window;
              average_processing_time := fdiv (fsum window) (length window) |}.
Proof.
  cbn zeta. rewrite record_times_snoc.
  destruct (record_times_window ms (no_timing zero) []) as (t' & Hr & Hw);
    [reflexivity|].
  rewrite Hr. cbn [mbind result_bind bind app] in *.
  rewrite update_processing_time_returns. cbn zeta.
  rewrite Hw, last_entries_app. reflexivity.
Qed.

(** X19.  No sequence of measurements makes [_update_processing_time]
    raise.  After any non-empty sequence the timing history is the
    latest 100 measurements, ending with the newest, and the average is
    the sum of exactly that window divided by its length, so two
    sequences with the same latest 100 measurements leave the same
    history and the same average. *)
Theorem processing_times_keep_latest_100 (ms : list F) (m : F) :
  exists t,
    record_times fsum fdiv (ms ++ [m]) (no_timing zero) = Return t
    /\ processing_times F t = last_entries 100 (ms ++ [m])
    /\ length (processing_times F t) = Nat.min 100 (length ms + 1)
    /\ last (processing_times F t) = Some m
    /\ average_processing_time F t
       = fdiv (fsum (processing_times F t)) (length (processing_times F t))
    /\ (forall ms' m',
          last_entries 100 (ms' ++ [m']) = last_entries 100 (ms ++ [m]) ->
          record_times fsum fdiv (ms' ++ [m']) (no_timing zero) = Return t).
Proof.
  eexists. split; [apply record_times_state|].
  cbn [processing_times average_processing_time].
  split; [reflexivity|]. split.
  { rewrite last_entries_length, length_app. reflexivity. }
  split.
  { unfold last_entries. rewrite length_app. cbn [length].
    rewrite drop_app_le by lia. apply last_snoc. }
  split; [reflexivity|].
  intros ms' m' Hsame. rewrite record_times_state. cbn zeta.
  rewrite Hsame. reflexivity.
Qed.

End Timing.

(** In binary64 the average is not bounded by the measurements: three
    measurements of 0.1 average to 0.10000000000000002. *)
Lemma binary64_average_exceeds_measurements :
  let tenth := Binary64.one_tenth in
  exists t,
    record_times Binary64.fsum Binary64.fdiv [tenth; tenth; tenth] (no_timing 0%float)
    = Return t
    /\ Vision.processing_times float t = [tenth; tenth; tenth]
    /\ Vision.average_processing_time float t = 0x1.999999999999bp-4%float
    /\ PrimFloat.ltb tenth (Vision.average_processing_time float t) = true.
Proof.
  cbv zeta. eexists. split; [vm_compute; reflexivity|].
  cbn [Vision.processing_times Vision.average_processing_time].
  split; [reflexivity|]. split; reflexivity.
Qed.

Section Units.

Import Vision.

Variable cv : Cv2.

Lemma recognize_unit_unfold svc s img :
  _base64_to_image cv s = Return img ->
  recognize_unit cv svc s
  = match _match_unit svc img with
    | Return (matched, color_confidence) =>
        let overall :=
          if 0 <? (_match_rank svc img).1
          then Qmin (1 - color_confidence / 2000) (_match_rank svc img).2
          else (1 - color_confidence / 2000)%Q in
        {| unit_type := if negb (String.eqb matched "empty.png")
                        then Str.replace ".png" "" matched else "empty";
           ur_confidence := Qmax 0 overall;
           rank := (_match_rank svc img).1;
           rank_confidence := (_match_rank svc img).2;
           position := (img_width img / 2, img_height img / 2) |}
    | Raise _ => unknown_unit
    end.
Proof.
  intros Hd. unfold recognize_unit, recognize_unit_body.
  rewrite (decoded_needs_cv2 cv s img Hd). cbn [mbind result_bind bind]. rewrite Hd.
  cbn [mbind result_bind bind].
  destruct (_match_unit svc img) as [[matched cc]|e]; [|reflexivity].
  cbn [mbind result_bind bind]. destruct (_match_rank svc img) as [r rc]. reflexivity.
Qed.

Lemma recognize_unit_undecodable svc s e :
  _base64_to_image cv s = Raise e -> recognize_unit cv svc s = unknown_unit.
Proof.
  intros Hd. unfold recognize_unit, recognize_unit_body.
  destruct (_check_cv2_availability cv) as [[]|e0]; [|reflexivity].
  cbn [mbind result_bind bind]. rewrite Hd. reflexivity.
Qed.

Lemma one_minus_le_1 (q : Q) : (0 <= q)%Q -> (1 - q / 2000 <= 1)%Q.
Proof.
  intros Hq. apply Qle_trans with (1 - 0)%Q; [|unfold Qle; cbn; lia].
  apply Qplus_le_compat; [apply Qle_refl|]. apply Qopp_le_compat.
  apply Qle_shift_div_l; [reflexivity|]. 
  apply Qle_trans with 0%Q; [unfold Qle; cbn; lia|exact Hq].
Qed.

(** X20.  [recognize_unit] never raises, and its confidence lies in
    [0,1] for every input and every answer of the rank classifier.  If
    the image does not decode, or the colour match raises, it is the
    unit [unknown] with confidence 0.  If no reference colour is
    within reach it is the unit [empty] with a confidence of 0, at the
    centre of the image.  With a rank of 0 the confidence is
    max(0, 1 - d/2000) for the matched distance d. *)
Theorem recognized_unit_confidence_is_bounded (svc : VisionService) (s : string) :
  let r := recognize_unit cv svc s in
  in_unit_interval (ur_confidence r)
  /\ (forall e, _base64_to_image cv s = Raise e -> r = unknown_unit)
  /\ (forall img e,
        _base64_to_image cv s = Return img -> _match_unit svc img = Raise e ->
        r = unknown_unit)
  /\ (forall img,
        _base64_to_image cv s = Return img ->
        _match_unit svc img = Return no_match ->
        unit_type r = "empty"%string
        /\ (ur_confidence r == 0)%Q
        /\ position r = (img_width img / 2, img_height img / 2))
  /\ (forall img u d,
        _base64_to_image cv s = Return img ->
        _match_unit svc img = Return (u, d) ->
        (_match_rank svc img).1 <= 0 ->
        (ur_confidence r == Qmax 0 (1 - d / 2000))%Q
        /\ rank r = (_match_rank svc img).1).
Proof.
  cbn zeta. split; [|split; [|split; [|split]]].
  - destruct (_base64_to_image cv s) as [img|e] eqn:Hd.
    2: { rewrite (recognize_unit_undecodable svc s e Hd). split; discriminate. }
    rewrite (recognize_unit_unfold svc s img Hd).
    destruct (_match_unit svc img) as [[matched cc]|e] eqn:Hm; [|split; discriminate].
    cbn [ur_confidence]. pose proof (match_unit_nonneg svc img matched cc Hm) as Hcc.
    pose proof (one_minus_le_1 cc Hcc) as H1.
    split; [apply Q.le_max_l|]. apply Q.max_lub; [discriminate|].
    destruct (0 <? (_match_rank svc img).1); [|exact H1].
    eapply Qle_trans; [apply Q.le_min_l|exact H1].
  - apply recognize_unit_undecodable.
  - intros img e Hd Hm. rewrite (recognize_unit_unfold svc s img Hd), Hm. reflexivity.
  - intros img Hd Hm. rewrite (recognize_unit_unfold svc s img Hd), Hm.
    unfold no_match. cbn [unit_type ur_confidence position String.eqb negb].
    split; [reflexivity|]. split; [|reflexivity].
    apply Q.max_l.
    assert (Hneg : (1 - inject_Z 2001 / 2000 <= 0)%Q) by (unfold Qle; cbn; lia).
    destruct (0 <? (_match_rank svc img).1); [|exact Hneg].
    eapply Qle_trans; [apply Q.le_min_l|exact Hneg].
  - intros img u d Hd Hm Hr. rewrite (recognize_unit_unfold svc s img Hd), Hm.
    cbn [ur_confidence rank]. split; [|reflexivity].
    destruct (0 <? (_match_rank svc img).1) eqn:E; [lia|]. reflexivity.
Qed.

(** X21.  [_analyze_cell] reports a cell occupied exactly when it
    gives it a label.  An unoccupied cell has confidence 0 (an empty
    crop) or 0.1 (too dark or too bright), and an occupied one is never
    empty and has a mean brightness within [30,220]. *)
Theorem occupied_cells_are_labelled (svc : VisionService) (cell : image)
        (occ : bool) (ct : option string) (conf : Q) :
  _analyze_cell cv svc cell = Return (occ, ct, conf) ->
  (occ = true <-> is_Some ct)
  /\ (occ = false -> conf = 0%Q \/ conf = (1#10)%Q)
  /\ (img_size cell = 0 -> occ = false /\ conf = 0%Q)
  /\ (occ = true -> img_size cell <> 0
                    /\ Qltb (mean_brightness cv cell) 30 = false
                    /\ Qltb 220 (mean_brightness cv cell) = false).
Proof.
  unfold _analyze_cell.
  destruct (img_size cell =? 0) eqn:Es.
  { intros [= <- <- <-]. apply Z.eqb_eq in Es.
    repeat split; try discriminate; auto. intros [x Hx]. discriminate. }
  apply Z.eqb_neq in Es.
  destruct (Qltb (mean_brightness cv cell) 30) eqn:E1; cbn [orb].
  { intros [= <- <- <-]. repeat split; try discriminate; auto; try contradiction.
    intros [x Hx]. discriminate. }
  destruct (Qltb 220 (mean_brightness cv cell)) eqn:E2.
  { intros [= <- <- <-]. repeat split; try discriminate; auto; try contradiction.
    intros [x Hx]. discriminate. }
  assert (Hgoal : occ = true /\ is_Some ct ->
    (occ = true <-> is_Some ct)
    /\ (occ = false -> conf = 0%Q \/ conf = (1 # 10)%Q)
    /\ (img_size cell = 0 -> occ = false /\ conf = 0%Q)
    /\ (occ = true -> img_size cell <> 0 /\ false = false /\ false = false)).
  { intros [-> Hct]. repeat split; try discriminate; auto; contradiction. }
  intros H. apply Hgoal. clear Hgoal. revert H.
  destruct (color_branch svc cell) as [[[[b' ct'] conf']|]|e] eqn:Hb; [| |discriminate].
  - cbn [mbind result_bind bind]. intros [= <- <- <-].
    unfold color_branch in Hb.
    destruct (negb (is_empty (ref_colors svc)) && negb (is_empty (ref_units svc)));
      [|discriminate].
    destruct (_match_unit svc cell) as [[u q]|e]; [|discriminate].
    cbn [mbind result_bind bind] in Hb.
    destruct (negb (String.eqb u "empty.png") && Qleb q 2000); [|discriminate].
    destruct (_match_rank svc cell) as [r rc]. injection Hb as <- <- _. eauto.
  - cbn [mbind result_bind bind]. unfold template_branch.
    destruct (template_loop cv cell (templates svc) (None, 0%Q)) as [[bm bc]|e];
      [|discriminate].
    cbn [mbind result_bind bind].
    destruct (truthy bm) eqn:Et; intros [= <- <- <-]; [|eauto].
    destruct bm; [eauto|discriminate].
Qed.

End Units.

Lemma occupied_cells_are_labelled_witness :
  Vision._analyze_cell (Samples.stub_cv []) Samples.two_refs Samples.two_tone_cell
  = Return (true, Some "alpha"%string, Qmax (1#10) (1 - inject_Z 1400 / 2000))
  /\ is_Some (Some "alpha"%string).
Proof.
  assert (H : Vision._analyze_cell (Samples.stub_cv []) Samples.two_refs Samples.two_tone_cell
              = Return (true, Some "alpha"%string, Qmax (1#10) (1 - inject_Z 1400 / 2000)))
    by (vm_compute; reflexivity).
  split; [exact H|].
  destruct (occupied_cells_are_labelled (Samples.stub_cv []) Samples.two_refs
              Samples.two_tone_cell _ _ _ H) as ([Hl _] & _).
  apply Hl. reflexivity.
Defined.

Section ManaBounds.

Import Vision.

Variable cv : Cv2.

Lemma slice_length_le {A} (l : list A) (a n : Z) :
  0 <= n -> (length (slice l a (a + n)) <= Z.to_nat n)%nat.
Proof.
  intros Hn. unfold slice. rewrite length_take.
  set (len := Z.of_nat (length l)).
  assert (clamp len (a + n) - clamp len a <= n).
  { unfold clamp. destruct (a + n <? 0) eqn:E1, (a <? 0) eqn:E2; lia. }
  lia.
Qed.

Lemma concat_length_le {A} (ls : list (list A)) (n : nat) :
  Forall (fun l => (length l <= n)%nat) ls -> (length (concat ls) <= length ls * n)%nat.
Proof.
  induction 1 as [|l ls Hl Hls IH]; cbn [concat length]; [lia|].
  rewrite length_app. lia.
Qed.

Lemma mana_region_area_le (m : ManaConfig) (img : image) :
  0 <= mana_bar_width m -> 0 <= mana_bar_height m ->
  Z.of_nat (length (concat (mana_region m img))) <= mana_bar_width m * mana_bar_height m.
Proof.
  intros Hw Hh. unfold mana_region, crop_rect.
  set (rows := slice img (mana_bar_y m) (mana_bar_y m + mana_bar_height m)).
  assert (Hrows : (length rows <= Z.to_nat (mana_bar_height m))%nat)
    by (apply slice_length_le, Hh).
  assert (Hcols : Forall (fun l => (length l <= Z.to_nat (mana_bar_width m))%nat)
                         (map (fun row => slice row (mana_bar_x m)
                                            (mana_bar_x m + mana_bar_width m)) rows)).
  { apply Forall_forall. intros l Hl. apply list_elem_of_fmap in Hl as (row & -> & _).
    apply slice_length_le, Hw. }
  pose proof (concat_length_le _ _ Hcols) as Hc. rewrite length_map in Hc.
  nia.
Qed.

Lemma matched_pixels_bounds (m : ManaConfig) (img : image) :
  0 <= mana_bar_width m -> 0 <= mana_bar_height m ->
  0 <= matched_pixels cv m img <= mana_bar_width m * mana_bar_height m.
Proof.
  intros Hw Hh. pose proof (mana_region_area_le m img Hw Hh) as Ha.
  unfold matched_pixels, count_in_range. split; [lia|].
  pose proof (length_filter (fun p => in_range (mana_color_range m) p = true)
                (concat (map (map (hsv_of cv)) (mana_region m img)))) as Hf.
  assert (Hl : length (concat (map (map (hsv_of cv)) (mana_region m img)))
               = length (concat (mana_region m img))).
  { rewrite !length_concat. f_equal. rewrite map_map. apply map_ext. intros r. apply length_map. }
  lia.
Qed.

Lemma bar_fraction_bounds (m : ManaConfig) (img : image) :
  0 <= mana_bar_width m -> 0 <= mana_bar_height m ->
  mana_bar_width m * mana_bar_height m <> 0 ->
  (0 <= bar_fraction cv m img <= 1)%Q.
Proof.
  intros Hw Hh Hne. destruct (matched_pixels_bounds m img Hw Hh) as [H0 H1].
  assert (Hpos : 0 < mana_bar_width m * mana_bar_height m) by nia.
  split; [apply bar_fraction_nonneg, Hpos|].
  unfold bar_fraction. apply Qle_shift_div_r.
  - change 0%Q with (inject_Z 0). rewrite <- Zlt_Qlt. exact Hpos.
  - rewrite Qmult_1_l. rewrite <- Zle_Qle. exact H1.
Qed.

(** X22.  For a mana bar of non-negative width and height, every
    frame, decodable or not and of any size, gives a reading with
    mana between 0 and 10, a percentage between 0 and 100 and a
    confidence between 0 and 1. *)
Theorem mana_reading_stays_in_range (svc : VisionService) (s : string) :
  0 <= mana_bar_width (mana_config svc) ->
  0 <= mana_bar_height (mana_config svc) ->
  let a := analyze_mana cv svc s in
  0 <= current_mana a <= max_mana a
  /\ max_mana a = 10
  /\ (0 <= mana_percentage a <= 100)%Q
  /\ (0 <= ma_confidence a <= 1)%Q.
Proof.
  intros Hw Hh. cbn zeta.
  assert (Hzero : 0 <= current_mana zero_mana_analysis <= max_mana zero_mana_analysis
                  /\ max_mana zero_mana_analysis = 10
                  /\ (0 <= mana_percentage zero_mana_analysis <= 100)%Q
                  /\ (0 <= ma_confidence zero_mana_analysis <= 1)%Q).
  { cbn. repeat split; try lia; discriminate. }
  destruct (_base64_to_image cv s) as [img|e] eqn:Hd.
  2: { destruct (mana_body_undecodable cv svc s e Hd) as [e' He'].
       unfold analyze_mana. rewrite He'. exact Hzero. }
  destruct (Z.eq_dec (img_size (mana_region (mana_config svc) img)) 0) as [Hs|Hs].
  { unfold analyze_mana, analyze_mana_body.
    rewrite (decoded_needs_cv2 cv s img Hd). cbn [mbind result_bind bind].
    rewrite Hd. cbn [mbind result_bind bind]. unfold cvtColor_BGR2HSV.
    rewrite Hs. exact Hzero. }
  destruct (Z.eq_dec (mana_bar_width (mana_config svc) * mana_bar_height (mana_config svc)) 0)
    as [Ha|Ha].
  { unfold analyze_mana, analyze_mana_body.
    rewrite (decoded_needs_cv2 cv s img Hd). cbn [mbind result_bind bind].
    rewrite Hd. cbn [mbind result_bind bind]. unfold cvtColor_BGR2HSV.
    destruct (Z.eqb_spec (img_size (mana_region (mana_config svc) img)) 0); [contradiction|].
    cbn [mbind result_bind bind]. rewrite Ha. exact Hzero. }
  rewrite (analyze_mana_unfold cv svc s img Hd Hs Ha). cbn zeta.
  cbn [current_mana max_mana mana_percentage ma_confidence].
  destruct (bar_fraction_bounds (mana_config svc) img Hw Hh Ha) as [F0 F1].
  set (f := bar_fraction cv (mana_config svc) img) in *.
  assert (P0 : (0 <= f * 100)%Q).
  { apply Qmult_le_0_compat; [exact F0|discriminate]. }
  assert (P1 : (f * 100 <= 100)%Q).
  { apply Qle_trans with (1 * 100)%Q; [|discriminate].
    apply Qmult_le_compat_r; [exact F1|discriminate]. }
  assert (E : (f * 100 / 100 * inject_Z 10 == f * 10)%Q) by field.
  assert (V0 : (0 <= f * 100 / 100 * inject_Z 10)%Q).
  { rewrite E. apply Qmult_le_0_compat; [exact F0|discriminate]. }
  assert (V1 : (f * 100 / 100 * inject_Z 10 <= inject_Z 10)%Q).
  { rewrite E. apply Qle_trans with (1 * 10)%Q; [|discriminate].
    apply Qmult_le_compat_r; [exact F1|discriminate]. }
  split.
  { rewrite int_of_nonneg by exact V0. split.
    - change 0 with (Qfloor (inject_Z 0)). apply Qfloor_resp_le, V0.
    - rewrite <- (Qfloor_Z 10). apply Qfloor_resp_le, V1. }
  split; [reflexivity|]. split; [split; assumption|].
  split; [|apply Q.le_min_r].
  apply Q.min_glb; [|discriminate].
  apply Qle_shift_div_l; [reflexivity|]. rewrite Qmult_0_l. exact P0.
Qed.

End ManaBounds.

Lemma mana_reading_stays_in_range_witness :
  0 <= Vision.current_mana
         (Vision.analyze_mana (Samples.stub_cv [("frame"%string, Samples.mana_frame)])
                              Samples.two_refs "frame") <= 10.
Proof.
  assert (Hw : 0 <= Vision.mana_bar_width (Vision.mana_config Samples.two_refs))
    by (cbn; lia).
  assert (Hh : 0 <= Vision.mana_bar_height (Vision.mana_config Samples.two_refs))
    by (cbn; lia).
  destruct (mana_reading_stays_in_range
              (Samples.stub_cv [("frame"%string, Samples.mana_frame)])
              Samples.two_refs "frame" Hw Hh) as (H & E & _).
  rewrite E in H. exact H.
Defined.

Section GridCounts.

Import Vision.

Variable cv : Cv2.

Lemma count_labelled_cons k c cs :
  count_labelled k (c :: cs)
  = (if decide (labelled k c) then 1 else 0) + count_labelled k cs.
Proof.
  unfold count_labelled. rewrite filter_cons.
  destruct (decide (labelled k c)); cbn [length]; lia.
Qed.

Lemma count_labelled_nonneg k cs : 0 <= count_labelled k cs.
Proof. unfold count_labelled. lia. Qed.

Lemma count_card_lookup (acc : gmap string Z) (c : GridCell) (k : string) :
  k <> ""%string ->
  count_card acc c !! k
  = if decide (labelled k c) then Some (default 0 (acc !! k) + 1) else acc !! k.
Proof.
  intros Hk. unfold count_card, labelled.
  destruct (occupied c) eqn:Eo; cbn [andb].
  - destruct (card_type c) as [k'|] eqn:Ec; cbn [truthy].
    + destruct (String.eqb_spec k' ""); cbn [negb].
      * subst k'. rewrite decide_False; [reflexivity|]. intros [_ [= <-]]. contradiction.
      * destruct (decide (k' = k)) as [->|Hne].
        -- rewrite decide_True by auto. apply lookup_insert_eq.
        -- rewrite decide_False by (intros [_ [= ->]]; contradiction).
           apply lookup_insert_ne. exact Hne.
    + rewrite decide_False; [reflexivity|]. intros [_ H]. discriminate.
  - rewrite decide_False; [reflexivity|]. intros [H _]. discriminate.
Qed.

Lemma count_card_empty_label (acc : gmap string Z) (c : GridCell) :
  count_card acc c !! ""%string = acc !! ""%string.
Proof.
  unfold count_card. destruct (occupied c); cbn [andb]; [|reflexivity].
  destruct (card_type c) as [k'|]; cbn [truthy]; [|reflexivity].
  destruct (String.eqb_spec k' ""); cbn [negb]; [reflexivity|].
  apply lookup_insert_ne. exact n.
Qed.

Lemma detected_cards_lookup (cs : list GridCell) (acc : gmap string Z) (k : string) :
  foldl count_card acc cs !! k
  = if decide (k = ""%string \/ count_labelled k cs = 0) then acc !! k
    else Some (default 0 (acc !! k) + count_labelled k cs).
Proof.
  revert acc. induction cs as [|c cs IH]; intros acc.
  - cbn [foldl]. rewrite decide_True by (right; reflexivity). reflexivity.
  - cbn [foldl]. rewrite IH, count_labelled_cons.
    pose proof (count_labelled_nonneg k cs) as Hn.
    destruct (decide (k = ""%string)) as [->|Hk].
    { rewrite !decide_True by (left; reflexivity). apply count_card_empty_label. }
    rewrite (count_card_lookup acc c k Hk).
    destruct (decide (labelled k c)) as [Hl|Hl].
    + rewrite (decide_False (P := k = ""%string \/ 1 + count_labelled k cs = 0)) by (intros [|]; [contradiction|lia]).
      destruct (decide (k = ""%string \/ count_labelled k cs = 0)) as [[|E]|E]; [contradiction| |].
      * rewrite E. f_equal; lia.
      * cbn [default]. unfold id. f_equal; lia.
    + rewrite Z.add_0_l.
      destruct (decide (k = ""%string \/ count_labelled k cs = 0)); reflexivity.
Qed.

Lemma grid_counts_of_body svc s a :
  analyze_grid_body cv svc s = Return a ->
  total_cells a = Z.of_nat (length (cells a))
  /\ occupied_cells a = count_occupied (cells a)
  /\ empty_cells a = total_cells a - occupied_cells a
  /\ detected_cards a = foldl count_card ∅ (cells a).
Proof.
  unfold analyze_grid_body.
  destruct (_check_cv2_availability cv) as [[]|e]; [|discriminate].
  cbn [mbind result_bind bind].
  destruct (_base64_to_image cv s) as [img|e]; [|discriminate].
  cbn [mbind result_bind bind].
  destruct (mapM (analyze_position cv svc img) (positions (grid_config svc))) as [cs|e];
    [|discriminate].
  cbn [mbind result_bind bind]. intros [= <-]. repeat split.
Qed.

(** X23.  In every grid analysis the total is the number of cells,
    the occupied count is the number of cells flagged occupied, the
    empty count is their difference and not negative, and
    [detected_cards] holds, for every non-empty label, the number of
    occupied cells carrying it, with no entry for a label no occupied
    cell carries: every count is between 1 and the occupied count. *)
Theorem grid_counts_are_consistent (svc : VisionService) (s : string) :
  let a := analyze_grid cv svc s in
  total_cells a = Z.of_nat (length (cells a))
  /\ occupied_cells a = count_occupied (cells a)
  /\ 0 <= occupied_cells a <= total_cells a
  /\ empty_cells a = total_cells a - occupied_cells a
  /\ 0 <= empty_cells a
  /\ (forall k, detected_cards a !! k
                = if decide (k = ""%string \/ count_labelled k (cells a) = 0) then None
                  else Some (count_labelled k (cells a)))
  /\ (forall k n, detected_cards a !! k = Some n -> 1 <= n <= occupied_cells a).
Proof.
  cbn zeta.
  assert (Hcounts : total_cells (analyze_grid cv svc s) = Z.of_nat (length (cells (analyze_grid cv svc s)))
            /\ occupied_cells (analyze_grid cv svc s) = count_occupied (cells (analyze_grid cv svc s))
            /\ empty_cells (analyze_grid cv svc s)
               = total_cells (analyze_grid cv svc s) - occupied_cells (analyze_grid cv svc s)
            /\ detected_cards (analyze_grid cv svc s)
               = foldl count_card ∅ (cells (analyze_grid cv svc s))).
  { unfold analyze_grid. destruct (analyze_grid_body cv svc s) as [a|e] eqn:E.
    - apply (grid_counts_of_body svc s a E).
    - repeat split. }
  destruct Hcounts as (Ht & Ho & He & Hd).
  set (a := analyze_grid cv svc s) in *.
  assert (Hle : count_occupied (cells a) <= Z.of_nat (length (cells a))).
  { unfold count_occupied. apply inj_le, length_filter. }
  assert (Hlook : forall k, detected_cards a !! k
                = if decide (k = ""%string \/ count_labelled k (cells a) = 0) then None
                  else Some (count_labelled k (cells a))).
  { intros k. rewrite Hd, detected_cards_lookup, lookup_empty. cbn [default].
    destruct (decide _); [reflexivity|]. f_equal. }
  split; [exact Ht|]. split; [exact Ho|].
  split; [unfold count_occupied in *; lia|]. split; [exact He|]. split; [lia|].
  split; [exact Hlook|].
  intros k n Hk. rewrite Hlook in Hk.
  destruct (decide (k = ""%string \/ count_labelled k (cells a) = 0)) as [|Hn]; [discriminate|].
  injection Hk as <-. pose proof (count_labelled_nonneg k (cells a)).
  split; [lia|]. rewrite Ho. unfold count_labelled, count_occupied.
  apply inj_le. clear. induction (cells a) as [|c cs IH]; [reflexivity|].
  rewrite !filter_cons. destruct (decide (labelled k c)) as [[Hc _]|Hc].
  - rewrite decide_True by exact Hc. cbn [length]. lia.
  - destruct (decide (occupied c = true)); cbn [length]; lia.
Qed.

End GridCounts.

Section GridStatus.

Import Vision.

Variable cv : Cv2.
Variable imencode : image -> result string.

Lemma row_block (r : Z) (l : list Z) :
  (col ← l; [(r, col)]) = map (fun col => (r, col)) l.
Proof.
  induction l as [|c l IH]; [reflexivity|]. rewrite bind_cons, IH. reflexivity.
Qed.

(** The positions from row [r0] on, [k] rows of them. *)
Lemma positions_from_lookup (ncols : Z) (r0 : Z) (k : nat) (i : nat) (pos : Z * Z) :
  0 < ncols ->
  (row ← seqZ r0 (Z.of_nat k); col ← seqZ 0 ncols; [(row, col)]) !! i = Some pos ->
  pos = (r0 + Z.of_nat i / ncols, Z.of_nat i mod ncols)
  /\ Z.of_nat i / ncols < Z.of_nat k.
Proof.
  intros Hc. revert r0 i. induction k as [|k IH]; intros r0 i.
  - cbn. discriminate.
  - rewrite (seqZ_cons r0 (Z.of_nat (S k))) by lia. replace (Z.pred (Z.of_nat (S k))) with (Z.of_nat k) by lia.
    rewrite bind_cons.
    set (block := col ← seqZ 0 ncols; [(r0, col)]).
    assert (Hblock : block = map (fun col => (r0, col)) (seqZ 0 ncols))
      by apply row_block.
    assert (Hlen : length block = Z.to_nat ncols).
    { rewrite Hblock, length_map, length_seqZ. reflexivity. }
    destruct (decide (i < length block)%nat) as [Hi|Hi].
    + rewrite lookup_app_l by exact Hi. rewrite Hblock, list_lookup_fmap.
      destruct (seqZ 0 ncols !! i) as [c|] eqn:E; [|discriminate].
      apply lookup_seqZ in E as [-> _]. cbn. intros [= <-].
      rewrite Z.div_small, Z.mod_small by lia. split; [f_equal; lia|lia].
    + rewrite lookup_app_r by lia. intros H.
      destruct (IH (Z.succ r0) _ H) as [-> Hlt].
      rewrite Hlen in *.
      assert (Hi' : Z.of_nat (i - Z.to_nat ncols) = Z.of_nat i - ncols) by lia.
      assert (Hd : (Z.of_nat i - ncols) / ncols = Z.of_nat i / ncols - 1).
      { replace (Z.of_nat i - ncols) with (Z.of_nat i + (-1) * ncols) by lia.
        rewrite Z.div_add by lia. lia. }
      assert (Hm : (Z.of_nat i - ncols) mod ncols = Z.of_nat i mod ncols).
      { replace (Z.of_nat i - ncols) with (Z.of_nat i + (-1) * ncols) by lia.
        apply Z.mod_add. lia. }
      rewrite Hi', Hd, Hm in *. split; [f_equal; lia|lia].
Qed.

Lemma positions_empty_without_columns (g : GridConfig) :
  cols g <= 0 -> positions g = [].
Proof.
  intros Hc. unfold positions.
  assert (E : seqZ 0 (cols g) = []) by (unfold seqZ; replace (Z.to_nat (cols g)) with 0%nat by lia; reflexivity).
  rewrite E. induction (seqZ 0 (rows g)) as [|r l IH]; [reflexivity|].
  rewrite bind_cons, IH. reflexivity.
Qed.

Lemma positions_lookup (g : GridConfig) (j : nat) (pos : Z * Z) :
  positions g !! j = Some pos ->
  0 < cols g
  /\ pos = (Z.of_nat j / cols g, Z.of_nat j mod cols g)
  /\ 0 <= pos.1 < rows g
  /\ 0 <= pos.2 < cols g.
Proof.
  intros H.
  assert (Hc : 0 < cols g).
  { destruct (decide (0 < cols g)) as [Hc|Hc]; [exact Hc|].
    rewrite positions_empty_without_columns in H by lia. discriminate. }
  assert (Hr : 0 <= rows g).
  { destruct (decide (0 <= rows g)) as [Hr|Hr]; [exact Hr|].
    assert (E : seqZ 0 (rows g) = [])
      by (unfold seqZ; replace (Z.to_nat (rows g)) with 0%nat by lia; reflexivity).
    unfold positions in H. rewrite E in H. discriminate. }
  unfold positions in H. rewrite <- (Z2Nat.id (rows g)) in H by exact Hr.
  destruct (positions_from_lookup (cols g) 0 _ j pos Hc H) as [-> Hlt].
  split; [exact Hc|]. split; [f_equal; lia|]. cbn [fst snd].
  pose proof (Z.div_pos (Z.of_nat j) (cols g)). pose proof (Z.mod_pos_bound (Z.of_nat j) (cols g)).
  lia.
Qed.

Lemma analysis_cells_positions (svc : VisionService) (s : string) (j : nat) (cell : GridCell) :
  cells (analyze_grid cv svc s) !! j = Some cell ->
  exists img pos,
    _base64_to_image cv s = Return img
    /\ positions (grid_config svc) !! j = Some pos
    /\ analyze_position cv svc img pos = Return cell.
Proof.
  unfold analyze_grid. destruct (analyze_grid_body cv svc s) as [a|e] eqn:E; [|discriminate].
  unfold analyze_grid_body in E.
  destruct (_check_cv2_availability cv) as [[]|e]; [|discriminate].
  cbn [mbind result_bind bind] in E.
  destruct (_base64_to_image cv s) as [img|e]; [|discriminate].
  cbn [mbind result_bind bind] in E.
  destruct (mapM (analyze_position cv svc img) (positions (grid_config svc))) as [cs|e] eqn:Em;
    [|discriminate].
  cbn [mbind result_bind bind] in E. injection E as <-. cbn [cells]. intros Hj.
  apply mapM_result_Forall2 in Em.
  destruct (Forall2_lookup_r _ _ _ _ _ Em Hj) as (pos & Hp & Hc).
  exists img, pos. auto.
Qed.

Lemma analyze_position_corner (svc : VisionService) (img : image) (pos : Z * Z)
      (cell : GridCell) :
  analyze_position cv svc img pos = Return cell ->
  (x cell, y cell) = cell_at (grid_config svc) pos.1 pos.2.
Proof.
  unfold analyze_position, cell_at. destruct pos as [row col]. cbn [fst snd].
  destruct (_analyze_cell cv svc _) as [[[occ ct] conf]|e]; [|discriminate].
  cbn [mbind result_bind bind]. intros [= <-]. reflexivity.
Qed.

Lemma recognize_unit_confidence (svc : VisionService) (s : string) :
  in_unit_interval (ur_confidence (recognize_unit cv svc s)).
Proof.
  unfold recognize_unit, recognize_unit_body.
  destruct (_check_cv2_availability cv) as [[]|e0]; [|split; discriminate].
  cbn [mbind result_bind bind].
  destruct (_base64_to_image cv s) as [img|e]; [|split; discriminate].
  cbn [mbind result_bind bind].
  destruct (_match_unit svc img) as [[matched cc]|e] eqn:Hm; [|split; discriminate].
  cbn [mbind result_bind bind]. destruct (_match_rank svc img) as [r rc].
  cbn [ur_confidence]. pose proof (match_unit_nonneg svc img matched cc Hm) as Hcc.
  assert (H1 : (1 - cc / 2000 <= 1)%Q).
  { apply Qle_trans with (1 - 0)%Q; [|unfold Qle; cbn; lia].
    apply Qplus_le_compat; [apply Qle_refl|]. apply Qopp_le_compat.
    apply Qle_shift_div_l; [reflexivity|].
    apply Qle_trans with 0%Q; [unfold Qle; cbn; lia|exact Hcc]. }
  split; [apply Q.le_max_l|]. apply Q.max_lub; [discriminate|].
  destruct (0 <? r); [|exact H1].
  eapply Qle_trans; [apply Q.le_min_l|exact H1].
Qed.

Lemma unit_details_loop_spec (svc : VisionService) (img : image) (cs : list GridCell)
      (i0 : nat) (ds : list UnitDetail) :
  unit_details_loop cv imencode svc img (Z.of_nat i0) cs = Return ds ->
  Z.of_nat (length ds) <= count_occupied cs
  /\ Forall (fun d =>
              in_unit_interval (ud_confidence d)
              /\ exists j cell,
                   (i0 <= j)%nat
                   /\ cs !! (j - i0)%nat = Some cell
                   /\ occupied cell = true
                   /\ card_type cell <> Some "unknown"%string
                   /\ ud_row d = Z.of_nat j / cols (grid_config svc)
                   /\ ud_col d = Z.of_nat j mod cols (grid_config svc)) ds.
Proof.
  revert i0 ds. induction cs as [|cell cs IH]; intros i0 ds.
  - cbn. intros [= <-]. split; [reflexivity|constructor].
  - cbn [unit_details_loop].
    replace (Z.of_nat i0 + 1) with (Z.of_nat (S i0)) by lia.
    assert (Hskip : forall ds',
              unit_details_loop cv imencode svc img (Z.of_nat (S i0)) cs = Return ds' ->
              Z.of_nat (length ds') <= count_occupied (cell :: cs)
              /\ Forall (fun d =>
                  in_unit_interval (ud_confidence d)
                  /\ exists j cell0,
                       (i0 <= j)%nat
                       /\ (cell :: cs) !! (j - i0)%nat = Some cell0
                       /\ occupied cell0 = true
                       /\ card_type cell0 <> Some "unknown"%string
                       /\ ud_row d = Z.of_nat j / cols (grid_config svc)
                       /\ ud_col d = Z.of_nat j mod cols (grid_config svc)) ds').
    { intros ds' H. destruct (IH _ _ H) as [Hl Hf]. split.
      - unfold count_occupied in *. rewrite filter_cons.
        destruct (decide (occupied cell = true)); cbn [length]; lia.
      - eapply Forall_impl; [exact Hf|]. cbn beta.
        intros d (Hc & j & c0 & Hj & Hlk & Ho & Hu & Hr & Hcl).
        split; [exact Hc|]. exists j, c0. split; [lia|].
        replace (j - i0)%nat with (S (j - S i0)) by lia. auto. }
    destruct (occupied cell) eqn:Eo; cbn [andb]; [|apply Hskip].
    destruct (bool_decide (card_type cell = Some "unknown"%string)) eqn:Eu; cbn [negb];
      [apply Hskip|].
    apply bool_decide_eq_false in Eu.
    destruct (cols (grid_config svc) =? 0); [discriminate|].
    destruct (_extract_cell_image svc img _ _) as [cell_image|]; [|apply Hskip].
    destruct (_image_to_base64 cv imencode cell_image) as [b64|e]; [|discriminate].
    cbn [mbind result_bind bind].
    destruct (unit_details_loop cv imencode svc img (Z.of_nat (S i0)) cs) as [rest|e] eqn:El;
      [|discriminate].
    cbn [mbind result_bind bind]. intros [= <-].
    destruct (Hskip rest eq_refl) as [Hl Hf]. split.
    + unfold count_occupied in *. rewrite filter_cons in *.
      rewrite decide_True in * by exact Eo. cbn [length] in *.
      destruct (IH _ _ El) as [Hl' _]. unfold count_occupied in Hl'. lia.
    + constructor; [|exact Hf]. cbn [ud_confidence ud_row ud_col].
      split; [apply recognize_unit_confidence|].
      exists i0, cell. split; [lia|]. rewrite Nat.sub_diag. auto.
Qed.

(** X24.  [analyze_grid_status] answers an undecodable image with
    the error of the decoder.  Otherwise it embeds the grid analysis of
    the same image, counts the occupied cells as total units, and lists
    no more details than that.  Every detail describes an occupied cell
    of the analysis that is not [unknown]: its row and column lie in the
    grid, they are the ones the index of the cell stands for, the corner
    stored in that cell is the corner of that row and column, and its
    confidence lies in [0,1]. *)
Theorem grid_status_details_match_cells (svc : VisionService) (s : string) :
  let g := grid_config svc in
  (forall e, _base64_to_image cv s = Raise e ->
             analyze_grid_status cv imencode svc s = StatusError e)
  /\ (forall st,
        analyze_grid_status cv imencode svc s = StatusOk st ->
        grid_analysis st = analyze_grid cv svc s
        /\ total_units st = count_occupied (cells (grid_analysis st))
        /\ recognized_units st = Z.of_nat (length (unit_details st))
        /\ 0 <= recognized_units st <= total_units st
        /\ Forall (fun d =>
                     (exists j, describes g (cells (grid_analysis st)) d j)
                     /\ 0 <= ud_row d < rows g
                     /\ 0 <= ud_col d < cols g
                     /\ in_unit_interval (ud_confidence d))
                  (unit_details st)).
Proof.
  cbn zeta. split.
  - intros e He. unfold analyze_grid_status, analyze_grid_status_body. rewrite He. reflexivity.
  - intros st. unfold analyze_grid_status, analyze_grid_status_body.
    destruct (_base64_to_image cv s) as [img|e] eqn:Hd; [|discriminate].
    cbn [mbind result_bind bind].
    set (cs := cells (analyze_grid cv svc s)).
    assert (Hloop : forall ds,
              (if negb (is_empty cs) then unit_details_loop cv imencode svc img 0 cs
               else Return []) = Return ds ->
              Z.of_nat (length ds) <= count_occupied cs
              /\ Forall (fun d =>
                           (exists j, describes (grid_config svc) cs d j)
                           /\ 0 <= ud_row d < rows (grid_config svc)
                           /\ 0 <= ud_col d < cols (grid_config svc)
                           /\ in_unit_interval (ud_confidence d)) ds).
    { intros ds Hds.
      assert (Hspec : unit_details_loop cv imencode svc img (Z.of_nat 0) cs = Return ds
                      \/ ds = []).
      { destruct (is_empty cs); cbn [negb] in Hds; [right; congruence|left; exact Hds]. }
      destruct Hspec as [Hspec| ->].
      2: { split; [unfold count_occupied; cbn; lia|constructor]. }
      destruct (unit_details_loop_spec svc img cs 0 ds Hspec) as [Hl Hf].
      split; [exact Hl|]. eapply Forall_impl; [exact Hf|]. cbn beta.
      intros d (Hc & j & cell & _ & Hlk & Ho & Hu & Hr & Hcl).
      rewrite Nat.sub_0_r in Hlk.
      destruct (analysis_cells_positions svc s j cell Hlk) as (img' & pos & Hd' & Hp & Ha).
      destruct (positions_lookup _ _ _ Hp) as (Hcols & -> & Hrow & Hcol).
      cbn [fst snd] in Hrow, Hcol.
      pose proof (analyze_position_corner svc img' _ cell Ha) as Hxy. cbn [fst snd] in Hxy.
      split; [|rewrite Hr, Hcl; auto].
      exists j, cell. repeat split; try assumption. rewrite Hr, Hcl. exact Hxy. }
    destruct (if negb (is_empty cs) then unit_details_loop cv imencode svc img 0 cs
              else Return []) as [ds|e] eqn:El; [|discriminate].
    cbn [mbind result_bind bind]. intros [= <-].
    cbn [grid_analysis total_units recognized_units unit_details].
    destruct (Hloop ds eq_refl) as [Hl Hf].
    split; [reflexivity|]. split; [reflexivity|]. split; [reflexivity|].
    split; [unfold count_occupied in *; lia|exact Hf].
Qed.

End GridStatus.

Section DominantRanking.

Import Vision.

Lemma sorted_head_below (d : color) (ks : list color) (k : color) :
  StronglySorted color_lt (d :: ks) -> k ∈ ks -> color_lt d k.
Proof.
  intros H Hk. apply StronglySorted_inv in H as [_ H].
  rewrite Forall_forall in H. apply H, Hk.
Qed.

Lemma count_insert_elem (p : color) (l : list (color * Z)) (c : color) (n : Z) :
  keys_sorted l ->
  (c, n) ∈ count_insert p l ->
  (c <> p /\ ((c, n) ∈ l))
  \/ (c = p /\ ((exists n', ((p, n') ∈ l) /\ n = n' + 1)
               \/ ((p ∉ map fst l) /\ n = 1))).
Proof.
  unfold keys_sorted. induction l as [|[d m] l IH]; intros Hs Hin.
  - cbn in Hin. apply list_elem_of_singleton in Hin. injection Hin as -> ->.
    right. split; [reflexivity|]. right. split; [apply not_elem_of_nil|reflexivity].
  - cbn [count_insert] in Hin. cbn [map fst] in Hs.
    assert (Hkeys : forall k x, (k, x) ∈ l -> color_lt d k).
    { intros k x Hk. apply (sorted_head_below d (map fst l)); [exact Hs|].
      apply list_elem_of_fmap. exists (k, x). auto. }
    destruct (color_eqb p d) eqn:Eeq.
    + apply color_eqb_eq in Eeq. subst d.
      apply elem_of_cons in Hin as [Hin|Hin].
      * injection Hin as -> ->. right. split; [reflexivity|]. left. exists m.
        split; [left|reflexivity].
      * left. split; [|right; exact Hin].
        intros ->. apply (color_lt_irrefl p), (Hkeys p n Hin).
    + destruct (color_ltb p d) eqn:Elt.
      * apply elem_of_cons in Hin as [Hin|Hin].
        -- injection Hin as -> ->. right. split; [reflexivity|]. right.
           split; [|reflexivity]. cbn [map fst]. intros Hp.
           apply elem_of_cons in Hp as [->|Hp].
           ++ apply (color_lt_irrefl d). exact Elt.
           ++ apply list_elem_of_fmap in Hp as ([k x] & Hk & Hkx). cbn in Hk. subst k.
              apply (color_lt_irrefl p). eapply color_lt_trans; [exact Elt|].
              apply (Hkeys p x Hkx).
        -- left. split; [|exact Hin]. intros ->.
           apply elem_of_cons in Hin as [Hin|Hin].
           ++ injection Hin as -> ->. apply (color_lt_irrefl d). exact Elt.
           ++ apply (color_lt_irrefl p). eapply color_lt_trans; [exact Elt|].
              apply (Hkeys p n Hin).
      * pose proof (color_lt_total p d Eeq Elt) as Hdp.
        apply elem_of_cons in Hin as [Hin|Hin].
        -- injection Hin as -> ->. left. split; [|left].
           intros ->. apply (color_lt_irrefl p). exact Hdp.
        -- apply StronglySorted_inv in Hs as [Hs' _].
           destruct (IH Hs' Hin) as [[Hne Hl]|[-> [(n' & Hl & ->)|[Hnot ->]]]].
           ++ left. split; [exact Hne|right; exact Hl].
           ++ right. split; [reflexivity|]. left. exists n'. split; [right; exact Hl|reflexivity].
           ++ right. split; [reflexivity|]. right. split; [|reflexivity].
              cbn [map fst]. intros Hp. apply elem_of_cons in Hp as [->|Hp]; [|contradiction].
              apply (color_lt_irrefl d). exact Hdp.
Qed.

Lemma filter_absent {A} `{EqDecision A} (c : A) (l : list A) :
  c ∉ l -> filter (fun p => p = c) l = [].
Proof.
  intros Hc. induction l as [|a l IH]; [reflexivity|].
  rewrite filter_cons. destruct (decide (a = c)) as [->|Hne].
  - exfalso. apply Hc. left.
  - apply IH. intros H. apply Hc. right. exact H.
Qed.

Lemma np_unique_counts (flat : list color) (c : color) (n : Z) :
  (c, n) ∈ np_unique flat ->
  n = Z.of_nat (length (filter (fun p => p = c) flat)).
Proof.
  revert c n. induction flat as [|p flat IH]; intros c n Hin.
  - cbn in Hin. inversion Hin.
  - change (np_unique (p :: flat)) with (count_insert p (np_unique flat)) in Hin.
    rewrite filter_cons.
    destruct (count_insert_elem p _ c n (np_unique_sorted flat) Hin)
      as [[Hne Hl]|[-> [(n' & Hl & ->)|[Hnot ->]]]].
    + rewrite decide_False by congruence. apply IH, Hl.
    + rewrite decide_True by reflexivity. cbn [length]. rewrite (IH p n' Hl). lia.
    + rewrite decide_True by reflexivity. cbn [length].
      rewrite filter_absent; [reflexivity|].
      intros Hp. apply Hnot. apply np_unique_keys. exact Hp.
Qed.

Lemma insert_sorted_sorted (n : Z) (l : list Z) :
  StronglySorted Z.le l -> StronglySorted Z.le (insert_sorted n l).
Proof.
  induction 1 as [|m l Hs IH Hall]; cbn [insert_sorted].
  - repeat constructor.
  - destruct (n <=? m) eqn:E.
    + apply Z.leb_le in E. constructor; [constructor; assumption|].
      constructor; [exact E|]. eapply Forall_impl; [exact Hall|]. cbn. intros x Hx. lia.
    + apply Z.leb_gt in E. constructor; [exact IH|].
      apply Forall_forall. intros x Hx. apply insert_sorted_elem in Hx as [->|Hx]; [lia|].
      rewrite Forall_forall in Hall. apply Hall, Hx.
Qed.

Lemma np_sort_sorted (l : list Z) : StronglySorted Z.le (np_sort l).
Proof.
  induction l as [|n l IH]; [constructor|]. cbn [np_sort foldr].
  apply insert_sorted_sorted, IH.
Qed.

Lemma StronglySorted_rev {A} (R : relation A) (l : list A) :
  StronglySorted R l -> StronglySorted (flip R) (rev l).
Proof.
  induction 1 as [|a l Hs IH Hall]; [constructor|]. cbn [rev].
  apply StronglySorted_app_2; [|exact IH|repeat constructor].
  intros x1 x2 H1 H2. apply list_elem_of_singleton in H2. subst x2.
  rewrite Forall_forall in Hall. apply Hall.
  apply list_elem_of_In. apply in_rev. apply list_elem_of_In. exact H1.
Qed.

Lemma StronglySorted_lookup_lt {A} (R : relation A) (l : list A) (i j : nat) (a b : A) :
  StronglySorted R l -> (i < j)%nat -> l !! i = Some a -> l !! j = Some b -> R a b.
Proof.
  intros Hs. revert i j. induction Hs as [|x l Hs IH Hall]; intros i j Hij Hi Hj.
  - discriminate.
  - destruct j as [|j]; [lia|]. cbn in Hj. destruct i as [|i].
    + cbn in Hi. injection Hi as <-. rewrite Forall_forall in Hall.
      apply Hall. eapply list_elem_of_lookup_2. exact Hj.
    + cbn in Hi. apply (IH i j); [lia|assumption|assumption].
Qed.

Lemma getitem_Return {A} (l : list A) (i : nat) (a : A) :
  getitem l i = Return a -> l !! i = Some a.
Proof.
  unfold getitem. rewrite nth_error_lookup. destruct (l !! i); [|discriminate].
  intros [= ->]. reflexivity.
Qed.

Lemma where_first_Return (counts : list Z) (v : Z) (idx : nat) :
  where_first counts v = Return idx ->
  counts !! idx = Some v /\ (forall j, (j < idx)%nat -> counts !! j <> Some v).
Proof.
  unfold where_first. destruct (list_find (fun c => c = v) counts) as [[i x]|] eqn:E;
    [|discriminate].
  intros [= ->]. apply list_find_Some in E as (Hl & -> & Hmin).
  split; [exact Hl|]. intros j Hj Hc. exact (Hmin j v Hc Hj eq_refl).
Qed.

(** The row a rank [v] of the counts selects: the key at the first
    place where the count is [v]. *)
Lemma fill_colors_rows (unique : list color) (counts sorted_count : list Z)
      (idxs : list nat) (colors colors' : list color) :
  fill_colors unique counts sorted_count idxs colors = Return colors' ->
  NoDup idxs ->
  Forall (fun i => (i < length colors)%nat) idxs ->
  length colors' = length colors
  /\ (forall i, i ∉ idxs -> colors' !! i = colors !! i)
  /\ (forall i, i ∈ idxs ->
        exists v idx c,
          sorted_count !! i = Some v
          /\ counts !! idx = Some v
          /\ (forall j, (j < idx)%nat -> counts !! j <> Some v)
          /\ unique !! idx = Some c
          /\ colors' !! i = Some c).
Proof.
  revert colors. induction idxs as [|i idxs IH]; intros colors Hf Hnd Hlt.
  - cbn in Hf. injection Hf as <-. split; [reflexivity|]. split; [reflexivity|].
    intros i Hi. inversion Hi.
  - cbn [fill_colors] in Hf.
    destruct (getitem sorted_count i) as [v|e] eqn:Ev; [|discriminate].
    cbn [mbind result_bind bind] in Hf.
    destruct (where_first counts v) as [idx|e] eqn:Ew; [|discriminate].
    cbn [mbind result_bind bind] in Hf.
    destruct (getitem unique idx) as [c|e] eqn:Ec; [|discriminate].
    cbn [mbind result_bind bind] in Hf.
    apply NoDup_cons in Hnd as [Hni Hnd]. apply Forall_cons in Hlt as [Hi Hlt].
    assert (Hlt' : Forall (fun k => (k < length (<[i:=c]> colors))%nat) idxs)
      by (rewrite length_insert; exact Hlt).
    destruct (IH _ Hf Hnd Hlt') as (Hlen & Hout & Hin).
    rewrite length_insert in Hlen.
    apply getitem_Return in Ev, Ec. apply where_first_Return in Ew as [Hw1 Hw2].
    split; [exact Hlen|]. split.
    + intros k Hk. rewrite Hout by (intros H; apply Hk; right; exact H).
      apply list_lookup_insert_ne. intros ->. apply Hk. left.
    + intros k Hk. apply elem_of_cons in Hk as [->|Hk]; [|apply Hin, Hk].
      exists v, idx, c. repeat split; try assumption.
      rewrite (Hout i Hni). apply list_lookup_insert_eq. exact Hi.
Qed.

Lemma lookup_map {A B : Type} (f : A -> B) (l : list A) (i : nat) :
  map f l !! i = f <$> l !! i.
Proof. apply (list_lookup_fmap f l i). Qed.

Lemma elem_of_rev_iff {A : Type} (l : list A) (x : A) : x ∈ rev l <-> x ∈ l.
Proof.
  split; intros H; apply list_elem_of_In; apply list_elem_of_In in H;
    [apply in_rev|apply (proj1 (in_rev l x))]; exact H.
Qed.

Lemma get_color_rows (img : image) (crop : bool) :
  img_size (looked_at img crop) <> 0 ->
  (10 <= distinct_colors (looked_at img crop))%nat ->
  let uc := np_unique (quantized_pixels (looked_at img crop)) in
  exists colors,
    _get_color img crop = Return colors
    /\ length colors = 5%nat
    /\ (forall i c, colors !! i = Some c ->
          exists idx,
            uc !! idx = Some (c, frequency (looked_at img crop) c)
            /\ rev (np_sort (map snd uc)) !! i = Some (frequency (looked_at img crop) c)
            /\ (forall j c', (j < idx)%nat -> uc !! j = Some c' ->
                             c'.2 <> frequency (looked_at img crop) c)).
Proof.
  intros Hsize Hd. cbn zeta.
  set (uc := np_unique (quantized_pixels (looked_at img crop))).
  assert (Hlen : length uc = distinct_colors (looked_at img crop))
    by apply np_unique_length.
  rewrite (get_color_unfold img crop Hsize). cbn zeta. fold uc.
  rewrite length_map.
  destruct (length uc <? 10)%nat eqn:E; [apply Nat.ltb_lt in E; lia|].
  rewrite length_rev, np_sort_length, length_map.
  replace (Nat.min 5 (length uc)) with 5%nat by lia.
  destruct (fill_colors (map fst uc) (map snd uc) (rev (np_sort (map snd uc)))
              (seq 0 5) zeros_5x3) as [colors|e] eqn:Ef.
  2: { destruct (fill_colors_returns (map fst uc) (map snd uc) (rev (np_sort (map snd uc)))
                   (seq 0 5) zeros_5x3) as (cs & Hcs & _).
       - rewrite !length_map. reflexivity.
       - intros v Hv. apply np_sort_elem, elem_of_rev_iff. exact Hv.
       - apply Forall_forall. intros i Hi. apply elem_of_seq in Hi.
         rewrite length_rev, np_sort_length, length_map. lia.
       - congruence. }
  destruct (fill_colors_rows _ _ _ _ _ _ Ef) as (Hl & _ & Hrows).
  { apply NoDup_seq. }
  { apply Forall_forall. intros i Hi. apply elem_of_seq in Hi. cbn. lia. }
  exists colors. split; [reflexivity|]. split; [exact Hl|].
  intros i c Hic.
  assert (Hi : i ∈ seq 0 5).
  { apply elem_of_seq. apply lookup_lt_Some in Hic. rewrite Hl in Hic. cbn in Hic. lia. }
  destruct (Hrows i Hi) as (v & idx & c0 & Hs & Hc & Hmin & Hu & Hc0).
  assert (c0 = c) by congruence. subst c0.
  rewrite lookup_map in Hc. rewrite lookup_map in Hu.
  destruct (uc !! idx) as [[k n]|] eqn:Eidx; [|discriminate].
  cbn in Hc, Hu. injection Hc as ->. injection Hu as ->.
  assert (Hv : v = frequency (looked_at img crop) c).
  { apply (np_unique_counts _ c v). eapply list_elem_of_lookup_2. exact Eidx. }
  subst v. exists idx. split; [exact Eidx|]. split; [exact Hs|].
  intros j c' Hj Hjc Heq. apply (Hmin j Hj).
  rewrite lookup_map, Hjc. cbn. rewrite Heq. reflexivity.
Qed.

Lemma frequency_nonneg (unit_img : image) (c : color) : 0 <= frequency unit_img c.
Proof. unfold frequency. lia. Qed.

(** X25.  On an image with at least ten distinct quantized colours
    [_get_color] returns five colours of the image.  The first is a
    most frequent one, and frequencies never increase down the rows.
    Each row is the least colour, in the order of [np.unique], among
    the colours of its frequency, so rows of equal frequency carry the
    same colour and a colour tied with a listed one is never listed
    itself. *)
Theorem dominant_colors_are_ranked (img : image) (crop : bool) :
  img_size (looked_at img crop) <> 0 ->
  (10 <= distinct_colors (looked_at img crop))%nat ->
  let freq := frequency (looked_at img crop) in
  exists colors,
    _get_color img crop = Return colors
    /\ length colors = 5%nat
    /\ (forall i c, colors !! i = Some c ->
          c ∈ quantized_pixels (looked_at img crop))
    /\ (forall c0 c', colors !! 0%nat = Some c0 -> freq c' <= freq c0)
    /\ (forall i j ci cj, (i <= j)%nat ->
          colors !! i = Some ci -> colors !! j = Some cj -> freq cj <= freq ci)
    /\ (forall i c c', colors !! i = Some c ->
          c' ∈ quantized_pixels (looked_at img crop) ->
          freq c' = freq c -> c' = c \/ color_lt c c')
    /\ (forall i j ci cj,
          colors !! i = Some ci -> colors !! j = Some cj ->
          freq ci = freq cj -> ci = cj).
Proof.
  intros Hsize Hd. cbn zeta.
  destruct (get_color_rows img crop Hsize Hd) as (colors & Hc & Hl & Hrows).
  cbn zeta in Hrows.
  set (uc := np_unique (quantized_pixels (looked_at img crop))) in *.
  set (freq := frequency (looked_at img crop)) in *.
  assert (Hsorted : StronglySorted (flip Z.le) (rev (np_sort (map snd uc))))
    by apply StronglySorted_rev, np_sort_sorted.
  assert (Hmono : forall i j ci cj, (i <= j)%nat ->
            colors !! i = Some ci -> colors !! j = Some cj -> freq cj <= freq ci).
  { intros i j ci cj Hij Hi Hj.
    destruct (Hrows i ci Hi) as (_ & _ & Hsi & _).
    destruct (Hrows j cj Hj) as (_ & _ & Hsj & _).
    destruct (decide (i = j)) as [->|Hne]; [rewrite Hsi in Hsj; injection Hsj as ->; lia|].
    apply (StronglySorted_lookup_lt _ _ i j _ _ Hsorted); [lia|assumption|assumption]. }
  assert (Hpix : forall c', c' ∈ quantized_pixels (looked_at img crop) ->
            exists idx', uc !! idx' = Some (c', freq c')).
  { intros c' Hc'. apply np_unique_keys in Hc'. fold uc in Hc'.
    apply list_elem_of_fmap in Hc' as ([k n] & Hk & Hkn). cbn in Hk. subst k.
    pose proof (np_unique_counts _ c' n Hkn) as ->.
    apply list_elem_of_lookup_1 in Hkn. exact Hkn. }
  exists colors. split; [exact Hc|]. split; [exact Hl|]. split.
  { intros i c Hi. destruct (Hrows i c Hi) as (idx & Hidx & _).
    apply np_unique_keys. fold uc. apply list_elem_of_fmap. exists (c, freq c).
    split; [reflexivity|]. eapply list_elem_of_lookup_2. exact Hidx. }
  split.
  { intros c0 c' H0.
    destruct (decide (c' ∈ quantized_pixels (looked_at img crop))) as [Hc'|Hc'].
    - destruct (Hpix c' Hc') as (idx' & Hidx').
      assert (Hin : freq c' ∈ rev (np_sort (map snd uc))).
      { apply elem_of_rev_iff, np_sort_elem.
        apply list_elem_of_fmap. exists (c', freq c'). split; [reflexivity|].
        eapply list_elem_of_lookup_2. exact Hidx'. }
      apply list_elem_of_lookup_1 in Hin as [j Hj].
      destruct (Hrows 0%nat c0 H0) as (_ & _ & Hs0 & _).
      destruct j as [|j]; [rewrite Hs0 in Hj; injection Hj as ->; lia|].
      apply (StronglySorted_lookup_lt _ _ 0 (S j) _ _ Hsorted); [lia|assumption|assumption].
    - subst freq. unfold frequency at 1. rewrite filter_absent by exact Hc'.
      apply frequency_nonneg. }
  split; [exact Hmono|].
  assert (Hleast : forall i c c', colors !! i = Some c ->
            c' ∈ quantized_pixels (looked_at img crop) ->
            freq c' = freq c -> c' = c \/ color_lt c c').
  { intros i c c' Hi Hc' Hf.
    destruct (Hrows i c Hi) as (idx & Hidx & _ & Hmin).
    destruct (Hpix c' Hc') as (idx' & Hidx').
    destruct (Nat.lt_trichotomy idx idx') as [Hlt|[->|Hgt]].
    - right. apply (StronglySorted_lookup_lt color_lt (map fst uc) idx idx');
        [apply np_unique_sorted|exact Hlt| |]; rewrite lookup_map.
      + rewrite Hidx. reflexivity.
      + rewrite Hidx'. reflexivity.
    - left. congruence.
    - exfalso. apply (Hmin idx' (c', freq c') Hgt Hidx'). exact Hf. }
  split; [exact Hleast|].
  intros i j ci cj Hi Hj Hf.
  assert (Hcj : cj ∈ quantized_pixels (looked_at img crop)).
  { destruct (Hrows j cj Hj) as (idx & Hidx & _).
    apply np_unique_keys. fold uc. apply list_elem_of_fmap. exists (cj, freq cj).
    split; [reflexivity|]. eapply list_elem_of_lookup_2. exact Hidx. }
  assert (Hci : ci ∈ quantized_pixels (looked_at img crop)).
  { destruct (Hrows i ci Hi) as (idx & Hidx & _).
    apply np_unique_keys. fold uc. apply list_elem_of_fmap. exists (ci, freq ci).
    split; [reflexivity|]. eapply list_elem_of_lookup_2. exact Hidx. }
  destruct (Hleast i ci cj Hi Hcj (eq_sym Hf)) as [->|H1]; [reflexivity|].
  destruct (Hleast j cj ci Hj Hci Hf) as [->|H2]; [reflexivity|].
  exfalso. apply (color_lt_irrefl ci). eapply color_lt_trans; eassumption.
Qed.

Lemma dominant_colors_are_ranked_witness :
  exists colors,
    _get_color Samples.two_tone_cell true = Return colors
    /\ length colors = 5%nat.
Proof.
  assert (Hs : img_size (looked_at Samples.two_tone_cell true) <> 0)
    by (vm_compute; discriminate).
  assert (Hd : (10 <= distinct_colors (looked_at Samples.two_tone_cell true))%nat).
  { unfold distinct_colors. rewrite <- np_unique_length. vm_compute. lia. }
  destruct (dominant_colors_are_ranked Samples.two_tone_cell true Hs Hd)
    as (colors & Hc & Hl & _).
  exists colors. split; [exact Hc|exact Hl].
Defined.

End DominantRanking.

Section References.

Import Vision.

Lemma get_color_Return_size (img : image) (crop : bool) (colors : list color) :
  _get_color img crop = Return colors -> img_size (looked_at img crop) <> 0.
Proof.
  unfold _get_color. fold (looked_at img crop). unfold cvtColor_BGR2RGB.
  destruct (img_size (looked_at img crop) =? 0) eqn:E; [discriminate|].
  intros _. apply Z.eqb_neq. exact E.
Qed.

Lemma get_color_Raise_size (img : image) (crop : bool) (e : exn) :
  _get_color img crop = Raise e -> img_size (looked_at img crop) = 0.
Proof.
  intros H. destruct (Z.eq_dec (img_size (looked_at img crop)) 0) as [E|E]; [exact E|].
  destruct (get_color_returns img crop E) as (colors & Hc & _). congruence.
Qed.

Lemma match_colors_returns (units : list string) (refs colors : list color) :
  length units = length refs -> refs <> [] ->
  returns (match_colors units refs colors).
Proof.
  intros Hlen Hne. induction colors as [|c colors IH]; cbn [match_colors].
  - eexists. reflexivity.
  - destruct (np_min_spec (map (sq_dist c) refs)) as (m & Hm & Hin & _).
    { destruct refs; [congruence|discriminate]. }
    rewrite Hm. cbn [mbind result_bind bind].
    destruct (m <=? 2000); [|exact IH].
    unfold np_argmin. rewrite Hm. cbn [mbind result_bind bind].
    destruct (where_first_elem _ _ Hin) as (i & Hi & Hlt).
    rewrite Hi. cbn [mbind result_bind bind].
    rewrite length_map, <- Hlen in Hlt.
    destruct (getitem_lt units i Hlt) as (u & Hu & _).
    rewrite Hu. cbn [mbind result_bind bind]. eexists. reflexivity.
Qed.

Lemma match_unit_returns (svc : VisionService) (cell : image) :
  length (ref_units svc) = length (ref_colors svc) ->
  img_size (looked_at cell true) <> 0 ->
  returns (_match_unit svc cell).
Proof.
  intros Hlen Hsize. unfold _match_unit.
  destruct (is_empty (ref_colors svc) || is_empty (ref_units svc)) eqn:E.
  - eexists. reflexivity.
  - destruct (get_color_returns cell true Hsize) as (colors & Hc & _).
    rewrite Hc. cbn [mbind result_bind bind].
    destruct (match_colors_returns (ref_units svc) (ref_colors svc) colors Hlen)
      as (hit & Hhit).
    { apply orb_false_elim in E as [E _]. intros E'. rewrite E' in E. discriminate. }
    rewrite Hhit. cbn [mbind result_bind bind]. eexists. reflexivity.
Qed.

Lemma first_row_of_cons (x : string * option image)
      (files : list (string * option image)) (name : string) (c : color) :
  first_row_of files name c -> first_row_of (x :: files) name c.
Proof.
  intros (img & rest & Hin & Hc & Hb). exists img, rest.
  split; [right; exact Hin|]. split; assumption.
Qed.

(** What the loop appends to the two lists. *)
Lemma load_references_loop_appends (files : list (string * option image)) :
  forall units colors u c fin,
    load_references_loop files units colors = (u, c, fin) ->
    exists nu nc,
      u = units ++ nu /\ c = colors ++ nc /\ length nu = length nc
      /\ (forall i name col, nu !! i = Some name -> nc !! i = Some col ->
            first_row_of files name col)
      /\ (fin = true -> forall name img, (name, Some img) ∈ files -> name ∈ nu)
      /\ (fin = false -> exists name img, (name, Some img) ∈ files /\ img_size img = 0).
Proof.
  induction files as [|[file_name [unit_image|]] files IH]; intros units colors u c fin Hl.
  - cbn in Hl. injection Hl as <- <- <-. exists [], [].
    rewrite !app_nil_r.
    split; [reflexivity|]. split; [reflexivity|]. split; [reflexivity|].
    split; [intros i name col Hn; discriminate|]. split; [|discriminate].
    intros _ name img Hin. inversion Hin.
  - cbn [load_references_loop] in Hl.
    destruct (_get_color unit_image false) as [[|c0 rest]|e] eqn:Eg.
    + exfalso. pose proof (get_color_Return_size _ _ _ Eg) as Hs.
      destruct (get_color_returns unit_image false Hs) as (cs & Hcs & Hlen & _).
      rewrite Eg in Hcs. injection Hcs as <-. discriminate.
    + destruct (IH _ _ _ _ _ Hl) as (nu & nc & -> & -> & Hlen & Hrows & Hall & Hfail).
      exists (file_name :: nu), (c0 :: nc).
      rewrite <- !app_assoc. split; [reflexivity|]. split; [reflexivity|].
      split; [cbn; lia|]. split; [|split].
      * intros [|i] name col Hn Hc.
        -- cbn in Hn, Hc. injection Hn as <-. injection Hc as <-.
           exists unit_image, rest. split; [left|]. split; [exact Eg|].
           intros Hd. pose proof (get_color_Return_size _ _ _ Eg) as Hs.
           destruct (get_color_returns unit_image false Hs) as (cs & Hcs & _ & Hz).
           rewrite Eg in Hcs. injection Hcs as Hcs.
           specialize (Hz Hd). rewrite <- Hcs in Hz. injection Hz as -> _. reflexivity.
        -- apply first_row_of_cons. apply (Hrows i); assumption.
      * intros Hf name img Hin. apply elem_of_cons in Hin as [Heq|Hin].
        -- injection Heq as -> _. left.
        -- right. eapply Hall; eassumption.
      * intros Hf. destruct (Hfail Hf) as (name & img & Hin & Hz).
        exists name, img. split; [right; exact Hin|exact Hz].
    + injection Hl as <- <- <-. exists [], []. rewrite !app_nil_r.
      split; [reflexivity|]. split; [reflexivity|]. split; [reflexivity|].
      split; [intros i name col Hn; discriminate|]. split; [discriminate|].
      intros _. exists file_name, unit_image. split; [left|].
      apply (get_color_Raise_size unit_image false e Eg).
  - cbn [load_references_loop] in Hl.
    destruct (IH _ _ _ _ _ Hl) as (nu & nc & -> & -> & Hlen & Hrows & Hall & Hfail).
    exists nu, nc. split; [reflexivity|]. split; [reflexivity|]. split; [exact Hlen|].
    split; [|split].
    + intros i name col Hn Hc. apply first_row_of_cons. apply (Hrows i); assumption.
    + intros Hf name img Hin. apply elem_of_cons in Hin as [Heq|Hin]; [discriminate|].
      eapply Hall; eassumption.
    + intros Hf. destruct (Hfail Hf) as (name & img & Hin & Hz).
      exists name, img. split; [right; exact Hin|exact Hz].
Qed.

(** X26.  Without OpenCV or without the directory
    [load_unit_references] returns false and changes nothing.
    Otherwise the two reference lists have equal length on every path,
    also when the loop raises half way, and the colour stored at an
    index is the first row of [_get_color] on an image listed under the
    name stored at that index: black for an image of fewer than ten
    distinct quantized colours.  A result of true means that the lists
    are not empty and hold every readable file of the listing; a result
    of false means that nothing was stored or that some readable image
    was empty.  After loading, the colour match never raises on a cell
    whose centre crop is not empty. *)
Theorem loaded_references_stay_paired (cv : Cv2) (dir_exists : bool)
        (files : list (string * option image)) (svc : VisionService) :
  let r := load_unit_references cv dir_exists files svc in
  (CV2_AVAILABLE cv && dir_exists = false -> r = (svc, false))
  /\ (CV2_AVAILABLE cv && dir_exists = true ->
        length (ref_units r.1) = length (ref_colors r.1)
        /\ (forall i name c,
              ref_units r.1 !! i = Some name -> ref_colors r.1 !! i = Some c ->
              first_row_of files name c)
        /\ (r.2 = true ->
              ref_units r.1 <> []
              /\ forall name img, (name, Some img) ∈ files -> name ∈ ref_units r.1)
        /\ (r.2 = false ->
              ref_units r.1 = []
              \/ exists name img, (name, Some img) ∈ files /\ img_size img = 0)
        /\ (forall cell, img_size (looked_at cell true) <> 0 ->
              returns (_match_unit r.1 cell))).
Proof.
  cbn zeta. unfold load_unit_references, _check_cv2_availability.
  destruct (CV2_AVAILABLE cv); [|split; [reflexivity|discriminate]].
  destruct dir_exists; cbn [andb negb]; [|split; [reflexivity|discriminate]].
  split; [discriminate|]. intros _.
  destruct (load_references_loop files [] []) as [[u c] fin] eqn:El.
  destruct (load_references_loop_appends files _ _ _ _ _ El)
    as (nu & nc & -> & -> & Hlen & Hrows & Hall & Hfail).
  cbn [app fst snd set_references ref_units ref_colors].
  split; [exact Hlen|]. split; [exact Hrows|]. split; [|split].
  - intros Hok. apply andb_prop in Hok as [Hf Hne].
    split; [destruct nu; [discriminate|congruence]|].
    apply Hall. exact Hf.
  - intros Hok. apply andb_false_iff in Hok as [Hf|Hne].
    + right. apply Hfail. exact Hf.
    + left. destruct nu; [reflexivity|discriminate].
  - intros cell Hsize. apply match_unit_returns; [exact Hlen|exact Hsize].
Qed.

End References.
